(** * Assessment unlocking and curriculum adaptation

    A shallow embedding of the unlock manager and the assessment routes of
    [app/routes/integrated_assessment.py] and of the adaptation rules of
    [app/routes/roadmap.py], with the properties of their specification.

    Conventions.
    - Python integers are [Z]; Python lists are [list]; a dictionary whose
      keys may be absent is a record of [option] fields, so that
      [d.get(k, default)] reads [default (field d)].
    - The curriculum document is what [json.loads] gives: its [phases] are
      an array, the shape the roadmap generator writes, or an object, whose
      keys are strings.  A phase identifier is an integer, as the routes
      with [<int:phase_id>] receive it.
    - The two MongoDB collections the code touches ([users] and
      [learning_progress]) are finite maps.  A progress document is addressed
      by the pair (user_id, phase_id) its queries filter on.
    - Every database call is one atomic operation of a small free monad
      ([proc]); a handler is a term of that monad.  The same term is run
      sequentially ([run]) and interleaved with another one ([interleave]).
    - A database call can fail: the world carries a fault plan, one flag per
      call still to come; a [true] flag makes the call raise.
    - [datetime.now()] is the argument [now] of a handler. *)

From stdpp Require Import base decidable option list sorting gmap strings fin_maps.
From Stdlib Require Import ZArith Lia.

Local Open Scope Z_scope.

(** ** Python helpers *)

(** [sorted(l)] on integers. *)
Definition sorted (l : list Z) : list Z := merge_sort Z.le l.

(** [x in l]. *)
Definition py_in (x : Z) (l : list Z) : bool := bool_decide (x ∈ l).

(** [set(l1) != set(l2)] is [negb (set_eqb l1 l2)]. *)
Definition set_eqb (l1 l2 : list Z) : bool :=
  forallb (fun x => py_in x l2) l1 && forallb (fun x => py_in x l1) l2.

(** [max(l)] of a non-empty list; [max([])] raises and is never reached. *)
Definition py_max (l : list Z) : option Z :=
  match l with
  | [] => None
  | x :: l' => Some (foldl Z.max x l')
  end.

(** [l[i]] with Python's negative indices; [None] is [IndexError]. *)
Definition py_index {A} (l : list A) (i : Z) : option A :=
  if decide (0 <= i) then l !! Z.to_nat i
  else if decide (- Z.of_nat (length l) <= i)
       then l !! Z.to_nat (Z.of_nat (length l) + i)
       else None.

(** [l[i] = x], in range only. *)
Definition py_setitem {A} (l : list A) (i : Z) (x : A) : list A :=
  if decide (0 <= i) then <[Z.to_nat i := x]> l
  else <[Z.to_nat (Z.of_nat (length l) + i) := x]> l.

(** ** The curriculum document (the [road_map] of a user) *)

Record assessment := mk_assessment {
  a_completed : option bool;
  a_score : option Z;
  a_status : option string;
  a_attempts : option Z
}.

Record task := mk_task {
  task_day : option Z;
  task_assessment : option assessment
}.

Record week := mk_week { daily_tasks : option (list task) }.

Record learning_plan := mk_plan { weekly_schedule : option (list week) }.

Record phase := mk_phase { phase_learning_plan : option learning_plan }.

(** The value under ['phases']: a JSON array or a JSON object. *)
Inductive phases_value :=
| PhasesArray (l : list phase)
| PhasesObject (m : gmap string phase).

Record roadmap := mk_roadmap { phases : option phases_value }.

(** A user document; [road_map] absent reads as the empty roadmap ['{}']. *)
Record user := mk_user { road_map : option roadmap }.

Definition empty_roadmap : roadmap := mk_roadmap None.

(** ** The progress record *)

Record progress_doc := mk_progress {
  unlocked_days : option (list Z);
  completed_assessments : option (list Z);
  unlock_trigger : option string;
  created_at : option Z;
  updated_at : option Z
}.

Definition empty_progress : progress_doc := mk_progress None None None None None.

(** The update document of [update_one]: the fields under [$set] and the
    value under [$addToSet] for [completed_assessments]. *)
Record update := mk_update {
  set_unlocked_days : option (list Z);
  set_completed_assessments : option (list Z);
  set_unlock_trigger : option string;
  set_updated_at : option Z;
  add_completed_assessments : option Z
}.

Definition set_field {A} (new old : option A) : option A :=
  match new with Some x => Some x | None => old end.

Definition add_to_set (x : option Z) (old : option (list Z)) : option (list Z) :=
  match x with
  | None => old
  | Some d =>
      match old with
      | None => Some [d]
      | Some l => if py_in d l then Some l else Some (l ++ [d])
      end
  end.

Definition apply_update (u : update) (d : progress_doc) : progress_doc :=
  {| unlocked_days := set_field (set_unlocked_days u) (unlocked_days d);
     completed_assessments :=
       add_to_set (add_completed_assessments u)
         (set_field (set_completed_assessments u) (completed_assessments d));
     unlock_trigger := set_field (set_unlock_trigger u) (unlock_trigger d);
     created_at := created_at d;
     updated_at := set_field (set_updated_at u) (updated_at d) |}.

(** ** The world and the database operations *)

Inductive exn := DbError | AttributeError | KeyError | IndexError | TypeError.

Record world := mk_world {
  users : gmap string user;
  learning_progress : gmap (string * Z) progress_doc;
  faults : list bool
}.

(** Modelled from the spec: [get_db] and [get_user_by_id] of
    [app.utils.db_utils] are not among the sources.  Following the persisted
    layout of the specification, [get_user_by_id] is the lookup of the user
    document ([None] when there is none) and the collections answer
    [find_one], [insert_one] and [update_one] as MongoDB does on the one
    document its filter selects; the whole [road_map] is rewritten by
    [UsersSetRoadMap], the [$set] of [db.users.update_one]. *)
Inductive db_op : Type -> Type :=
| GetUserById (user_id : string) : db_op (option user)
| UsersSetRoadMap (user_id : string) (rm : roadmap) : db_op unit
| ProgressFindOne (key : string * Z) : db_op (option progress_doc)
| ProgressInsertOne (key : string * Z) (d : progress_doc) : db_op unit
| ProgressUpdateOne (key : string * Z) (u : update) (upsert : bool) : db_op unit.

(** What an operation does when the database answers. *)
Definition perform {B} (o : db_op B) (w : world) : B * world :=
  match o in db_op B return B * world with
  | GetUserById uid => (users w !! uid, w)
  | UsersSetRoadMap uid rm =>
      (tt, match users w !! uid with
           | Some _ => mk_world (<[uid := mk_user (Some rm)]> (users w))
                         (learning_progress w) (faults w)
           | None => w
           end)
  | ProgressFindOne key => (learning_progress w !! key, w)
  | ProgressInsertOne key d =>
      (tt, mk_world (users w) (<[key := d]> (learning_progress w)) (faults w))
  | ProgressUpdateOne key u upsert =>
      (tt, match learning_progress w !! key with
           | Some d => mk_world (users w)
                         (<[key := apply_update u d]> (learning_progress w)) (faults w)
           | None =>
               if upsert
               then mk_world (users w)
                      (<[key := apply_update u empty_progress]> (learning_progress w))
                      (faults w)
               else w
           end)
  end.

(** One database call: it raises when the fault plan says so. *)
Definition exec {B} (o : db_op B) (w : world) : (exn + B) * world :=
  match faults w with
  | true :: fs => (inl DbError, mk_world (users w) (learning_progress w) fs)
  | false :: fs =>
      let '(b, w') := perform o (mk_world (users w) (learning_progress w) fs) in
      (inr b, w')
  | [] => let '(b, w') := perform o w in (inr b, w')
  end.

(** ** Handlers: a free monad over the database operations *)

Inductive proc (A : Type) : Type :=
| Ret (a : A)
| Raise (e : exn)
| Call {B : Type} (o : db_op B) (k : exn + B -> proc A).

Arguments Ret {A} a.
Arguments Raise {A} e.
Arguments Call {A B} o k.

Fixpoint bind {A B} (m : proc A) (f : A -> proc B) : proc B :=
  match m with
  | Ret a => f a
  | Raise e => Raise e
  | Call o k => Call o (fun r => bind (k r) f)
  end.

(** [try: m except Exception as e: h e]. *)
Fixpoint try_except {A} (m : proc A) (h : exn -> proc A) : proc A :=
  match m with
  | Ret a => Ret a
  | Raise e => h e
  | Call o k => Call o (fun r => try_except (k r) h)
  end.

Definition call {B} (o : db_op B) : proc B :=
  Call o (fun r => match r with inl e => Raise e | inr b => Ret b end).

Declare Scope proc_scope.
Delimit Scope proc_scope with proc.
Notation "x <- m ;; k" := (bind m (fun x => k))
  (at level 100, m at next level, right associativity) : proc_scope.
Notation "m ;;; k" := (bind m (fun _ => k))
  (at level 100, right associativity) : proc_scope.
Local Open Scope proc_scope.

(** Sequential execution of a handler. *)
Fixpoint run {A} (m : proc A) (w : world) : (exn + A) * world :=
  match m with
  | Ret a => (inr a, w)
  | Raise e => (inl e, w)
  | Call o k => let '(r, w') := exec o w in run (k r) w'
  end.

(** One atomic step of a handler that runs next to others. *)
Definition step {A} (m : proc A) (w : world) : proc A * world :=
  match m with
  | Call o k => let '(r, w') := exec o w in (k r, w')
  | _ => (m, w)
  end.

Definition finished {A} (m : proc A) : bool :=
  match m with Call _ _ => false | _ => true end.

(** Two handlers served concurrently: the schedule says which one moves. *)
Fixpoint interleave {A} (sched : list bool) (p q : proc A) (w : world)
  : proc A * proc A * world :=
  match sched with
  | [] => (p, q, w)
  | true :: s => let '(p', w') := step p w in interleave s p' q w'
  | false :: s => let '(q', w') := step q w in interleave s p q' w'
  end.

(** Navigation in the nested document: a missing key is [KeyError], an index
    out of range [IndexError], an index that is [None] [TypeError]. *)
Definition ebind {A B} (m : exn + A) (f : A -> exn + B) : exn + B :=
  match m with inl e => inl e | inr a => f a end.

Definition key_of {A} (o : option A) : exn + A :=
  match o with Some a => inr a | None => inl KeyError end.

Definition index_of (i : option Z) : exn + Z :=
  match i with Some i => inr i | None => inl TypeError end.

Definition item_of {A} (l : list A) (i : Z) : exn + A :=
  match py_index l i with Some a => inr a | None => inl IndexError end.

Notation "x <-? m ;; k" := (ebind m (fun x => k))
  (at level 100, m at next level, right associativity) : proc_scope.

Definition lift {A} (m : exn + A) : proc A :=
  match m with inl e => Raise e | inr a => Ret a end.

(** [roadmap_data['phases'][phase_id]] for an integer [phase_id]: an item of
    the array, with Python's negative indices; an object, whose keys are
    strings, has no such key. *)
Definition phase_item (rm : roadmap) (phase_id : Z) : exn + phase :=
  phases_json <-? key_of (phases rm) ;;
  match phases_json with
  | PhasesArray l => item_of l phase_id
  | PhasesObject _ => inl KeyError
  end.

(** [roadmap_data['phases'][None]], the lookup of a request without
    [phase_id]. *)
Definition phase_item_none (rm : roadmap) : exn :=
  match phases rm with
  | Some (PhasesArray _) => TypeError
  | _ => KeyError
  end.

(** [roadmap_data.get('phases', {}).get(phase_id, {})] for an integer
    [phase_id]: an array has no [get] and the call raises [AttributeError];
    an object has no integer key, so that the default [{}] is read. *)
Definition get_phase (rm : roadmap) (phase_id : Z) : exn + phase :=
  match phases rm with
  | None => inr (mk_phase None)
  | Some (PhasesArray _) => inl AttributeError
  | Some (PhasesObject _) => inr (mk_phase None)
  end.

(** [roadmap_data['phases'][phase_id]['learning_plan']['weekly_schedule']
    [week_index]['daily_tasks'][task_index]] *)
Definition get_task (rm : roadmap) (phase_id : Z) (week_index task_index : option Z)
  : exn + task :=
  ph <-? phase_item rm phase_id ;;
  lp <-? key_of (phase_learning_plan ph) ;;
  weeks <-? key_of (weekly_schedule lp) ;;
  wi <-? index_of week_index ;;
  wk <-? item_of weeks wi ;;
  tasks <-? key_of (daily_tasks wk) ;;
  ti <-? index_of task_index ;;
  item_of tasks ti.

(** [roadmap_data['phases'][phase_id]...[task_index]['assessment'] = a] *)
Definition set_assessment (rm : roadmap) (phase_id : Z) (week_index task_index : option Z)
    (a : assessment) : exn + roadmap :=
  ph <-? phase_item rm phase_id ;;
  lp <-? key_of (phase_learning_plan ph) ;;
  weeks <-? key_of (weekly_schedule lp) ;;
  wi <-? index_of week_index ;;
  wk <-? item_of weeks wi ;;
  tasks <-? key_of (daily_tasks wk) ;;
  ti <-? index_of task_index ;;
  t <-? item_of tasks ti ;;
  let t' := mk_task (task_day t) (Some a) in
  let wk' := mk_week (Some (py_setitem tasks ti t')) in
  let lp' := mk_plan (Some (py_setitem weeks wi wk')) in
  match phases rm with
  | Some (PhasesArray l) =>
      inr (mk_roadmap (Some (PhasesArray (py_setitem l phase_id (mk_phase (Some lp'))))))
  | _ => inl KeyError
  end.

(** ** AssessmentUnlockManager *)

Inductive reset_result :=
| ResetSuccess (before_completed corrected_unlocked : list Z)
| ResetError (e : exn).

Record unlock_status := mk_status {
  us_unlocked_days : list Z;
  us_completed_assessments : option (list Z);
  us_current_day : Z;
  us_unlock_trigger : string
}.

Inductive unlock_result :=
| UnlockSuccess (unlocked_day : Z) (new_unlocked_days : list Z)
| AlreadyUnlocked (next_day : Z)
| NoProgressDocument
| DayNotCompleted
| UnlockError (e : exn).

Definition _update_progress (user_id : string) (phase_id : Z)
    (unlocked : list Z) (trigger : string) (now : Z) : proc unit :=
  try_except
    (call (ProgressUpdateOne (user_id, phase_id)
             (mk_update (Some unlocked) None (Some trigger) (Some now) None) true))
    (fun _ => Ret tt).

(** The test of [reset_unlock_status] on one task:
    [assessment.get('completed') == True and assessment.get('score', 0) >= 70]. *)
Definition counts_as_passed (t : task) : bool :=
  let assessment := default (mk_assessment None None None None) (task_assessment t) in
  bool_decide (a_completed assessment = Some true)
  && bool_decide (70 <= default 0 (a_score assessment)).

Definition scan_completed (schedule : list week) : list Z :=
  foldl (fun acc wk =>
           foldl (fun acc t =>
                    if counts_as_passed t then acc ++ [default 0 (task_day t)] else acc)
                 acc (default [] (daily_tasks wk)))
        [] schedule.

(** The loop of [reset_unlock_status] that builds [corrected_unlocked]. *)
Definition reset_unlock_step (acc : list Z) (day : Z) : list Z :=
  let next_day := day + 1 in
  if negb (py_in next_day acc) then acc ++ [next_day] else acc.

(** The loop of [_evaluate_unlock_conditions] that builds [correct_unlocked]. *)
Definition evaluate_unlock_step (acc : list Z) (completed_day : Z) : list Z :=
  let next_day := completed_day + 1 in
  if negb (py_in next_day acc) && bool_decide (next_day <= 30)
  then acc ++ [next_day] else acc.

(** [phase_data.get('learning_plan', {}).get('weekly_schedule', [])] of the
    phase read with [get]. *)
Definition phase_schedule (rm : roadmap) (phase_id : Z) : exn + list week :=
  phase_data <-? get_phase rm phase_id ;;
  inr (default [] (weekly_schedule
                     (default (mk_plan None) (phase_learning_plan phase_data)))).

Definition reset_unlock_status (user_id : string) (phase_id : Z) (now : Z)
  : proc reset_result :=
  try_except
    (user <- call (GetUserById user_id) ;;
     match user with
     | None => Raise AttributeError
     | Some user =>
         let roadmap_data := default empty_roadmap (road_map user) in
         weekly_schedule <- lift (phase_schedule roadmap_data phase_id) ;;
         let actually_completed := scan_completed weekly_schedule in
         let corrected_unlocked := foldl reset_unlock_step [1] (sorted actually_completed) in
         call (ProgressUpdateOne (user_id, phase_id)
                 (mk_update (Some corrected_unlocked) (Some actually_completed)
                    (Some "reset_corrected"%string) (Some now) None) true) ;;;
         Ret (ResetSuccess actually_completed corrected_unlocked)
     end)
    (fun e => Ret (ResetError e)).

Definition is_empty (l : list Z) : bool := match l with [] => true | _ => false end.

(** [max_completed], computed and never read in the source, is left out;
    [current_day or ...] falls back on a current day of 0 as well as on
    [None]. *)
Definition _evaluate_unlock_conditions (user_id : string) (phase_id : Z)
    (progress_doc : progress_doc) (now : Z) : proc unlock_status :=
  let unlocked0 := default [] (unlocked_days progress_doc) in
  let completed0 := default [] (completed_assessments progress_doc) in
  uc <- (if (length completed0 + 1 <? length unlocked0)%nat
         then reset_result <- reset_unlock_status user_id phase_id now ;;
              match reset_result with
              | ResetSuccess before_completed corrected_unlocked =>
                  Ret (corrected_unlocked, before_completed)
              | ResetError _ => Ret (unlocked0, completed0)
              end
         else Ret (unlocked0, completed0)) ;;
  let completed := uc.2 in
  unlocked1 <- (if is_empty uc.1 || negb (py_in 1 uc.1)
                then _update_progress user_id phase_id [1] "first_unlock" now ;;; Ret [1]
                else Ret uc.1) ;;
  let correct_unlocked := foldl evaluate_unlock_step [1] (sorted completed) in
  unlocked2 <- (if negb (set_eqb unlocked1 correct_unlocked)
                then _update_progress user_id phase_id (sorted correct_unlocked)
                       "corrected" now ;;; Ret (sorted correct_unlocked)
                else Ret unlocked1) ;;
  let first_open := List.find (fun day => negb (py_in day completed)) (sorted unlocked2) in
  let fallback := default 1 (py_max unlocked2) in
  let current_day :=
    match first_open with
    | Some day => if day =? 0 then fallback else day
    | None => fallback
    end in
  Ret (mk_status unlocked2 (Some completed) current_day
         (default "sequential"%string (unlock_trigger progress_doc))).

Definition default_status : unlock_status :=
  mk_status [1] None 1 "default".

(** The body of the [try] block of [check_unlock_status]. *)
Definition check_unlock_status_body (user_id : string) (phase_id : Z) (now : Z)
  : proc unlock_status :=
  found <- call (ProgressFindOne (user_id, phase_id)) ;;
  progress_doc <- match found with
                  | Some d => Ret d
                  | None =>
                      let d := mk_progress (Some []) (Some []) (Some "none"%string)
                                 (Some now) None in
                      call (ProgressInsertOne (user_id, phase_id) d) ;;; Ret d
                  end ;;
  _evaluate_unlock_conditions user_id phase_id progress_doc now.

Definition check_unlock_status (user_id : string) (phase_id : Z) (now : Z)
  : proc unlock_status :=
  try_except (check_unlock_status_body user_id phase_id now)
    (fun _ => Ret default_status).

Definition trigger_automatic_unlock (user_id : string) (phase_id : Z)
    (completed_day : Z) (now : Z) : proc unlock_result :=
  try_except
    (found <- call (ProgressFindOne (user_id, phase_id)) ;;
     match found with
     | None => Ret NoProgressDocument
     | Some progress_doc =>
         let unlocked := default [] (unlocked_days progress_doc) in
         let completed := default [] (completed_assessments progress_doc) in
         if py_in completed_day completed then
           let next_day := completed_day + 1 in
           if negb (py_in next_day unlocked) then
             let unlocked' := unlocked ++ [next_day] in
             call (ProgressUpdateOne (user_id, phase_id)
                     (mk_update (Some unlocked') None (Some "auto_sequential"%string)
                        (Some now) None) false) ;;;
             Ret (UnlockSuccess next_day unlocked')
           else Ret (AlreadyUnlocked next_day)
         else Ret DayNotCompleted
     end)
    (fun e => Ret (UnlockError e)).

(** ** The assessment routes

    The handlers are modelled for an authenticated session ([user_id] is the
    session's user).  The two evaluators ([strict_theory_evaluation],
    [strict_coding_evaluation]) score free text; the routes only read the
    [score] of their result, so they are parameters here. *)

Record evaluation := mk_evaluation { ev_score : option Z }.

Inductive http (A : Type) :=
| Http200 (body : A)
| Http400
| Http500Storage (e : exn)
| Http500 (e : exn).

Arguments Http200 {A} body.
Arguments Http400 {A}.
Arguments Http500Storage {A} e.
Arguments Http500 {A} e.

Record submit_response := mk_submit_response {
  resp_passed : bool;
  resp_attempts : Z;
  resp_score : Z;
  resp_unlock_result : option unlock_result;
  resp_next_day_unlocked : option Z
}.

Section Routes.

Variable answers : Type.
Variable day_content : Type.
(** Truth value of [assessment_answers] (a missing or empty value is false). *)
Variable has_answers : option answers -> bool.
Variable strict_theory_evaluation : option answers -> option day_content -> evaluation.
Variable strict_coding_evaluation : option answers -> option day_content -> evaluation.

(** The JSON body of [/api/assessment/submit]. *)
Record submission := mk_submission {
  sub_phase_id : option Z;
  sub_day : Z;
  sub_week_index : option Z;
  sub_task_index : option Z;
  sub_assessment_type : option string;
  sub_assessment_answers : option answers;
  sub_day_content : option day_content
}.

Definition non_empty (s : option string) : bool :=
  match s with
  | Some s => negb (bool_decide (s = ""%string))
  | None => false
  end.

Definition evaluate (data : submission) : evaluation :=
  if bool_decide (sub_assessment_type data = Some "theory"%string)
  then strict_theory_evaluation (sub_assessment_answers data) (sub_day_content data)
  else if bool_decide (sub_assessment_type data = Some "coding"%string)
  then strict_coding_evaluation (sub_assessment_answers data) (sub_day_content data)
  else strict_theory_evaluation (sub_assessment_answers data) (sub_day_content data).

Definition final_score (data : submission) : Z :=
  default 0 (ev_score (evaluate data)).

Definition submit_assessment (user_id : string) (data : submission) (now : Z)
  : proc (http submit_response) :=
  try_except
    (let day := sub_day data in
     match sub_phase_id data with
     | None => Ret Http400
     | Some phase_id =>
     if negb (has_answers (sub_assessment_answers data)
              && non_empty (sub_assessment_type data))
     then Ret Http400
     else
       let final_score := final_score data in
       let passed := bool_decide (70 <= final_score) in
       user <- call (GetUserById user_id) ;;
       match user with
       | None => Raise AttributeError
       | Some user =>
           let roadmap_data := default empty_roadmap (road_map user) in
           let assessment_record attempts :=
             mk_assessment (Some passed) (Some final_score)
               (Some (if passed then "passed" else "failed")%string) (Some attempts) in
           stored <-
             try_except
               (target <- lift (get_task roadmap_data phase_id
                                  (sub_week_index data) (sub_task_index data)) ;;
                let attempts :=
                  match task_assessment target with
                  | Some existing_assessment =>
                      default 0 (a_attempts existing_assessment) + 1
                  | None => 1
                  end in
                roadmap_data' <- lift (set_assessment roadmap_data phase_id
                                         (sub_week_index data) (sub_task_index data)
                                         (assessment_record attempts)) ;;
                call (UsersSetRoadMap user_id roadmap_data') ;;;
                unlock_result <-
                  (if passed
                   then call (ProgressUpdateOne (user_id, phase_id)
                                (mk_update None None None (Some now) (Some day)) true) ;;;
                        r <- trigger_automatic_unlock user_id phase_id day now ;;
                        Ret (Some r)
                   else Ret None) ;;
                Ret (inr (attempts, unlock_result)))
               (fun storage_error => Ret (inl storage_error)) ;;
           match stored with
           | inl storage_error => Ret (Http500Storage storage_error)
           | inr (attempts, unlock_result) =>
               Ret (Http200
                      (mk_submit_response passed attempts final_score
                         (if passed then unlock_result else None)
                         (match unlock_result with
                          | Some (UnlockSuccess unlocked_day _) =>
                              if passed then Some unlocked_day else None
                          | _ => None
                          end)))
           end
       end
     end)
    (fun e => Ret (Http500 e)).

(** The JSON body of [/api/assessment/store]; [st_assessment_result] is
    [None] when the body has no result, and holds the result's optional
    [score] otherwise.  A body without [phase_id] makes the lookup
    [roadmap_data['phases'][None]] raise. *)
Record store_request := mk_store_request {
  st_phase_id : option Z;
  st_week_index : option Z;
  st_task_index : option Z;
  st_day : Z;
  st_assessment_result : option (option Z)
}.

Definition store_assessment (user_id : string) (data : store_request) (now : Z)
  : proc (http unit) :=
  try_except
    (user <- call (GetUserById user_id) ;;
     match user with
     | None => Raise AttributeError
     | Some user =>
         let roadmap_data := default empty_roadmap (road_map user) in
         phase_id <- match st_phase_id data with
                     | Some phase_id => Ret phase_id
                     | None => Raise (phase_item_none roadmap_data)
                     end ;;
         target_task <- lift (get_task roadmap_data phase_id
                                (st_week_index data) (st_task_index data)) ;;
         let previous :=
           default (mk_assessment None None None None) (task_assessment target_task) in
         match st_assessment_result data with
         | None => Raise AttributeError
         | Some result_score =>
             let record :=
               mk_assessment (Some true) (Some (default 0 result_score))
                 (Some "completed"%string)
                 (Some (default 0 (a_attempts previous) + 1)) in
             roadmap_data' <- lift (set_assessment roadmap_data phase_id
                                      (st_week_index data) (st_task_index data) record) ;;
             call (UsersSetRoadMap user_id roadmap_data') ;;;
             call (ProgressUpdateOne (user_id, phase_id)
                     (mk_update None None None (Some now) (Some (st_day data))) true) ;;;
             Ret (Http200 tt)
         end
     end)
    (fun e => Ret (Http500 e)).

End Routes.

Arguments mk_submission {answers day_content}.
Arguments sub_phase_id {answers day_content} s.
Arguments sub_day {answers day_content} s.
Arguments sub_week_index {answers day_content} s.
Arguments sub_task_index {answers day_content} s.
Arguments sub_assessment_type {answers day_content} s.
Arguments sub_assessment_answers {answers day_content} s.
Arguments sub_day_content {answers day_content} s.

(** ** Curriculum adaptation ([AdaptiveRoadmapManager._generate_adaptations]) *)

Module AdaptiveRoadmapManager.

Record progress_analysis := mk_progress_analysis { learning_velocity : string }.

Record delay_analysis := mk_delay_analysis {
  risk_level : string;
  total_days_behind : Z
}.

Record adaptation := mk_adaptation {
  adaptation_type : string;
  adjustment : string
}.

Record catch_up_plan := mk_catch_up_plan {
  plan_type : string;
  days_to_recover : Z;
  estimated_hours : Z
}.

Record adaptations := mk_adaptations {
  schedule_adjustments : list adaptation;
  content_modifications : list adaptation;
  difficulty_changes : list adaptation;
  timeline_extensions : list adaptation;
  catch_up_plans : list catch_up_plan
}.

Definition _generate_adaptations (pa : progress_analysis) (da : delay_analysis)
  : adaptations :=
  let risk := risk_level da in
  let velocity := learning_velocity pa in
  let slow_or_risky :=
    bool_decide (velocity = "slow"%string)
    || bool_decide (risk ∈ ["high"; "critical"]%string) in
  let fast := bool_decide (velocity = "fast"%string) in
  {| schedule_adjustments :=
       if slow_or_risky
       then [mk_adaptation "extend_timeline" "timeline_extension"] else [];
     content_modifications :=
       if slow_or_risky
       then [mk_adaptation "simplify_content" "content_simplification"] else [];
     difficulty_changes :=
       if slow_or_risky then []
       else if fast then [mk_adaptation "increase_challenge" "difficulty_increase"]
       else [];
     timeline_extensions := [];
     catch_up_plans :=
       if bool_decide (0 < total_days_behind da)
       then [mk_catch_up_plan "weekend_intensive" (total_days_behind da)
               (total_days_behind da * 2)]
       else [] |}.

End AdaptiveRoadmapManager.

(** ** More of the unlock manager and of the assessment routes *)

(** [_check_assessment_passed]: is there a task of that day whose assessment
    passed?  Any exception answers [False]. *)
Definition _check_assessment_passed (user_id : string) (phase_id : Z) (day : Z)
  : proc bool :=
  try_except
    (user <- call (GetUserById user_id) ;;
     match user with
     | None => Raise AttributeError
     | Some user =>
         let roadmap_data := default empty_roadmap (road_map user) in
         weekly_schedule <- lift (phase_schedule roadmap_data phase_id) ;;
         Ret (existsb
                (fun wk =>
                   existsb (fun t => bool_decide (default 0 (task_day t) = day)
                                     && counts_as_passed t)
                     (default [] (daily_tasks wk)))
                weekly_schedule)
     end)
    (fun _ => Ret false).

(** The answers of [/api/assessment/check-existing]. *)
Inductive existing_status :=
| ExistingCompleted (assessment_record : assessment)
| ExistingFailed (assessment_record : assessment)
| ExistingNotTaken
| ExistingNotFound.

Record existing_request := mk_existing_request {
  ex_phase_id : option Z;
  ex_week_index : option Z;
  ex_task_index : option Z
}.

Definition check_existing_assessment (user_id : string) (data : existing_request)
  : proc (http existing_status) :=
  try_except
    (user <- call (GetUserById user_id) ;;
     match user with
     | None => Raise AttributeError
     | Some user =>
         let roadmap_data := default empty_roadmap (road_map user) in
         match (match ex_phase_id data with
                | Some phase_id =>
                    get_task roadmap_data phase_id (ex_week_index data)
                      (ex_task_index data)
                | None => inl (phase_item_none roadmap_data)
                end)
         with
         | inr t =>
             match task_assessment t with
             | Some assessment_record =>
                 if bool_decide (a_completed assessment_record = Some true) then
                   if bool_decide (70 <= default 0 (a_score assessment_record))
                   then Ret (Http200 (ExistingCompleted assessment_record))
                   else Ret (Http200 (ExistingFailed assessment_record))
                 else Ret (Http200 ExistingNotTaken)
             | None => Ret (Http200 ExistingNotTaken)
             end
         | inl KeyError | inl IndexError => Ret (Http200 ExistingNotFound)
         | inl e => Raise e
         end
     end)
    (fun e => Ret (Http500 e)).

(** The search of [take_assessment] for the task of a day: the first task, in
    document order, whose [day] (its position in the week plus one when the
    key is absent) is the day asked for. *)
Fixpoint find_task_of_day (day : Z) (tasks : list task) (t_idx : nat) : option nat :=
  match tasks with
  | [] => None
  | t :: tasks' =>
      if bool_decide (default (Z.of_nat t_idx + 1) (task_day t) = day)
      then Some t_idx
      else find_task_of_day day tasks' (S t_idx)
  end.

Fixpoint find_week_of_day (day : Z) (weeks : list week) (w_idx : nat)
  : option (nat * nat) :=
  match weeks with
  | [] => None
  | wk :: weeks' =>
      match find_task_of_day day (default [] (daily_tasks wk)) 0 with
      | Some t_idx => Some (w_idx, t_idx)
      | None => find_week_of_day day weeks' (S w_idx)
      end
  end.

(** The outcomes of [/assessment/take/<phase_id>/<day>]: the three redirects
    and the page, with the place of the task it shows.  The texts of the
    task the page displays are not modelled. *)
Inductive take_result :=
| TakeNotUnlocked
| TakeContentNotFound
| TakeAssessmentNotFound
| TakeRender (week_index task_index : nat).

Definition take_assessment (user_id : string) (phase_id day : Z) (now : Z)
  : proc take_result :=
  unlock_status <- check_unlock_status user_id phase_id now ;;
  if negb (py_in day (us_unlocked_days unlock_status)) then Ret TakeNotUnlocked
  else
    user <- call (GetUserById user_id) ;;
    match user with
    | None => Raise AttributeError
    | Some user =>
        let roadmap_data := default empty_roadmap (road_map user) in
        match phase_item roadmap_data phase_id with
        | inl _ => Ret TakeAssessmentNotFound
        | inr ph =>
            let learning_plan := default (mk_plan None) (phase_learning_plan ph) in
            match find_week_of_day day (default [] (weekly_schedule learning_plan)) 0 with
            | Some (w_idx, t_idx) => Ret (TakeRender w_idx t_idx)
            | None => Ret TakeContentNotFound
            end
        end
    end.

(** [fix_day_numbering]: the entries of [changes_made] for one week and for
    a schedule, one for each task whose day is not its position in its week
    plus one.  The loop renumbers the tasks of the phase that [get] returned;
    for an integer [phase_id] that phase is the default [{}], not a part of
    [roadmap_data], so that [roadmap_data] is written back as it was read. *)
Definition day_changes (tasks : list task) : nat :=
  length (filter (fun it => default 0 (task_day it.2) <> Z.of_nat it.1 + 1)
            (imap (fun i t => (i, t)) tasks)).

Definition schedule_changes (weeks : list week) : nat :=
  sum_list (map (fun wk => day_changes (default [] (daily_tasks wk))) weeks).

Inductive fix_result := FixSuccess (changes : nat) | FixNoChanges.

Definition fix_day_numbering (user_id : string) (phase_id : Z) : proc (http fix_result) :=
  try_except
    (user <- call (GetUserById user_id) ;;
     match user with
     | None => Raise AttributeError
     | Some user =>
         let roadmap_data := default empty_roadmap (road_map user) in
         weekly_schedule <- lift (phase_schedule roadmap_data phase_id) ;;
         let changes_made := schedule_changes weekly_schedule in
         if bool_decide (changes_made <> 0%nat) then
           call (UsersSetRoadMap user_id roadmap_data) ;;;
           Ret (Http200 (FixSuccess changes_made))
         else Ret (Http200 FixNoChanges)
     end)
    (fun e => Ret (Http500 e)).

(** ** The evaluators

    [strict_theory_evaluation] and [strict_coding_evaluation], modelled for
    answers whose values are strings; of their result the [score] is kept,
    the other keys are texts derived from it.  Python's [str.strip],
    [str.lower] and the substring test [in] are parameters.  Anything that
    is not a dict makes the body raise, and the handler answer score 0. *)

Inductive user_answers :=
| AnswersDict (items : list (string * string))
| AnswersOther.

(** [d.get(key, '')] *)
Fixpoint py_get (items : list (string * string)) (key : string) : string :=
  match items with
  | [] => ""
  | (k, v) :: items' => if bool_decide (k = key) then v else py_get items' key
  end.

Definition py_len (s : string) : Z := Z.of_nat (String.length s).

(** The truth value of a string. *)
Definition py_bool (s : string) : bool := negb (bool_decide (s = ""%string)).

Section Evaluators.

Variable day_content : Type.
Variable strip : string -> string.
Variable lower : string -> string.
(** [contains needle s] is [needle in s]. *)
Variable contains : string -> string -> bool.

(** One round of the loop over [user_answers.items()]. *)
Definition theory_step (acc : Z * Z) (item : string * string) : Z * Z :=
  let '(answered_questions, score) := acc in
  let answer := item.2 in
  if py_bool answer && py_bool (strip answer) then
    let answer_text := lower (strip answer) in
    (answered_questions + 1,
     if bool_decide (10 < py_len answer_text) then score + 25
     else if bool_decide (3 < py_len answer_text) then score + 15
     else score + 5)
  else acc.

Definition strict_theory_evaluation (answers : option user_answers)
    (day_content : option day_content) : evaluation :=
  match answers with
  | Some (AnswersDict items) =>
      let total_questions := Z.of_nat (length items) in
      let '(answered_questions, score) := foldl theory_step (0, 0) items in
      let unanswered := total_questions - answered_questions in
      let score := score - unanswered * 20 in
      let final_score := Z.max 0 (Z.min 100 score) in
      mk_evaluation (Some final_score)
  | _ => mk_evaluation (Some 0)
  end.

Definition strict_coding_evaluation (answers : option user_answers)
    (day_content : option day_content) : evaluation :=
  match answers with
  | Some (AnswersDict items) =>
      let github_url := py_get items "github_url" in
      let description := py_get items "description" in
      let score := 0 in
      let score :=
        if py_bool github_url && contains "github.com" github_url
        then score + 30 else score in
      let score :=
        if py_bool description && bool_decide (50 < py_len (strip description))
        then score + 40
        else if py_bool description && bool_decide (20 < py_len (strip description))
        then score + 20
        else score in
      let score :=
        if py_bool description
           && existsb (fun keyword => contains keyword (lower description))
                ["readme"; "documentation"; "comments"]%string
        then score + 15 else score in
      let score :=
        if py_bool description
           && existsb (fun keyword => contains keyword (lower description))
                ["test"; "error"; "validation"]%string
        then score + 15 else score in
      mk_evaluation (Some score)
  | _ => mk_evaluation (Some 0)
  end.

End Evaluators.

Arguments strict_theory_evaluation {day_content} strip lower answers day_content.
Arguments strict_coding_evaluation {day_content} strip lower contains answers day_content.

(** ** Delay detection ([AdaptiveRoadmapManager._detect_delays])

    A phase, as the delay analysis reads it: the number of days since its
    learning plan was generated (the [days] of a difference of two
    [datetime] values, taken as given) and, week by week, the truth value of
    [completed] of each daily task. *)

Module AdaptiveRoadmapDelays.

Import AdaptiveRoadmapManager.

Record phase_view := mk_phase_view {
  days_since_start : Z;
  weekly_completed : list (list bool)
}.

(** The counters of the loop of [_analyze_phase_delays]. *)
Record counters := mk_counters {
  day_count : Z;
  total_expected_by_now : Z;
  total_completed : Z;
  missed_days_streak : Z;
  current_streak : Z
}.

Definition count_task (days_since_start : Z) (c : counters) (completed : bool)
  : counters :=
  let day_count := day_count c + 1 in
  if bool_decide (day_count <= days_since_start) then
    if completed then
      mk_counters day_count (total_expected_by_now c + 1) (total_completed c + 1)
        (missed_days_streak c) 0
    else
      let current_streak := current_streak c + 1 in
      mk_counters day_count (total_expected_by_now c + 1) (total_completed c)
        (Z.max (missed_days_streak c) current_streak) current_streak
  else
    mk_counters day_count (total_expected_by_now c) (total_completed c)
      (missed_days_streak c) (current_streak c).

Record phase_delays := mk_phase_delays {
  days_behind : Z;
  expected_by_now : Z;
  actually_completed : Z;
  longest_missed_streak : Z
}.

Definition _analyze_phase_delays (phase : phase_view) : phase_delays :=
  let c :=
    foldl (fun c week => foldl (count_task (days_since_start phase)) c week)
      (mk_counters 0 0 0 0 0) (weekly_completed phase) in
  mk_phase_delays (Z.max 0 (total_expected_by_now c - total_completed c))
    (total_expected_by_now c) (total_completed c) (missed_days_streak c).

Record recommendation := mk_recommendation { recommendation_type : string }.

Definition _generate_delay_recommendations (risk_level : string) : list recommendation :=
  if bool_decide (risk_level = "low"%string)
  then [mk_recommendation "motivation"]
  else if bool_decide (risk_level = "medium"%string)
  then [mk_recommendation "gentle_reminder"]
  else if bool_decide (risk_level = "high"%string)
  then [mk_recommendation "intensive_catchup"]
  else if bool_decide (risk_level = "critical"%string)
  then [mk_recommendation "curriculum_adjustment"]
  else [].

Record detected_delays := mk_detected_delays {
  analysis : delay_analysis;
  phases_behind_schedule : list phase_delays;
  recommendations : list recommendation
}.

(** One round of the loop of [_detect_delays] over the phases: a phase
    without weekly schedule is skipped. *)
Definition detect_phase (acc : list phase_delays * Z) (phase : phase_view)
  : list phase_delays * Z :=
  if bool_decide (weekly_completed phase = []) then acc
  else
    let phase_delays := _analyze_phase_delays phase in
    if bool_decide (0 < days_behind phase_delays)
    then (acc.1 ++ [phase_delays], acc.2 + days_behind phase_delays)
    else acc.

Definition _detect_delays (phases : list phase_view) : detected_delays :=
  let '(behind, total_delays) := foldl detect_phase ([], 0) phases in
  let risk_level :=
    if bool_decide (total_delays = 0) then "low"
    else if bool_decide (total_delays <= 3) then "medium"
    else if bool_decide (total_delays <= 7) then "high"
    else "critical" in
  mk_detected_delays (mk_delay_analysis risk_level total_delays) behind
    (_generate_delay_recommendations risk_level).

End AdaptiveRoadmapDelays.

(** * Specification vocabulary *)

(** A learner with one phase of three days, and nothing else stored. *)
Definition sample_roadmap : roadmap :=
  mk_roadmap (Some (PhasesArray [mk_phase (Some (mk_plan (Some
    [mk_week (Some [mk_task (Some 1) None; mk_task (Some 2) None;
                    mk_task (Some 3) None])])))])).

Definition sample_world : world :=
  mk_world {[ "u"%string := mk_user (Some sample_roadmap) ]} ∅ [].

(** Sample requests: evaluators that return a fixed score, a submission for
    one day of the sample phase, and a request to the store route. *)
Definition fixed_score (score : Z) (_ : option unit) (_ : option unit) : evaluation :=
  mk_evaluation (Some score).

Definition sample_submit (score day task_index now : Z) : proc (http submit_response) :=
  submit_assessment unit unit (fun a => bool_decide (is_Some a))
    (fixed_score score) (fixed_score score) "u"
    (mk_submission (Some 0) day (Some 0) (Some task_index) (Some "theory"%string)
       (Some tt) None) now.

(** The state after a first status check and a passing submission for day 1,
    and the state when the learner passes day 2 first instead. *)
Definition day_one_passed_world : world :=
  (run (sample_submit 85 1 0 1) (run (check_unlock_status "u" 0 0) sample_world).2).2.

Definition day_two_first_world : world :=
  (run (sample_submit 85 2 1 1) (run (check_unlock_status "u" 0 0) sample_world).2).2.

(** The sequential gate as the specification words it: every completed day
    and its successor are unlocked. *)
Definition gate_holds (r : unlock_status) : Prop :=
  forall d, d ∈ default [] (us_completed_assessments r) ->
    d ∈ us_unlocked_days r /\ d + 1 ∈ us_unlocked_days r.

(** [passed_in schedule d]: [d] is the day number of a task of the schedule
    whose embedded assessment has [completed == True] and [score >= 70]; a
    task without a [day] key counts as day 0, as in the code. *)
Definition passed_in (schedule : list week) (d : Z) : Prop :=
  exists wk tasks t a s,
    wk ∈ schedule /\ daily_tasks wk = Some tasks /\ t ∈ tasks
    /\ task_assessment t = Some a
    /\ a_completed a = Some true /\ a_score a = Some s /\ 70 <= s
    /\ d = default 0 (task_day t).

(** The same days, as the scan tests them. *)
Definition scan_hit (schedule : list week) (d : Z) : Prop :=
  exists wk t, wk ∈ schedule /\ t ∈ default [] (daily_tasks wk)
    /\ counts_as_passed t = true /\ d = default 0 (task_day t).

(** [returns m w Q]: run from [w], the handler [m] does not raise, and its
    result and final world satisfy [Q]. *)
Definition returns {A} (m : proc A) (w : world) (Q : A -> world -> Prop) : Prop :=
  exists a w', run m w = (inr a, w') /\ Q a w'.

(** The effect of [update_one] with [upsert=True] on the progress store. *)
Definition upsert_progress (key : string * Z) (u : update)
    (lp : gmap (string * Z) progress_doc) : gmap (string * Z) progress_doc :=
  <[key := apply_update u (default empty_progress (lp !! key))]> lp.

(** The weekly schedule of a phase as the document holds it, read the way
    the routes address it, [roadmap_data['phases'][phase_id]]; empty when
    there is no such phase. *)
Definition document_schedule (rm : roadmap) (phase_id : Z) : list week :=
  match phase_item rm phase_id with
  | inr ph =>
      default [] (weekly_schedule (default (mk_plan None) (phase_learning_plan ph)))
  | inl _ => []
  end.

(** The days [reset_unlock_status] finds passed in a user's document, or the
    exception its reading of the document raises. *)
Definition completed_in (usr : user) (phase_id : Z) : exn + list Z :=
  weekly_schedule <-? phase_schedule (default empty_roadmap (road_map usr)) phase_id ;;
  inr (scan_completed weekly_schedule).

(** The completed days a reconciliation leaves a record with: those of the
    reset when it succeeds, and the record's own when it fails. *)
Definition reconciled (usr : user) (phase_id : Z) (doc : progress_doc) : list Z :=
  match completed_in usr phase_id with
  | inr c => c
  | inl _ => default [] (completed_assessments doc)
  end.

Definition reset_update (c : list Z) (now : Z) : update :=
  mk_update (Some (foldl reset_unlock_step [1] (sorted c))) (Some c)
    (Some "reset_corrected"%string) (Some now) None.

(** [unlocked] is the sequential unlock set of [completed], capped at day 30. *)
Definition canonical (completed unlocked : list Z) : Prop :=
  forall x, x ∈ unlocked <-> x = 1 \/ exists d, d ∈ completed /\ x = d + 1 /\ x <= 30.

(** The progress record of a learner's phase holds these two lists. *)
Definition persisted (w : world) (key : string * Z) (unlocked completed : list Z) : Prop :=
  faults w = [] /\
  exists d, learning_progress w !! key = Some d
    /\ default [] (unlocked_days d) = unlocked
    /\ default [] (completed_assessments d) = completed.

(** The attempt counter [submit_assessment] gives a new record, and the
    record itself, for the evaluated [score] and the task found in place. *)
Definition next_attempt (target : task) : Z :=
  match task_assessment target with
  | Some existing_assessment => default 0 (a_attempts existing_assessment) + 1
  | None => 1
  end.

Definition submit_record (score : Z) (target : task) : assessment :=
  mk_assessment (Some (bool_decide (70 <= score))) (Some score)
    (Some (if bool_decide (70 <= score) then "passed" else "failed")%string)
    (Some (next_attempt target)).

(** The record [store_assessment] writes. *)
Definition store_record (result_score : option Z) (target : task) : assessment :=
  mk_assessment (Some true) (Some (default 0 result_score)) (Some "completed"%string)
    (Some (default 0 (a_attempts (default (mk_assessment None None None None)
                                    (task_assessment target))) + 1)).

(** The invariant of the specification on one assessment record:
    [completed == true] exactly when [score >= 70]. *)
Definition completed_iff_passed (a : assessment) : Prop :=
  a_completed a = Some true <-> exists s, a_score a = Some s /\ 70 <= s.

(** The assessment stored for a user at a place of the curriculum document. *)
Definition assessment_at (w : world) (user_id : string) (phase_id : Z)
    (week_index task_index : option Z) : option assessment :=
  match users w !! user_id with
  | Some usr =>
      match get_task (default empty_roadmap (road_map usr)) phase_id
              week_index task_index with
      | inr t => task_assessment t
      | inl _ => None
      end
  | None => None
  end.

(** The adaptations include an [increase_challenge] difficulty change. *)
Definition increases_challenge (a : AdaptiveRoadmapManager.adaptations) : Prop :=
  exists c, c ∈ AdaptiveRoadmapManager.difficulty_changes a
    /\ AdaptiveRoadmapManager.adaptation_type c = "increase_challenge"%string.

(** *** Concurrent submissions *)

(** How often a day occurs in a list of days. *)
Definition occurrences (x : Z) (l : list Z) : nat :=
  length (filter (fun y => y = x) l).

(** The task a submission addresses exists in the user's document. *)
Definition navigable (w : world) (u : string) (pid : Z) (wi ti : option Z) : Prop :=
  exists usr t, users w !! u = Some usr
    /\ get_task (default empty_roadmap (road_map usr)) pid wi ti = inr t.

(** The progress record, if any, lists day [d] and day [d + 1] at most once. *)
Definition at_most_once (w : world) (u : string) (pid d : Z) : Prop :=
  forall doc, learning_progress w !! (u, pid) = Some doc ->
    (occurrences (d + 1) (default [] (unlocked_days doc)) <= 1)%nat
    /\ (occurrences d (default [] (completed_assessments doc)) <= 1)%nat.

Definition completion_recorded (w : world) (u : string) (pid d : Z) : Prop :=
  exists doc, learning_progress w !! (u, pid) = Some doc
    /\ occurrences d (default [] (completed_assessments doc)) = 1%nat.

Definition unlock_recorded (w : world) (u : string) (pid d : Z) : Prop :=
  exists doc, learning_progress w !! (u, pid) = Some doc
    /\ occurrences (d + 1) (default [] (unlocked_days doc)) = 1%nat.

(** A well-formed submission for day [d] of phase [pid] that passes. *)
Definition passing_submission {answers day_content : Type}
    (has_answers : option answers -> bool)
    (theory coding : option answers -> option day_content -> evaluation)
    (pid d : Z) (data : submission answers day_content) : Prop :=
  sub_phase_id data = Some pid /\ sub_day data = d
  /\ has_answers (sub_assessment_answers data) = true
  /\ non_empty (sub_assessment_type data) = true
  /\ 70 <= final_score answers day_content theory coding data.

(** The schedule lets each of the two handlers move at least [n] times. *)
Definition fair (n : nat) (sched : list bool) : Prop :=
  (n <= length (filter (fun b => b = true) sched))%nat
  /\ (n <= length (filter (fun b => b = false) sched))%nat.

(** A handler that makes at most [n] database calls, whatever they answer. *)
Fixpoint bounded {A} (n : nat) (p : proc A) : Prop :=
  match p with
  | Call o k =>
      match n with
      | O => False
      | S n' => forall r, bounded n' (k r)
      end
  | _ => True
  end.

Section RaceVocabulary.

Variables (u : string) (pid d : Z) (wi1 ti1 wi2 ti2 : option Z).

(** What every step of either submission keeps true. *)
Definition race_inv (w : world) : Prop :=
  faults w = [] /\ navigable w u pid wi1 ti1 /\ navigable w u pid wi2 ti2
  /\ at_most_once w u pid d.

(** [race_ok p added]: from any state the other submission may have left,
    each database call of [p] keeps [race_inv] and what is already
    recorded, and [p] does not finish before the completion of day [d] and
    the unlock of day [d + 1] are both recorded exactly once.  [added]
    says that [p] has already added [d] to [completed_assessments]. *)
Fixpoint race_ok {A} (p : proc A) (added : bool) : Prop :=
  match p with
  | Call o k =>
      forall w, race_inv w -> (added = true -> completion_recorded w u pid d) ->
        let '(r, w') := exec o w in
        race_inv w'
        /\ (completion_recorded w u pid d -> completion_recorded w' u pid d)
        /\ (unlock_recorded w u pid d -> unlock_recorded w' u pid d)
        /\ exists added',
             (added' = true -> completion_recorded w' u pid d)
             /\ race_ok (k r) added'
             /\ (finished (k r) = true ->
                 completion_recorded w' u pid d /\ unlock_recorded w' u pid d)
  | _ => True
  end.

End RaceVocabulary.

(** The attempt count on record before a submission (0 when there is none). *)
Definition previous_attempts (w : world) (user_id : string) (phase_id : Z)
    (week_index task_index : option Z) : Z :=
  match assessment_at w user_id phase_id week_index task_index with
  | Some a => default 0 (a_attempts a)
  | None => 0
  end.

(** *** Footprints *)

(** Every database call a handler may make satisfies [P]. *)
Fixpoint every_call (P : forall B, db_op B -> Prop) {A} (p : proc A) : Prop :=
  match p with
  | Call o k => P _ o /\ forall r, every_call P (k r)
  | _ => True
  end.

(** The calls that write nothing but the document of user [u] and the
    progress record [key]. *)
Definition op_within (u : string) (key : string * Z) (B : Type) (o : db_op B) : Prop :=
  match o with
  | GetUserById _ => True
  | ProgressFindOne _ => True
  | UsersSetRoadMap u' _ => u' = u
  | ProgressInsertOne k _ => k = key
  | ProgressUpdateOne k _ _ => k = key
  end.

(** The calls that write nothing but the progress record [key]. *)
Definition op_progress_only (key : string * Z) (B : Type) (o : db_op B) : Prop :=
  match o with
  | GetUserById _ => True
  | ProgressFindOne _ => True
  | UsersSetRoadMap _ _ => False
  | ProgressInsertOne k _ => k = key
  | ProgressUpdateOne k _ _ => k = key
  end.

(** The calls that write nothing at all. *)
Definition op_reads (B : Type) (o : db_op B) : Prop :=
  match o with
  | GetUserById _ => True
  | ProgressFindOne _ => True
  | _ => False
  end.

(** [w'] differs from [w] at most in the document of [u] and the record [key]. *)
Definition same_elsewhere (u : string) (key : string * Z) (w w' : world) : Prop :=
  (forall u', u' <> u -> users w' !! u' = users w !! u')
  /\ (forall k, k <> key -> learning_progress w' !! k = learning_progress w !! k).

(** [w'] has the stores of [w]. *)
Definition same_stores (w w' : world) : Prop :=
  users w' = users w /\ learning_progress w' = learning_progress w.

(** Every result a handler may give, whatever the database answers,
    satisfies [Q]. *)
Fixpoint every_result {A} (Q : exn + A -> Prop) (p : proc A) : Prop :=
  match p with
  | Ret a => Q (inr a)
  | Raise e => Q (inl e)
  | Call o k => forall r, every_result Q (k r)
  end.

(** The required fields of a submission are there. *)
Definition well_formed_submission {answers day_content : Type}
    (has_answers : option answers -> bool)
    (data : submission answers day_content) : Prop :=
  is_Some (sub_phase_id data)
  /\ has_answers (sub_assessment_answers data) = true
  /\ non_empty (sub_assessment_type data) = true.

(** The current day [_evaluate_unlock_conditions] derives from the unlocked
    and the completed days it returns. *)
Definition current_day_of (unlocked completed : list Z) : Z :=
  let fallback := default 1 (py_max unlocked) in
  match List.find (fun day => negb (py_in day completed)) (sorted unlocked) with
  | Some day => if day =? 0 then fallback else day
  | None => fallback
  end.

(** The reset of this learner's phase fails: there is no such user, or the
    reading of the document raises. *)
Definition reset_fails (w : world) (u : string) (p : Z) : Prop :=
  match users w !! u with
  | Some usr => exists e, completed_in usr p = inl e
  | None => True
  end.

(** The progress record is settled: its unlocked days are the sequential
    unlock set of its completed days, and a status check would not start a
    reconciliation that could change it. *)
Definition settled (w : world) (u : string) (p : Z) : Prop :=
  faults w = [] /\
  exists doc ul,
    learning_progress w !! (u, p) = Some doc
    /\ unlocked_days doc = Some ul
    /\ canonical (default [] (completed_assessments doc)) ul
    /\ ((length ul <= length (default [] (completed_assessments doc)) + 1)%nat
        \/ reset_fails w u p).

(** *** Answers, as the theory evaluator counts them *)

(** The answer of an item counts as answered, and as a long answer. *)
Definition answered (strip : string -> string) (item : string * string) : bool :=
  py_bool item.2 && py_bool (strip item.2).

Definition long_answer (strip lower : string -> string) (item : string * string) : Prop :=
  answered strip item = true /\ 10 < py_len (lower (strip item.2)).

Fixpoint answered_count (strip : string -> string) (items : list (string * string)) : Z :=
  match items with
  | [] => 0
  | item :: items' =>
      (if answered strip item then 1 else 0) + answered_count strip items'
  end.

(** *** Due tasks *)

(** The tasks of a phase that are due: the first [days_since_start] ones in
    document order; how many of a list of tasks are (un)finished; and the
    days behind of all phases together. *)
Definition due_tasks (phase : AdaptiveRoadmapDelays.phase_view) : list bool :=
  take (Z.to_nat (AdaptiveRoadmapDelays.days_since_start phase))
    (concat (AdaptiveRoadmapDelays.weekly_completed phase)).

Fixpoint count_of (b : bool) (l : list bool) : Z :=
  match l with
  | [] => 0
  | x :: l' => (if Bool.eqb x b then 1 else 0) + count_of b l'
  end.

Fixpoint sum_days_behind (phases : list AdaptiveRoadmapDelays.phase_view) : Z :=
  match phases with
  | [] => 0
  | phase :: phases' =>
      AdaptiveRoadmapDelays.days_behind (AdaptiveRoadmapDelays._analyze_phase_delays phase)
      + sum_days_behind phases'
  end.

(** *** Failures of database calls *)

(** The failing calls a fault plan still holds: a run in which a database
    call failed leaves fewer of them. *)
Definition failures_left (w : world) : nat :=
  length (filter (fun b => b = true) (faults w)).

(** The failures that reach the [try] block of [check_unlock_status] itself:
    a failing [find_one], and a failing [insert_one] when the record is
    created. *)
Definition failure_escapes (w : world) (key : string * Z) : bool :=
  match faults w with
  | true :: _ => true
  | false :: true :: _ => bool_decide (learning_progress w !! key = None)
  | _ => false
  end.

(** A record whose correction fails: day 1 is completed and day 2 not yet
    unlocked, and the [update_one] of the correction raises. *)
Definition failing_update_world : world :=
  mk_world (users sample_world)
    {[ ("u"%string, 0) :=
         mk_progress (Some [1]) (Some [1]) (Some "none"%string) (Some 0) None ]}
    [false; true].

(** A learner who passed day 1, and whose progress record lists three
    unlocked days and no completed one. *)
Definition passed_roadmap : roadmap :=
  mk_roadmap (Some (PhasesArray [mk_phase (Some (mk_plan (Some
    [mk_week (Some [mk_task (Some 1)
                      (Some (mk_assessment (Some true) (Some 85)
                               (Some "passed"%string) (Some 1)));
                    mk_task (Some 2) None; mk_task (Some 3) None])])))])).

Definition stale_world : world :=
  mk_world {[ "u"%string := mk_user (Some passed_roadmap) ]}
    {[ ("u"%string, 0) :=
         mk_progress (Some [1; 2; 3]) (Some []) (Some "corrected"%string)
           (Some 0) (Some 1) ]} [].

(** A learner without curriculum document. *)
Definition blank_world : world :=
  mk_world {[ "u"%string := mk_user None ]} ∅ [].

(** A learner whose phases are an object: day 1 is passed in the document
    and completed on record. *)
Definition keyed_roadmap : roadmap :=
  mk_roadmap (Some (PhasesObject {[ "0"%string := mk_phase (Some (mk_plan (Some
    [mk_week (Some [mk_task (Some 1)
                      (Some (mk_assessment (Some true) (Some 85)
                               (Some "passed"%string) (Some 1)));
                    mk_task (Some 2) None])]))) ]})).

Definition keyed_world : world :=
  mk_world {[ "u"%string := mk_user (Some keyed_roadmap) ]}
    {[ ("u"%string, 0) :=
         mk_progress (Some [1; 2]) (Some [1]) (Some "auto_sequential"%string)
           (Some 0) (Some 1) ]} [].

(** * Properties *)

(** ** Facts on the Python helpers *)

Lemma py_in_true x l : py_in x l = true <-> x ∈ l.
Proof. unfold py_in. apply bool_decide_eq_true. Qed.

Lemma py_in_false x l : py_in x l = false <-> x ∉ l.
Proof. unfold py_in. apply bool_decide_eq_false. Qed.

Lemma elem_of_sorted x l : x ∈ sorted l <-> x ∈ l.
Proof. unfold sorted. by rewrite merge_sort_Permutation. Qed.

Lemma set_eqb_true l1 l2 : set_eqb l1 l2 = true <-> (forall x, x ∈ l1 <-> x ∈ l2).
Proof.
  unfold set_eqb. rewrite andb_true_iff, !forallb_forall.
  split.
  - intros [H1 H2] x. split; intros Hx.
    + apply py_in_true, H1. by apply list_elem_of_In.
    + apply py_in_true, H2. by apply list_elem_of_In.
  - intros H. split; intros x Hx%list_elem_of_In; apply py_in_true; by apply H.
Qed.

Lemma elem_of_evaluate_unlock acc l x :
  x ∈ foldl evaluate_unlock_step acc l <->
  x ∈ acc \/ exists d, d ∈ l /\ x = d + 1 /\ x <= 30.
Proof.
  revert acc. induction l as [|d l IH]; intros acc; simpl.
  - split; [by left | intros [H | (d & Hd & _)]; [done | by apply elem_of_nil in Hd]].
  - rewrite IH. unfold evaluate_unlock_step.
    destruct (py_in (d + 1) acc) eqn:Hin; simpl.
    + apply py_in_true in Hin. split.
      * intros [H | (d' & Hd' & Hx)]; [by left | right].
        exists d'. split; [by right | done].
      * intros [H | (d' & Hd' & Hx & Hcap)]; [by left |].
        apply elem_of_cons in Hd' as [-> | Hd'].
        -- left. by subst x.
        -- right. by exists d'.
    + case_bool_decide as Hcap.
      * rewrite elem_of_app, list_elem_of_singleton. split.
        -- intros [[H | ->] | (d' & Hd' & Hx)]; [by left | right | right].
           ++ exists d. split; [by left | done].
           ++ exists d'. split; [by right | done].
        -- intros [H | (d' & Hd' & Hx & Hc)]; [by left; left |].
           apply elem_of_cons in Hd' as [-> | Hd'].
           ++ left. by right.
           ++ right. by exists d'.
      * split.
        -- intros [H | (d' & Hd' & Hx)]; [by left | right].
           exists d'. split; [by right | done].
        -- intros [H | (d' & Hd' & Hx & Hc)]; [by left |].
           apply elem_of_cons in Hd' as [-> | Hd'].
           ++ subst x. lia.
           ++ right. by exists d'.
Qed.

Lemma elem_of_reset_unlock acc l x :
  x ∈ foldl reset_unlock_step acc l <-> x ∈ acc \/ exists d, d ∈ l /\ x = d + 1.
Proof.
  revert acc. induction l as [|d l IH]; intros acc; simpl.
  - split; [by left | intros [H | (d & Hd & _)]; [done | by apply elem_of_nil in Hd]].
  - rewrite IH. unfold reset_unlock_step.
    destruct (py_in (d + 1) acc) eqn:Hin; simpl.
    + apply py_in_true in Hin. split.
      * intros [H | (d' & Hd' & Hx)]; [by left | right].
        exists d'. split; [by right | done].
      * intros [H | (d' & Hd' & Hx)]; [by left |].
        apply elem_of_cons in Hd' as [-> | Hd'].
        -- left. by subst x.
        -- right. by exists d'.
    + rewrite elem_of_app, list_elem_of_singleton. split.
      * intros [[H | ->] | (d' & Hd' & Hx)]; [by left | right | right].
        -- exists d. split; [by left | done].
        -- exists d'. split; [by right | done].
      * intros [H | (d' & Hd' & Hx)]; [by left; left |].
        apply elem_of_cons in Hd' as [-> | Hd'].
        -- left. by right.
        -- right. by exists d'.
Qed.

Lemma elem_of_scan_tasks acc tasks d :
  d ∈ foldl (fun acc t =>
               if counts_as_passed t then acc ++ [default 0 (task_day t)] else acc)
            acc tasks <->
  d ∈ acc \/ exists t, t ∈ tasks /\ counts_as_passed t = true /\ d = default 0 (task_day t).
Proof.
  revert acc. induction tasks as [|t tasks IH]; intros acc; simpl.
  - split; [by left | intros [H | (t & Ht & _)]; [done | by apply elem_of_nil in Ht]].
  - rewrite IH. destruct (counts_as_passed t) eqn:Hp.
    + rewrite elem_of_app, list_elem_of_singleton. split.
      * intros [[H | ->] | (t' & Ht' & Hx)]; [by left | right | right].
        -- exists t. split; [by left | done].
        -- exists t'. split; [by right | done].
      * intros [H | (t' & Ht' & Hc & Hx)]; [by left; left |].
        apply elem_of_cons in Ht' as [-> | Ht'].
        -- left. by right.
        -- right. by exists t'.
    + split.
      * intros [H | (t' & Ht' & Hx)]; [by left | right].
        exists t'. split; [by right | done].
      * intros [H | (t' & Ht' & Hc & Hx)]; [by left |].
        apply elem_of_cons in Ht' as [-> | Ht'].
        -- congruence.
        -- right. by exists t'.
Qed.

Lemma elem_of_scan_weeks acc schedule d :
  d ∈ foldl (fun acc wk =>
               foldl (fun acc t =>
                        if counts_as_passed t then acc ++ [default 0 (task_day t)] else acc)
                     acc (default [] (daily_tasks wk)))
            acc schedule <->
  d ∈ acc \/ scan_hit schedule d.
Proof.
  revert acc. induction schedule as [|wk schedule IH]; intros acc; simpl.
  - split; [by left | intros [H | (wk & t & Hwk & _)]; [done | by apply elem_of_nil in Hwk]].
  - rewrite IH, elem_of_scan_tasks. split.
    + intros [[H | (t & Ht & Hc & Hx)] | (wk' & t & Hwk' & Ht)]; [by left | right | right].
      * exists wk, t. split; [by left | done].
      * exists wk', t. split; [by right | done].
    + intros [H | (wk' & t & Hwk' & Ht & Hc & Hx)]; [by left; left |].
      apply elem_of_cons in Hwk' as [-> | Hwk'].
      * left. right. by exists t.
      * right. by exists wk', t.
Qed.

Lemma elem_of_scan_completed schedule d :
  d ∈ scan_completed schedule <-> scan_hit schedule d.
Proof.
  unfold scan_completed. rewrite elem_of_scan_weeks. split; [|by right].
  intros [H | H]; [by apply elem_of_nil in H | done].
Qed.

(** ** Facts on sequential runs *)

Lemma run_bind {A B} (m : proc A) (f : A -> proc B) w :
  run (bind m f) w =
  match run m w with
  | (inr a, w') => run (f a) w'
  | (inl e, w') => (inl e, w')
  end.
Proof.
  revert w. induction m as [a | e | C o k IH]; intros w; simpl; try done.
  destruct (exec o w) as [r w']. apply IH.
Qed.

Lemma run_try_except {A} (m : proc A) (h : exn -> proc A) w :
  run (try_except m h) w =
  match run m w with
  | (inr a, w') => (inr a, w')
  | (inl e, w') => run (h e) w'
  end.
Proof.
  revert w. induction m as [a | e | C o k IH]; intros w; simpl; try done.
  destruct (exec o w) as [r w']. apply IH.
Qed.

Lemma run_call {B} (o : db_op B) w : run (call o) w = exec o w.
Proof. simpl. destruct (exec o w) as [[e | b] w']; done. Qed.

Lemma returns_ret {A} (a : A) w (Q : A -> world -> Prop) : Q a w -> returns (Ret a) w Q.
Proof. intros H. by exists a, w. Qed.

Lemma returns_bind {A B} (m : proc A) (f : A -> proc B) w (Q : B -> world -> Prop) :
  returns m w (fun a w' => returns (f a) w' Q) -> returns (bind m f) w Q.
Proof.
  intros (a & w' & Hm & b & w'' & Hf & HQ).
  exists b, w''. split; [|done]. by rewrite run_bind, Hm.
Qed.

Lemma returns_mono {A} (m : proc A) w (P Q : A -> world -> Prop) :
  returns m w P -> (forall a w', P a w' -> Q a w') -> returns m w Q.
Proof. intros (a & w' & Hm & HP) H. exists a, w'. eauto. Qed.

Lemma returns_run {A} (m : proc A) w (Q : A -> world -> Prop) a w' :
  returns m w Q -> run m w = (inr a, w') -> Q a w'.
Proof. intros (a0 & w0 & Hm & HQ) Hrun. congruence. Qed.

(** Without a fault a call performs its operation. *)
Lemma exec_no_fault {B} (o : db_op B) w :
  faults w = [] -> exec o w = (inr (perform o w).1, (perform o w).2).
Proof. intros H. unfold exec. rewrite H. by destruct (perform o w). Qed.

Lemma perform_faults {B} (o : db_op B) w : faults (perform o w).2 = faults w.
Proof.
  destruct o; simpl; try done.
  - by destruct (users w !! user_id).
  - destruct (learning_progress w !! key); [done | by destruct upsert].
Qed.

(** Whatever the fault plan, a call either raises with the stores untouched
    or performs its operation on them. *)
Lemma exec_cases {B} (o : db_op B) w :
  (exists w', exec o w = (inl DbError, w')
     /\ users w' = users w /\ learning_progress w' = learning_progress w
     /\ faults w <> [])
  \/ (exists w0, exec o w = (inr (perform o w0).1, (perform o w0).2)
        /\ users w0 = users w /\ learning_progress w0 = learning_progress w
        /\ (faults w = [] -> w0 = w)).
Proof.
  unfold exec. destruct (faults w) as [|[] fs] eqn:Hf.
  - right. exists w. by destruct (perform o w).
  - left. eexists. split; [done | by repeat split].
  - right. exists (mk_world (users w) (learning_progress w) fs).
    split; [by destruct (perform o _) | done].
Qed.

Lemma perform_upsert key u w :
  (perform (ProgressUpdateOne key u true) w).2 =
  mk_world (users w) (upsert_progress key u (learning_progress w)) (faults w).
Proof. simpl. unfold upsert_progress. by destruct (learning_progress w !! key). Qed.

Lemma update_progress_returns u p l t now w :
  returns (_update_progress u p l t now) w (fun _ w' =>
    users w' = users w /\
    (faults w = [] ->
     faults w' = [] /\
     learning_progress w' =
       upsert_progress (u, p) (mk_update (Some l) None (Some t) (Some now) None)
         (learning_progress w))).
Proof.
  unfold returns, _update_progress. rewrite run_try_except, run_call.
  destruct (exec_cases (ProgressUpdateOne (u, p)
              (mk_update (Some l) None (Some t) (Some now) None) true) w)
    as [(w' & -> & Hu & Hlp & Hne) | (w0 & -> & Hu & Hlp & Hnf)].
  - exists tt, w'. split; [done | split; [done |]]. intros Hf. done.
  - eexists tt, _. split; [reflexivity |]. rewrite perform_upsert. simpl.
    split; [done |]. intros Hf. rewrite (Hnf Hf). done.
Qed.

(** ** Facts on the unlock manager *)

Lemma phase_schedule_empty rm p schedule :
  phase_schedule rm p = inr schedule -> schedule = [].
Proof.
  unfold phase_schedule, get_phase.
  destruct (phases rm) as [[l | m]|]; cbn; [done | |]; by intros [= <-].
Qed.

Lemma phase_schedule_raises rm p e :
  phase_schedule rm p = inl e ->
  e = AttributeError /\ exists l, phases rm = Some (PhasesArray l).
Proof.
  unfold phase_schedule, get_phase.
  destruct (phases rm) as [[l | m]|]; cbn; [|done | done].
  intros [= <-]. split; [done | by exists l].
Qed.

Lemma completed_in_cases usr p :
  completed_in usr p = inr []
  \/ (completed_in usr p = inl AttributeError
      /\ exists l, phases (default empty_roadmap (road_map usr)) = Some (PhasesArray l)).
Proof.
  unfold completed_in.
  destruct (phase_schedule _ p) as [e | schedule] eqn:Hs; cbn [ebind].
  - right. apply phase_schedule_raises in Hs as [-> Hl]. done.
  - left. by rewrite (phase_schedule_empty _ _ _ Hs).
Qed.

Lemma reset_returns u p now w :
  returns (reset_unlock_status u p now) w (fun res w' =>
    users w' = users w /\
    match res with
    | ResetSuccess c ul =>
        (exists usr, users w !! u = Some usr /\ completed_in usr p = inr c) /\
        ul = foldl reset_unlock_step [1] (sorted c) /\
        (faults w = [] ->
         faults w' = [] /\
         learning_progress w' =
           upsert_progress (u, p) (reset_update c now) (learning_progress w))
    | ResetError e =>
        learning_progress w' = learning_progress w /\
        (faults w = [] ->
         w' = w /\ forall usr, users w !! u = Some usr -> completed_in usr p = inl e)
    end).
Proof.
  unfold returns, reset_unlock_status.
  rewrite run_try_except, run_bind, run_call.
  destruct (exec_cases (GetUserById u) w)
    as [(w1 & -> & Hu1 & Hlp1 & Hne1) | (w1 & -> & Hu1 & Hlp1 & Hnf1)].
  { simpl. eexists _, _. split; [reflexivity |]. by repeat split. }
  cbn [perform fst snd]. rewrite Hu1.
  destruct (users w !! u) as [usr|] eqn:Husr.
  2:{ eexists _, _. split; [reflexivity |]. cbn beta iota.
      split; [done |]. split; [done |]. intros Hf. split; [by apply Hnf1 | done]. }
  rewrite run_bind. unfold completed_in.
  destruct (phase_schedule (default empty_roadmap (road_map usr)) p)
    as [e | schedule] eqn:Hs; cbn [lift run].
  { eexists _, _. split; [reflexivity |]. cbn beta iota.
    split; [done |]. split; [done |]. intros Hf. split; [by apply Hnf1 |].
    intros usr' [= <-]. by rewrite Hs. }
  rewrite run_bind, run_call.
  match goal with |- context [exec ?o w1] =>
    destruct (exec_cases o w1)
      as [(w2 & -> & Hu2 & Hlp2 & Hne2) | (w2 & -> & Hu2 & Hlp2 & Hnf2)] end.
  { eexists _, _. split; [reflexivity |]. cbn beta iota.
    split; [congruence |]. split; [congruence |].
    intros Hf. rewrite (Hnf1 Hf) in Hne2. done. }
  rewrite perform_upsert. cbn [fst snd run].
  eexists _, _. split; [reflexivity |]. cbn beta iota.
  unfold users at 1, learning_progress at 1, faults at 2.
  split; [congruence |]. split.
  { exists usr. split; [done |]. by rewrite Hs. }
  split; [done |].
  intros Hf. specialize (Hnf1 Hf). subst w1. specialize (Hnf2 Hf). subst w2.
  done.
Qed.

Lemma canonical_correct_unlocked completed :
  canonical completed (foldl evaluate_unlock_step [1] (sorted completed)).
Proof.
  intros x. rewrite elem_of_evaluate_unlock, list_elem_of_singleton.
  by setoid_rewrite elem_of_sorted.
Qed.

Lemma persisted_update_progress w w' u p l t now unlocked completed :
  persisted w (u, p) unlocked completed ->
  faults w' = [] ->
  learning_progress w' =
    upsert_progress (u, p) (mk_update (Some l) None (Some t) (Some now) None)
      (learning_progress w) ->
  persisted w' (u, p) l completed.
Proof.
  intros (Hf & d & Hd & Hu & Hc) Hf' Hlp. split; [done |].
  rewrite Hlp. unfold upsert_progress. rewrite Hd. simpl.
  eexists. rewrite lookup_insert_eq. split; [reflexivity |]. simpl. done.
Qed.

Lemma persisted_nonempty w key unlocked completed :
  persisted w key unlocked completed -> unlocked <> [] ->
  exists d, learning_progress w !! key = Some d
    /\ unlocked_days d = Some unlocked
    /\ default [] (completed_assessments d) = completed.
Proof.
  intros (_ & d & Hd & Hu & Hc) Hne. exists d. split; [done |]. split; [|done].
  destruct (unlocked_days d); simpl in Hu; congruence.
Qed.

(** The state [_evaluate_unlock_conditions] returns and leaves behind. *)
Lemma evaluate_returns u p doc now w :
  returns (_evaluate_unlock_conditions u p doc now) w (fun r w' =>
    users w' = users w /\
    exists completed,
      us_completed_assessments r = Some completed /\
      canonical completed (us_unlocked_days r) /\
      (faults w = [] -> learning_progress w !! (u, p) = Some doc ->
       persisted w' (u, p) (us_unlocked_days r) completed /\
       ((length (default [] (completed_assessments doc)) + 1
         < length (default [] (unlocked_days doc)))%nat ->
        forall usr, users w !! u = Some usr -> completed = reconciled usr p doc))).
Proof.
  unfold _evaluate_unlock_conditions.
  set (unlocked0 := default [] (unlocked_days doc)).
  set (completed0 := default [] (completed_assessments doc)).
  apply returns_bind.
  assert (H1 : returns
    (if (length completed0 + 1 <? length unlocked0)%nat
     then reset_result <- reset_unlock_status u p now ;;
          match reset_result with
          | ResetSuccess before_completed corrected_unlocked =>
              Ret (corrected_unlocked, before_completed)
          | ResetError _ => Ret (unlocked0, completed0)
          end
     else Ret (unlocked0, completed0)) w
    (fun uc w1 =>
       users w1 = users w /\
       (faults w = [] -> learning_progress w !! (u, p) = Some doc ->
        persisted w1 (u, p) uc.1 uc.2 /\
        ((length completed0 + 1 < length unlocked0)%nat ->
         forall usr, users w !! u = Some usr -> uc.2 = reconciled usr p doc)))).
  { destruct (length completed0 + 1 <? length unlocked0)%nat eqn:Hlen.
    - apply returns_bind. eapply returns_mono; [apply reset_returns |].
      intros [c ul | e] w1 [Hu H]; apply returns_ret.
      + destruct H as ((usr & Husr & Hc) & Hul & Hnf). split; [done |].
        intros Hf Hdoc. destruct (Hnf Hf) as [Hf1 Hlp1]. split.
        * split; [done |]. rewrite Hlp1. unfold upsert_progress. rewrite Hdoc.
          eexists. rewrite lookup_insert_eq. split; [reflexivity |].
          simpl. by subst ul.
        * intros _ usr' Husr'. simpl. unfold reconciled.
          replace usr' with usr by congruence. by rewrite Hc.
      + destruct H as [Hlp Hnf]. split; [done |].
        intros Hf Hdoc. destruct (Hnf Hf) as [-> Hall]. split.
        * split; [done |]. by exists doc.
        * intros _ usr Husr. unfold reconciled. by rewrite (Hall usr Husr).
    - apply returns_ret. split; [done |]. intros Hf Hdoc. split.
      + split; [done |]. by exists doc.
      + intros Hlt. apply Nat.ltb_ge in Hlen. lia. }
  eapply returns_mono; [exact H1 |]. clear H1.
  intros [ul1 c] w1 (Hu1 & Hp1). cbv beta zeta. cbn [fst snd] in *.
  apply returns_bind.
  assert (H2 : returns
    (if is_empty ul1 || negb (py_in 1 ul1)
     then _update_progress u p [1] "first_unlock" now ;;; Ret [1]
     else Ret ul1) w1
    (fun unlocked1 w2 =>
       users w2 = users w /\
       (faults w = [] -> learning_progress w !! (u, p) = Some doc ->
        persisted w2 (u, p) unlocked1 c))).
  { destruct (is_empty ul1 || negb (py_in 1 ul1)).
    - apply returns_bind. eapply returns_mono; [apply update_progress_returns |].
      intros [] w2 (Hu2 & Hnf2). apply returns_ret. split; [congruence |].
      intros Hf Hdoc. destruct (Hp1 Hf Hdoc) as [Hpers _].
      destruct (Hnf2 (proj1 Hpers)) as [Hf2 Hlp2].
      eapply persisted_update_progress; eauto.
    - apply returns_ret. split; [done |]. intros Hf Hdoc.
      by destruct (Hp1 Hf Hdoc). }
  eapply returns_mono; [exact H2 |]. clear H2.
  intros unlocked1 w2 (Hu2 & Hp2). cbv beta.
  apply returns_bind.
  set (correct := foldl evaluate_unlock_step [1] (sorted c)).
  assert (H3 : returns
    (if negb (set_eqb unlocked1 correct)
     then _update_progress u p (sorted correct) "corrected" now ;;; Ret (sorted correct)
     else Ret unlocked1) w2
    (fun unlocked2 w3 =>
       users w3 = users w /\ canonical c unlocked2 /\
       (faults w = [] -> learning_progress w !! (u, p) = Some doc ->
        persisted w3 (u, p) unlocked2 c))).
  { destruct (set_eqb unlocked1 correct) eqn:Heq; cbn [negb].
    - apply returns_ret. split; [done |]. split; [|done].
      intros x. rewrite set_eqb_true in Heq. rewrite Heq.
      apply canonical_correct_unlocked.
    - apply returns_bind. eapply returns_mono; [apply update_progress_returns |].
      intros [] w3 (Hu3 & Hnf3). apply returns_ret. split; [congruence |]. split.
      + intros x. rewrite elem_of_sorted. apply canonical_correct_unlocked.
      + intros Hf Hdoc. specialize (Hp2 Hf Hdoc).
        destruct (Hnf3 (proj1 Hp2)) as [Hf3 Hlp3].
        eapply persisted_update_progress; eauto. }
  eapply returns_mono; [exact H3 |]. clear H3.
  intros unlocked2 w3 (Hu3 & Hcan & Hp3). apply returns_ret. cbn.
  split; [done |]. exists c. split; [done |]. split; [done |].
  intros Hf Hdoc. split; [by apply Hp3 | by apply Hp1].
Qed.

(** [check_unlock_status]: its body raises only when a database call fails,
    and otherwise returns the canonical unlock set of the completed days. *)
Lemma check_body_cases u p now w :
  (exists w', run (check_unlock_status_body u p now) w = (inl DbError, w')
     /\ faults w <> [] /\ users w' = users w)
  \/ returns (check_unlock_status_body u p now) w (fun r w' =>
       users w' = users w /\
       exists completed,
         us_completed_assessments r = Some completed /\
         canonical completed (us_unlocked_days r) /\
         (faults w = [] ->
          persisted w' (u, p) (us_unlocked_days r) completed /\
          forall doc, learning_progress w !! (u, p) = Some doc ->
            (length (default [] (completed_assessments doc)) + 1
             < length (default [] (unlocked_days doc)))%nat ->
            forall usr, users w !! u = Some usr -> completed = reconciled usr p doc)).
Proof.
  unfold check_unlock_status_body, returns. rewrite !run_bind, run_call.
  destruct (exec_cases (ProgressFindOne (u, p)) w)
    as [(w1 & -> & Hu1 & Hlp1 & Hne1) | (w1 & -> & Hu1 & Hlp1 & Hnf1)].
  { left. by exists w1. }
  cbn [perform fst snd]. rewrite Hlp1.
  destruct (learning_progress w !! (u, p)) as [doc|] eqn:Hdoc.
  - right. cbn [bind].
    destruct (evaluate_returns u p doc now w1)
      as (r & w' & -> & Hu' & c & Hc & Hcan & Hpers).
    exists r, w'. split; [done |]. split; [congruence |].
    exists c. split; [done |]. split; [done |].
    intros Hf. specialize (Hnf1 Hf). subst w1.
    destruct (Hpers Hf Hdoc) as [Hp Hre]. split; [done |].
    by intros doc' [= <-].
  - rewrite !run_bind, run_call.
    match goal with |- context [exec ?o w1] =>
      destruct (exec_cases o w1)
        as [(w2 & -> & Hu2 & Hlp2 & Hne2) | (w2 & -> & Hu2 & Hlp2 & Hnf2)] end.
    { left. exists w2. split; [done |]. split; [|congruence].
      intros Hf. rewrite (Hnf1 Hf) in Hne2. done. }
    right. cbn [perform fst snd bind run].
    match goal with |- context [run (_evaluate_unlock_conditions u p ?d now) ?w0] =>
      destruct (evaluate_returns u p d now w0)
        as (r & w' & -> & Hu' & c & Hc & Hcan & Hpers) end.
    exists r, w'. split; [done |]. split; [cbn in Hu'; congruence |].
    exists c. split; [done |]. split; [done |].
    intros Hf. specialize (Hnf1 Hf). subst w1. specialize (Hnf2 Hf). subst w2.
    destruct Hpers as [Hp Hre]; [done | cbn; apply lookup_insert_eq |].
    split; [done |]. intros doc' Hdoc'. congruence.
Qed.

Lemma canonical_day_one completed unlocked : canonical completed unlocked -> 1 ∈ unlocked.
Proof. intros H. apply H. by left. Qed.

(** ** Properties of [check_unlock_status] *)

(** C3.  For every learner and phase, whatever the stored state and whichever
    database calls fail, [check_unlock_status] returns a record whose
    [unlocked_days] contains day 1. *)
Theorem check_unlock_status_day_one_unlocked (user_id : string) (phase_id now : Z)
    (w : world) :
  exists r w', run (check_unlock_status user_id phase_id now) w = (inr r, w')
    /\ 1 ∈ us_unlocked_days r.
Proof.
  unfold check_unlock_status. rewrite run_try_except.
  destruct (check_body_cases user_id phase_id now w)
    as [(w' & -> & _) | (r & w' & -> & _ & c & _ & Hcan & _)].
  - exists default_status, w'. split; [done |]. cbn. by left.
  - exists r, w'. split; [done |]. by eapply canonical_day_one.
Qed.

(** C10 (as stated) fails: the [update_one] of a correction raises inside
    [_update_progress], the failure is caught there, and the status returned
    is the corrected one, not the default record. *)
Lemma check_unlock_status_swallowed_failure_counterexample :
  let res := run (check_unlock_status "u" 0 2) failing_update_world in
  (failures_left res.2 < failures_left failing_update_world)%nat
  /\ res.1 = inr (mk_status [1; 2] (Some [1]) 2 "none")
  /\ res.1 <> inr default_status.
Proof. vm_compute. split; [lia |]. split; [reflexivity | discriminate]. Qed.

Lemma exec_fault {B} (o : db_op B) w fs :
  faults w = true :: fs ->
  exec o w = (inl DbError, mk_world (users w) (learning_progress w) fs).
Proof. unfold exec. by intros ->. Qed.

Lemma exec_pass {B} (o : db_op B) w fs :
  faults w = false :: fs ->
  exec o w = (inr (perform o (mk_world (users w) (learning_progress w) fs)).1,
              (perform o (mk_world (users w) (learning_progress w) fs)).2).
Proof. unfold exec. intros ->. by destruct (perform o _). Qed.

(** The body of [check_unlock_status] raises exactly when a failure escapes. *)
Lemma check_body_escapes u p now w :
  if failure_escapes w (u, p)
  then exists w', run (check_unlock_status_body u p now) w = (inl DbError, w')
  else exists r w' completed,
         run (check_unlock_status_body u p now) w = (inr r, w')
         /\ us_completed_assessments r = Some completed
         /\ canonical completed (us_unlocked_days r).
Proof.
  assert (Heval : forall doc w1, exists r w' completed,
            run (_evaluate_unlock_conditions u p doc now) w1 = (inr r, w')
            /\ us_completed_assessments r = Some completed
            /\ canonical completed (us_unlocked_days r)).
  { intros doc w1.
    destruct (evaluate_returns u p doc now w1) as (r & w' & Hrun & _ & c & Hc & Hcan & _).
    by exists r, w', c. }
  unfold failure_escapes, check_unlock_status_body.
  destruct (faults w) as [|[] fs] eqn:Hf.
  - rewrite !run_bind, run_call, exec_no_fault by done. cbn [perform fst snd].
    destruct (learning_progress w !! (u, p)) as [doc|]; cbn [run]; [apply Heval |].
    rewrite !run_bind, run_call, exec_no_fault by done. cbn [perform fst snd run].
    apply Heval.
  - rewrite !run_bind, run_call, (exec_fault _ _ _ Hf). by eexists.
  - rewrite !run_bind, run_call, (exec_pass _ _ _ Hf).
    cbn [perform fst snd learning_progress].
    destruct (learning_progress w !! (u, p)) as [doc|] eqn:Hdoc.
    { assert (He : match fs with
                   | true :: _ => bool_decide (Some doc = @None progress_doc)
                   | _ => false
                   end = false).
      { by destruct fs as [|[] ?]. }
      rewrite He. cbn [bind]. apply Heval. }
    destruct fs as [|[] fs'].
    + rewrite !run_bind, run_call, exec_no_fault by done. cbn [perform fst snd run].
      apply Heval.
    + rewrite bool_decide_eq_true_2 by done.
      rewrite !run_bind, run_call, (exec_fault _ _ fs') by done. by eexists.
    + rewrite !run_bind, run_call, (exec_pass _ _ fs') by done.
      cbn [perform fst snd run]. apply Heval.
Qed.

(** C10 (amended).  [check_unlock_status] never raises: it always returns a
    record.  When a failure reaches its own [try] block (a failing
    [find_one], or a failing [insert_one] when the record is created) the
    record returned is the default one, [unlocked_days = [1]],
    [current_day = 1], [unlock_trigger = "default"].  Every other failure is
    caught where it occurs, in [_update_progress] or [reset_unlock_status],
    and the status is then computed as usual: it carries the completed days
    and their sequential unlock set. *)
Theorem check_unlock_status_total (user_id : string) (phase_id now : Z) (w : world) :
  exists r w', run (check_unlock_status user_id phase_id now) w = (inr r, w')
    /\ (if failure_escapes w (user_id, phase_id)
        then r = default_status
             /\ us_unlocked_days r = [1] /\ us_current_day r = 1
             /\ us_unlock_trigger r = "default"%string
        else exists completed,
               us_completed_assessments r = Some completed
               /\ canonical completed (us_unlocked_days r)).
Proof.
  unfold check_unlock_status. rewrite run_try_except.
  pose proof (check_body_escapes user_id phase_id now w) as Hbody.
  destruct (failure_escapes w (user_id, phase_id)).
  - destruct Hbody as (w' & ->). by exists default_status, w'.
  - destruct Hbody as (r & w' & c & -> & Hc & Hcan). exists r, w'.
    split; [done |]. by exists c.
Qed.

Lemma counts_as_passed_true t :
  counts_as_passed t = true <->
  exists a s, task_assessment t = Some a /\ a_completed a = Some true
    /\ a_score a = Some s /\ 70 <= s.
Proof.
  unfold counts_as_passed. rewrite andb_true_iff, !bool_decide_eq_true.
  destruct (task_assessment t) as [a|]; simpl.
  - split.
    + intros [Hc Hs]. destruct (a_score a) as [s|] eqn:Hscore; simpl in Hs; [|lia].
      exists a, s. by repeat split.
    + intros (a' & s & [= <-] & Hc & Hs & Hle). rewrite Hs. done.
  - split; [by intros [? _] | by intros (a & s & ? & _)].
Qed.

Lemma scan_hit_passed_in schedule d : scan_hit schedule d <-> passed_in schedule d.
Proof.
  unfold scan_hit, passed_in. split.
  - intros (wk & t & Hwk & Ht & Hc & Hd).
    apply counts_as_passed_true in Hc as (a & s & Ha & Hc & Hs & Hle).
    destruct (daily_tasks wk) as [tasks|] eqn:Htasks; simpl in Ht;
      [|by apply elem_of_nil in Ht].
    exists wk, tasks, t, a, s. by repeat split.
  - intros (wk & tasks & t & a & s & Hwk & Htasks & Ht & Ha & Hc & Hs & Hle & Hd).
    exists wk, t. rewrite Htasks. repeat split; try done.
    apply counts_as_passed_true. exists a, s. by repeat split.
Qed.

(** C2 (as stated) fails: a learner who passes day 2 before day 1 has day 2
    completed and not unlocked. *)
Lemma check_unlock_status_gate_counterexample :
  let r := mk_status [1; 3] (Some [2]) 1 "auto_sequential" in
  (run (check_unlock_status "u" 0 2) day_two_first_world).1 = inr r
  /\ ~ gate_holds r.
Proof.
  split; [vm_compute; reflexivity |].
  intros H. destruct (H 2) as [H2 _]; [cbn; by left |].
  cbn in H2. by repeat (apply elem_of_cons in H2 as [? | H2]; [lia |]);
    apply elem_of_nil in H2.
Qed.

(** C2 (amended).  After [check_unlock_status], every day [d] of the returned
    [completed_assessments] with [d + 1 <= 30] has [d + 1] in [unlocked_days];
    [d] itself is unlocked when it is day 1 or when day [d - 1] is completed
    too; and whenever no database call fails the persisted record holds the
    two lists that are returned. *)
Theorem check_unlock_status_sequential_gate (user_id : string) (phase_id now : Z)
    (w : world) :
  exists r w',
    run (check_unlock_status user_id phase_id now) w = (inr r, w')
    /\ (forall completed d,
          us_completed_assessments r = Some completed ->
          d ∈ completed -> d + 1 <= 30 ->
          d + 1 ∈ us_unlocked_days r
          /\ (d = 1 \/ d - 1 ∈ completed -> d ∈ us_unlocked_days r))
    /\ (faults w = [] ->
        exists doc, learning_progress w' !! (user_id, phase_id) = Some doc
          /\ unlocked_days doc = Some (us_unlocked_days r)
          /\ us_completed_assessments r
             = Some (default [] (completed_assessments doc))).
Proof.
  unfold check_unlock_status. rewrite run_try_except.
  destruct (check_body_cases user_id phase_id now w)
    as [(w1 & -> & Hne & _) | (r1 & w1 & -> & _ & c & Hc & Hcan & Hpers)].
  - exists default_status, w1. split; [done |]. split; [|done].
    intros completed d [=].
  - exists r1, w1. split; [done |]. split.
    + intros completed d Hcompleted Hd Hcap.
      rewrite Hc in Hcompleted. injection Hcompleted as <-. split.
      * apply Hcan. right. by exists d.
      * intros [-> | Hprev]; apply Hcan; [by left | right].
        exists (d - 1). split; [done | lia].
    + intros Hf. destruct (Hpers Hf) as [Hp _].
      apply persisted_nonempty in Hp as (doc & Hdoc & Hul & Hcd).
      * exists doc. split; [done |]. split; [done |]. by rewrite Hcd.
      * intros Hnil. pose proof (canonical_day_one _ _ Hcan) as H1.
        rewrite Hnil in H1. by apply elem_of_nil in H1.
Qed.

Lemma check_unlock_status_sequential_gate_witness :
  exists r w' doc,
    run (check_unlock_status "u" 0 2) day_one_passed_world = (inr r, w')
    /\ 2 ∈ us_unlocked_days r /\ 1 ∈ us_unlocked_days r
    /\ learning_progress w' !! ("u"%string, 0) = Some doc
    /\ unlocked_days doc = Some (us_unlocked_days r).
Proof.
  destruct (check_unlock_status_sequential_gate "u" 0 2 day_one_passed_world)
    as (r & w' & Hrun & Hgate & Hpers).
  destruct (Hpers eq_refl) as (doc & Hdoc & Hul & _).
  assert (Hc : us_completed_assessments r = Some [1]).
  { vm_compute in Hrun. by injection Hrun as <- _. }
  destruct (Hgate [1] 1 Hc) as (H2 & H1); [by left | lia |].
  exists r, w', doc. split; [done |]. split; [exact H2 |].
  split; [apply H1; by left |]. done.
Defined.

Lemma check_unlock_status_total_witness :
  let w := mk_world (users sample_world) ∅ [true] in
  (run (check_unlock_status "u" 0 0) w).1 = inr default_status.
Proof.
  intros w.
  destruct (check_unlock_status_total "u" 0 0 w) as (r & w' & Hrun & Hdefault).
  cbn in Hdefault. destruct Hdefault as (-> & _). by rewrite Hrun.
Defined.

(** ** Reconciliation *)

Lemma reset_run_no_fault u p now w :
  faults w = [] ->
  run (reset_unlock_status u p now) w =
  match users w !! u with
  | Some usr =>
      match completed_in usr p with
      | inr c =>
          (inr (ResetSuccess c (foldl reset_unlock_step [1] (sorted c))),
           mk_world (users w)
             (upsert_progress (u, p) (reset_update c now) (learning_progress w)) [])
      | inl e => (inr (ResetError e), w)
      end
  | None => (inr (ResetError AttributeError), w)
  end.
Proof.
  intros Hf. unfold reset_unlock_status, completed_in.
  rewrite run_try_except, run_bind, run_call, exec_no_fault by done.
  cbn [perform fst snd]. destruct (users w !! u) as [usr|]; [|done].
  rewrite run_bind.
  destruct (phase_schedule (default empty_roadmap (road_map usr)) p)
    as [e | schedule]; cbn [lift run ebind]; [done |].
  rewrite run_bind, run_call, exec_no_fault by done.
  rewrite perform_upsert, Hf. done.
Qed.

(** C6 fails on the code.  The learner of [stale_world] passed day 1, and the
    progress record calls for a reconciliation.  The reset reads the phase
    with [get] from the array of phases, which raises; it answers an error
    and writes nothing, and the status check goes on with the completed days
    of the record: none, where the document has day 1 passed. *)
Theorem reconciliation_ignores_document :
  passed_in (document_schedule passed_roadmap 0) 1
  /\ (run (reset_unlock_status "u" 0 2) stale_world)
     = (inr (ResetError AttributeError), stale_world)
  /\ (run (check_unlock_status "u" 0 2) stale_world).1
     = inr (mk_status [1] (Some []) 1 "corrected").
Proof.
  split; [|split; vm_compute; reflexivity].
  eexists _, _, _, _, 85. cbn.
  split; [by left |]. split; [reflexivity |]. split; [by left |].
  split; [reflexivity |]. split; [reflexivity |]. split; [reflexivity |].
  split; [lia | reflexivity].
Qed.

Lemma apply_reset_update_twice c now1 now2 d :
  apply_update (reset_update c now2) (apply_update (reset_update c now1) d)
  = apply_update (reset_update c now2) d.
Proof. done. Qed.

(** C7.  [reset_unlock_status] is idempotent.  For a fixed curriculum
    document and no failing database call, a second call returns the result
    of the first, and leaves the state a single call leaves (a single call
    made at the time of the second one, [updated_at] being the only field
    that tells the calls apart). *)
Theorem reset_unlock_status_idempotent (user_id : string) (phase_id now1 now2 : Z)
    (w : world) :
  faults w = [] ->
  exists res w1 w2,
    run (reset_unlock_status user_id phase_id now1) w = (inr res, w1)
    /\ run (reset_unlock_status user_id phase_id now2) w1 = (inr res, w2)
    /\ run (reset_unlock_status user_id phase_id now2) w = (inr res, w2)
    /\ (now1 = now2 -> w2 = w1).
Proof.
  intros Hf. rewrite !reset_run_no_fault by done.
  destruct (users w !! user_id) as [usr|] eqn:Husr.
  - destruct (completed_in usr phase_id) as [e | c] eqn:Hc.
    { exists (ResetError e), w, w. split; [done |].
      rewrite reset_run_no_fault, Husr, Hc by done. done. }
    eexists _, _, _. split; [reflexivity |].
    rewrite reset_run_no_fault by done. cbn [users learning_progress]. rewrite Husr, Hc.
    assert (Hup : forall t,
      upsert_progress (user_id, phase_id) (reset_update c t)
        (upsert_progress (user_id, phase_id) (reset_update c now1) (learning_progress w))
      = upsert_progress (user_id, phase_id) (reset_update c t) (learning_progress w)).
    { intros t. unfold upsert_progress. rewrite lookup_insert_eq, insert_insert_eq.
      cbn [from_option id]. by rewrite apply_reset_update_twice. }
    rewrite Hup. split; [reflexivity |]. split; [reflexivity |].
    intros ->. done.
  - exists (ResetError AttributeError), w, w. split; [done |].
    rewrite reset_run_no_fault, Husr by done. done.
Qed.

Lemma reset_unlock_status_idempotent_witness :
  exists w1,
    run (reset_unlock_status "u" 0 1) blank_world = (inr (ResetSuccess [] [1]), w1)
    /\ (run (reset_unlock_status "u" 0 2) w1).1 = inr (ResetSuccess [] [1]).
Proof.
  destruct (reset_unlock_status_idempotent "u" 0 1 2 blank_world)
    as (res & w1 & w2 & H1 & H2 & _); [reflexivity |].
  assert (Hres : res = ResetSuccess [] [1]).
  { vm_compute in H1. by injection H1 as <- _. }
  subst res. exists w1. split; [done |]. by rewrite H2.
Defined.

(** ** Facts on the curriculum document *)

Lemma py_index_setitem {A} (l : list A) i x y :
  py_index l i = Some x -> py_index (py_setitem l i y) i = Some y.
Proof.
  unfold py_index, py_setitem. case_decide as Hi.
  - intros Hl. apply list_lookup_insert_eq. by eapply lookup_lt_Some.
  - rewrite length_insert. case_decide; [|done].
    intros Hl. apply list_lookup_insert_eq. by eapply lookup_lt_Some.
Qed.

Lemma phase_item_array rm pid ph :
  phase_item rm pid = inr ph ->
  exists l, phases rm = Some (PhasesArray l) /\ py_index l pid = Some ph.
Proof.
  unfold phase_item. destruct (phases rm) as [[l | m]|]; cbn [key_of ebind]; try done.
  unfold item_of. destruct (py_index l pid) as [ph'|] eqn:Hidx; [|done].
  intros [= <-]. by exists l.
Qed.

Lemma phase_item_setitem l pid ph ph' :
  py_index l pid = Some ph ->
  phase_item (mk_roadmap (Some (PhasesArray (py_setitem l pid ph')))) pid = inr ph'.
Proof.
  intros Hidx. unfold phase_item. cbn [phases key_of ebind]. unfold item_of.
  by rewrite (py_index_setitem _ _ _ _ Hidx).
Qed.

Lemma get_task_set_assessment rm pid wi ti a rm' :
  set_assessment rm pid wi ti a = inr rm' ->
  exists t, get_task rm pid wi ti = inr t
    /\ get_task rm' pid wi ti = inr (mk_task (task_day t) (Some a)).
Proof.
  unfold set_assessment, get_task.
  destruct (phase_item rm pid) as [|ph] eqn:Hph; [done |]. cbn [ebind].
  destruct (phase_item_array _ _ _ Hph) as (phs & Hphs & Hidx). rewrite Hphs.
  destruct (phase_learning_plan ph) as [lp|]; [|done]. cbn [key_of ebind].
  destruct (weekly_schedule lp) as [weeks|]; [|done]. cbn [key_of ebind].
  destruct wi as [wi|]; [|done]. cbn [index_of ebind]. unfold item_of at 1 3.
  destruct (py_index weeks wi) as [wk|] eqn:Hwk; [|done]. cbn [ebind].
  destruct (daily_tasks wk) as [tasks|]; [|done]. cbn [key_of ebind].
  destruct ti as [ti|]; [|done]. cbn [index_of ebind]. unfold item_of at 1 2.
  destruct (py_index tasks ti) as [t|] eqn:Ht; [|done]. cbn [ebind].
  intros [= <-]. exists t. split; [done |].
  rewrite (phase_item_setitem _ _ _ _ Hidx).
  cbn [key_of ebind phase_learning_plan weekly_schedule index_of]. unfold item_of.
  rewrite (py_index_setitem _ _ _ _ Hwk). cbn [ebind daily_tasks key_of].
  by rewrite (py_index_setitem _ _ _ _ Ht).
Qed.

Lemma set_assessment_defined rm pid wi ti a t :
  get_task rm pid wi ti = inr t ->
  exists rm', set_assessment rm pid wi ti a = inr rm'.
Proof.
  unfold set_assessment, get_task.
  destruct (phase_item rm pid) as [|ph] eqn:Hph; [done |]. cbn [ebind].
  destruct (phase_item_array _ _ _ Hph) as (phs & Hphs & Hidx). rewrite Hphs.
  destruct (phase_learning_plan ph) as [lp|]; [|done]. cbn [key_of ebind].
  destruct (weekly_schedule lp) as [weeks|]; [|done]. cbn [key_of ebind].
  destruct wi as [wi|]; [|done]. cbn [index_of ebind].
  destruct (item_of weeks wi) as [|wk]; [done |]. cbn [ebind].
  destruct (daily_tasks wk) as [tasks|]; [|done]. cbn [key_of ebind].
  destruct ti as [ti|]; [|done]. cbn [index_of ebind].
  destruct (item_of tasks ti) as [|t']; [done |]. cbn [ebind].
  intros _. by eexists.
Qed.

Lemma trigger_returns u p d now w :
  returns (trigger_automatic_unlock u p d now) w (fun _ w' => users w' = users w).
Proof.
  unfold returns, trigger_automatic_unlock. rewrite run_try_except, run_bind, run_call.
  destruct (exec_cases (ProgressFindOne (u, p)) w)
    as [(w1 & -> & Hu1 & _) | (w1 & -> & Hu1 & _)].
  { eexists _, _. split; [reflexivity | done]. }
  cbn [perform fst snd].
  destruct (learning_progress w1 !! (u, p)) as [doc|].
  2:{ eexists _, _. split; [reflexivity | done]. }
  destruct (py_in d (default [] (completed_assessments doc))).
  2:{ eexists _, _. split; [reflexivity | done]. }
  destruct (negb (py_in (d + 1) (default [] (unlocked_days doc)))).
  2:{ eexists _, _. split; [reflexivity | done]. }
  rewrite run_bind, run_call.
  match goal with |- context [exec ?o w1] =>
    destruct (exec_cases o w1) as [(w2 & -> & Hu2 & _) | (w2 & -> & Hu2 & _)] end.
  { eexists _, _. split; [reflexivity | cbn; congruence]. }
  eexists _, _. split; [reflexivity |].
  cbn. destruct (learning_progress w2 !! (u, p)); cbn; congruence.
Qed.

(** ** Properties of the assessment routes *)

Section RouteProperties.

Context {answers day_content : Type}.
Variable has_answers : option answers -> bool.
Variable theory coding : option answers -> option day_content -> evaluation.

Local Abbreviation submit :=
  (submit_assessment answers day_content has_answers theory coding).
Local Abbreviation score_of := (final_score answers day_content theory coding).

(** What one run of [submit_assessment] does: it answers, and either it
    wrote nothing, or it wrote the new record in place. *)
Lemma submit_run u (data : submission answers day_content) now w :
  exists resp w',
    run (submit u data now) w = (inr resp, w')
    /\ ((users w' = users w /\ learning_progress w' = learning_progress w
         /\ forall body, resp <> Http200 body)
        \/ exists pid usr target rm',
             sub_phase_id data = Some pid
             /\ users w !! u = Some usr
             /\ get_task (default empty_roadmap (road_map usr)) pid
                  (sub_week_index data) (sub_task_index data) = inr target
             /\ set_assessment (default empty_roadmap (road_map usr)) pid
                  (sub_week_index data) (sub_task_index data)
                  (submit_record (score_of data) target) = inr rm'
             /\ users w' = <[u := mk_user (Some rm')]> (users w)
             /\ (score_of data < 70 -> learning_progress w' = learning_progress w)
             /\ (forall body, resp = Http200 body ->
                   resp_passed body = bool_decide (70 <= score_of data)
                   /\ resp_score body = score_of data
                   /\ resp_attempts body = next_attempt target)).
Proof.
  unfold submit_assessment. rewrite run_try_except.
  destruct (sub_phase_id data) as [pid|].
  2:{ eexists _, _. split; [reflexivity |]. left. by repeat split. }
  destruct (negb _).
  { eexists _, _. split; [reflexivity |]. left. by repeat split. }
  rewrite run_bind, run_call.
  destruct (exec_cases (GetUserById u) w)
    as [(w1 & -> & Hu1 & Hlp1 & _) | (w1 & -> & Hu1 & Hlp1 & _)].
  { eexists _, _. split; [reflexivity |]. left. by repeat split. }
  cbn [perform fst snd]. rewrite Hu1.
  destruct (users w !! u) as [usr|] eqn:Husr.
  2:{ eexists _, _. split; [reflexivity |]. left. by repeat split. }
  rewrite run_bind, run_try_except.
  match goal with |- context [run ?m w1] =>
    assert (Hblock : exists res w2, run m w1 = (res, w2) /\
      match res with
      | inl e =>
          (users w2 = users w /\ learning_progress w2 = learning_progress w)
          \/ (70 <= score_of data /\
              exists target rm',
                get_task (default empty_roadmap (road_map usr)) pid
                  (sub_week_index data) (sub_task_index data) = inr target
                /\ set_assessment (default empty_roadmap (road_map usr)) pid
                     (sub_week_index data) (sub_task_index data)
                     (submit_record (score_of data) target) = inr rm'
                /\ users w2 = <[u := mk_user (Some rm')]> (users w))
      | inr (inl _) => False
      | inr (inr (attempts, _)) =>
          exists target rm',
            get_task (default empty_roadmap (road_map usr)) pid
              (sub_week_index data) (sub_task_index data) = inr target
            /\ set_assessment (default empty_roadmap (road_map usr)) pid
                 (sub_week_index data) (sub_task_index data)
                 (submit_record (score_of data) target) = inr rm'
            /\ users w2 = <[u := mk_user (Some rm')]> (users w)
            /\ attempts = next_attempt target
            /\ (score_of data < 70 -> learning_progress w2 = learning_progress w)
      end)
  end.
  { destruct (get_task (default empty_roadmap (road_map usr)) pid
                (sub_week_index data) (sub_task_index data)) as [e | target] eqn:Hget;
      cbn [lift bind run].
    { eexists _, _. split; [reflexivity |]. by left. }
    change (mk_assessment _ _ _ _) with (submit_record (score_of data) target).
    destruct (set_assessment (default empty_roadmap (road_map usr)) pid
                (sub_week_index data) (sub_task_index data)
                (submit_record (score_of data) target)) as [e | rm'] eqn:Hset;
      cbn [lift bind run].
    { eexists _, _. split; [reflexivity |]. by left. }
    rewrite run_bind, run_call.
    destruct (exec_cases (UsersSetRoadMap u rm') w1)
      as [(w2 & -> & Hu2 & Hlp2 & _) | (w2 & -> & Hu2 & Hlp2 & _)].
    { eexists _, _. split; [reflexivity |]. left. split; congruence. }
    cbn [perform fst snd]. rewrite Hu2, Hu1, Husr.
    set (w3 := mk_world _ _ _).
    assert (Hu3 : users w3 = <[u := mk_user (Some rm')]> (users w))
      by (cbn; congruence).
    assert (Hlp3 : learning_progress w3 = learning_progress w)
      by (cbn; congruence).
    clearbody w3. rewrite run_bind.
    destruct (bool_decide (70 <= score_of data)) eqn:Hpass.
    2:{ cbn [run]. eexists _, _. split; [reflexivity |].
        exists target, rm'. by repeat split. }
    apply bool_decide_eq_true in Hpass.
    rewrite !run_bind, run_call.
    match goal with |- context [exec ?o w3] =>
      destruct (exec_cases o w3)
        as [(w4 & -> & Hu4 & Hlp4 & _) | (w4 & -> & Hu4 & Hlp4 & _)] end.
    { eexists _, _. split; [reflexivity |]. right. split; [done |].
      exists target, rm'. repeat split; congruence. }
    rewrite perform_upsert. cbn [fst snd]. rewrite run_bind.
    match goal with |- context [run (trigger_automatic_unlock ?a ?b ?c ?d) ?w0] =>
      destruct (trigger_returns a b c d w0) as (ur & w5 & -> & Hu5) end.
    cbn [run]. eexists _, _. split; [reflexivity |].
    exists target, rm'. repeat split; try done; [|lia].
    cbn in Hu5. congruence. }
  destruct Hblock as (res & w2 & -> & Hres).
  destruct res as [e | [e | [attempts ur]]]; [| done |]; cbn [run].
  - eexists _, _. split; [reflexivity |].
    destruct Hres as [[Hu2 Hlp2] | (Hpass & target & rm' & Hget & Hset & Hu2)].
    + left. by repeat split.
    + right. exists pid, usr, target, rm'.
      do 5 (split; [done |]). split; [lia | done].
  - destruct Hres as (target & rm' & Hget & Hset & Hu2 & -> & Hlp2).
    eexists _, _. split; [reflexivity |].
    right. exists pid, usr, target, rm'.
    do 6 (split; [done |]). by intros b [= <-].
Qed.

Lemma assessment_at_written (w w' : world) u usr pid wi ti a rm' :
  users w !! u = Some usr ->
  set_assessment (default empty_roadmap (road_map usr)) pid wi ti a = inr rm' ->
  users w' = <[u := mk_user (Some rm')]> (users w) ->
  assessment_at w' u pid wi ti = Some a.
Proof.
  intros Husr Hset Hu. unfold assessment_at. rewrite Hu, lookup_insert_eq.
  cbn [road_map from_option id].
  apply get_task_set_assessment in Hset as (t & _ & ->). done.
Qed.

Lemma next_attempt_previous (w : world) u usr pid wi ti target :
  users w !! u = Some usr ->
  get_task (default empty_roadmap (road_map usr)) pid wi ti = inr target ->
  next_attempt target = previous_attempts w u pid wi ti + 1.
Proof.
  intros Husr Hget. unfold previous_attempts, assessment_at, next_attempt.
  rewrite Husr, Hget. by destruct (task_assessment target).
Qed.

Lemma submit_record_completed_iff_passed score target :
  completed_iff_passed (submit_record score target).
Proof.
  unfold completed_iff_passed, submit_record. cbn. split.
  - intros [= H%bool_decide_eq_true]. by exists score.
  - intros (s & [= <-] & Hle). by rewrite bool_decide_eq_true_2.
Qed.

(** C4.  A submission that is answered reports [passed = true] exactly
    when the evaluated score is at least 70; a score of 70 passes and a
    score of 69 fails. *)
Theorem submit_assessment_passed_iff (user_id : string)
    (data : submission answers day_content) (now : Z) (w w' : world)
    (body : submit_response) :
  run (submit user_id data now) w = (inr (Http200 body), w') ->
  (resp_passed body = true <-> 70 <= score_of data)
  /\ resp_score body = score_of data
  /\ (score_of data = 70 -> resp_passed body = true)
  /\ (score_of data = 69 -> resp_passed body = false).
Proof.
  intros Hrun.
  destruct (submit_run user_id data now w) as (resp & w1 & Hrun' & Hcases).
  rewrite Hrun in Hrun'. injection Hrun' as <- <-.
  destruct Hcases as [(_ & _ & Hno) | (pid & usr & target & rm' & _ & _ & _ & _ & _ & _ & Hbody)].
  { by destruct (Hno body). }
  destruct (Hbody body eq_refl) as (Hp & Hs & _). rewrite Hp.
  split; [apply bool_decide_eq_true |]. split; [done |]. split.
  - intros ->. done.
  - intros ->. done.
Qed.

(** The run of a well-formed failing submission for an existing task when no
    database call fails: it is answered 200 and the new record is written. *)
Lemma submit_failing_run u (data : submission answers day_content) now w pid usr target :
  faults w = [] ->
  score_of data < 70 ->
  sub_phase_id data = Some pid ->
  has_answers (sub_assessment_answers data) = true ->
  non_empty (sub_assessment_type data) = true ->
  users w !! u = Some usr ->
  get_task (default empty_roadmap (road_map usr)) pid
    (sub_week_index data) (sub_task_index data) = inr target ->
  exists rm' w1,
    set_assessment (default empty_roadmap (road_map usr)) pid
      (sub_week_index data) (sub_task_index data)
      (submit_record (score_of data) target) = inr rm'
    /\ run (submit u data now) w
       = (inr (Http200 (mk_submit_response false (next_attempt target) (score_of data)
                          None None)), w1)
    /\ users w1 = <[u := mk_user (Some rm')]> (users w).
Proof.
  intros Hf Hfail Hpid Hans Htype Husr Hget.
  destruct (set_assessment_defined _ _ _ _ (submit_record (score_of data) target) _ Hget)
    as [rm' Hset].
  exists rm'.
  unfold submit_assessment.
  rewrite Hpid, Hans, Htype, (bool_decide_eq_false_2 (70 <= score_of data)) by lia.
  cbn [negb andb].
  rewrite run_try_except, run_bind, run_call, exec_no_fault by done.
  cbn [perform fst snd]. rewrite Husr.
  rewrite run_bind, run_try_except, Hget. cbn [lift bind].
  assert (Hset' : set_assessment (default empty_roadmap (road_map usr)) pid
            (sub_week_index data) (sub_task_index data)
            (mk_assessment (Some false) (Some (score_of data)) (Some "failed"%string)
               (Some (next_attempt target))) = inr rm').
  { rewrite <- Hset. unfold submit_record.
    by rewrite (bool_decide_eq_false_2 (70 <= score_of data)) by lia. }
  unfold next_attempt in Hset'. rewrite Hset'. cbn [lift bind].
  rewrite !run_bind, run_call, exec_no_fault by done.
  cbn [perform fst snd run]. rewrite Husr.
  eexists. split; [done |]. split; [reflexivity |]. done.
Qed.

(** C5.  A submission whose evaluated score is below 70 leaves the whole
    progress store as it was, whatever else happens.  Whenever it is
    answered 200, the record stored in the curriculum document carries the
    previous attempt count plus one, which is also the count reported.  And
    it is answered 200, with [passed = false], when no database call fails
    and the submission is well formed (a phase, answers, an assessment type)
    and addresses an existing task of the user's document. *)
Theorem failed_submission_frame (user_id : string)
    (data : submission answers day_content) (now : Z) (w : world) :
  score_of data < 70 ->
  exists resp w',
    run (submit user_id data now) w = (inr resp, w')
    /\ learning_progress w' = learning_progress w
    /\ (forall body pid,
          resp = Http200 body -> sub_phase_id data = Some pid ->
          exists a,
            assessment_at w' user_id pid (sub_week_index data) (sub_task_index data)
              = Some a
            /\ a_attempts a =
                 Some (previous_attempts w user_id pid (sub_week_index data)
                         (sub_task_index data) + 1)
            /\ resp_attempts body =
                 previous_attempts w user_id pid (sub_week_index data)
                   (sub_task_index data) + 1)
    /\ (forall pid usr target,
          faults w = [] ->
          sub_phase_id data = Some pid ->
          has_answers (sub_assessment_answers data) = true ->
          non_empty (sub_assessment_type data) = true ->
          users w !! user_id = Some usr ->
          get_task (default empty_roadmap (road_map usr)) pid
            (sub_week_index data) (sub_task_index data) = inr target ->
          resp = Http200 (mk_submit_response false
                            (previous_attempts w user_id pid (sub_week_index data)
                               (sub_task_index data) + 1)
                            (score_of data) None None)
          /\ assessment_at w' user_id pid (sub_week_index data) (sub_task_index data)
             = Some (mk_assessment (Some false) (Some (score_of data))
                       (Some "failed"%string)
                       (Some (previous_attempts w user_id pid (sub_week_index data)
                                (sub_task_index data) + 1)))).
Proof.
  intros Hfail.
  destruct (submit_run user_id data now w) as (resp & w' & Hrun & Hcases).
  exists resp, w'. split; [done |].
  assert (Hgood : forall pid usr target,
            faults w = [] ->
            sub_phase_id data = Some pid ->
            has_answers (sub_assessment_answers data) = true ->
            non_empty (sub_assessment_type data) = true ->
            users w !! user_id = Some usr ->
            get_task (default empty_roadmap (road_map usr)) pid
              (sub_week_index data) (sub_task_index data) = inr target ->
            resp = Http200 (mk_submit_response false
                              (previous_attempts w user_id pid (sub_week_index data)
                                 (sub_task_index data) + 1)
                              (score_of data) None None)
            /\ assessment_at w' user_id pid (sub_week_index data) (sub_task_index data)
               = Some (mk_assessment (Some false) (Some (score_of data))
                         (Some "failed"%string)
                         (Some (previous_attempts w user_id pid (sub_week_index data)
                                  (sub_task_index data) + 1)))).
  { intros pid usr target Hf Hpid Hans Htype Husr Hget.
    destruct (submit_failing_run user_id data now w pid usr target
                Hf Hfail Hpid Hans Htype Husr Hget) as (rm' & w1 & Hset & Hrun1 & Hu1).
    rewrite Hrun in Hrun1. injection Hrun1 as -> ->.
    rewrite <- (next_attempt_previous w user_id usr pid (sub_week_index data)
                  (sub_task_index data) target) by done.
    split; [done |].
    rewrite (assessment_at_written w w1 user_id usr pid (sub_week_index data)
               (sub_task_index data) _ rm' Husr Hset Hu1).
    unfold submit_record.
    by rewrite (bool_decide_eq_false_2 (70 <= score_of data)) by lia. }
  destruct Hcases as [(_ & Hlp & Hno)
    | (pid & usr & target & rm' & Hpid & Husr & Hget & Hset & Hu & Hlp & Hbody)].
  { split; [done |]. split; [| exact Hgood]. intros body pid ->. by destruct (Hno body). }
  split; [by apply Hlp |]. split; [| exact Hgood].
  intros body pid' -> Hpid'. rewrite Hpid in Hpid'. injection Hpid' as <-.
  destruct (Hbody body eq_refl) as (_ & _ & Hatt).
  exists (submit_record (score_of data) target).
  split; [by eapply assessment_at_written |].
  rewrite Hatt. cbn [submit_record a_attempts].
  by rewrite (next_attempt_previous w user_id usr pid (sub_week_index data)
                (sub_task_index data) target).
Qed.

(** What one run of [store_assessment] does. *)
Lemma store_run u (data : store_request) now w :
  exists resp w',
    run (store_assessment u data now) w = (inr resp, w')
    /\ (users w' = users w
        \/ exists pid usr target result_score rm',
             st_phase_id data = Some pid
             /\ users w !! u = Some usr
             /\ st_assessment_result data = Some result_score
             /\ set_assessment (default empty_roadmap (road_map usr)) pid
                  (st_week_index data) (st_task_index data)
                  (store_record result_score target) = inr rm'
             /\ users w' = <[u := mk_user (Some rm')]> (users w)).
Proof.
  unfold store_assessment. rewrite run_try_except, run_bind, run_call.
  destruct (exec_cases (GetUserById u) w)
    as [(w1 & -> & Hu1 & Hlp1 & _) | (w1 & -> & Hu1 & Hlp1 & _)].
  { eexists _, _. split; [reflexivity |]. by left. }
  cbn [perform fst snd]. rewrite Hu1.
  destruct (users w !! u) as [usr|] eqn:Husr.
  2:{ eexists _, _. split; [reflexivity |]. by left. }
  destruct (st_phase_id data) as [pid|]; cbn [key_of lift bind run].
  2:{ eexists _, _. split; [reflexivity |]. by left. }
  destruct (get_task (default empty_roadmap (road_map usr)) pid
              (st_week_index data) (st_task_index data)) as [e | target];
    cbn [lift bind run].
  { eexists _, _. split; [reflexivity |]. by left. }
  destruct (st_assessment_result data) as [result_score|].
  2:{ eexists _, _. split; [reflexivity |]. by left. }
  change (mk_assessment _ _ _ _) with (store_record result_score target).
  destruct (set_assessment (default empty_roadmap (road_map usr)) pid
              (st_week_index data) (st_task_index data)
              (store_record result_score target)) as [e | rm'] eqn:Hset;
    cbn [lift bind run].
  { eexists _, _. split; [reflexivity |]. by left. }
  rewrite run_bind, run_call.
  destruct (exec_cases (UsersSetRoadMap u rm') w1)
    as [(w2 & -> & Hu2 & Hlp2 & _) | (w2 & -> & Hu2 & Hlp2 & _)].
  { eexists _, _. split; [reflexivity |]. left. cbn. congruence. }
  cbn [perform fst snd]. rewrite Hu2, Hu1, Husr.
  set (w3 := mk_world _ _ _).
  assert (Hu3 : users w3 = <[u := mk_user (Some rm')]> (users w))
    by (cbn; congruence).
  clearbody w3. rewrite run_bind, run_call.
  match goal with |- context [exec ?o w3] =>
    destruct (exec_cases o w3)
      as [(w4 & -> & Hu4 & Hlp4 & _) | (w4 & -> & Hu4 & Hlp4 & _)] end.
  { eexists _, _. split; [reflexivity |]. right.
    exists pid, usr, target, result_score, rm'. cbn. repeat split; congruence. }
  rewrite perform_upsert. cbn [fst snd run].
  eexists _, _. split; [reflexivity |]. right.
  exists pid, usr, target, result_score, rm'. cbn. repeat split; congruence.
Qed.

(** C1 (amended).  Every record [submit_assessment] writes into the
    curriculum document has [completed == true] exactly when its score is
    at least 70; every record [store_assessment] writes has
    [completed == true] whatever its score, which is the score of the
    request (0 when the request gives none). *)
Theorem written_assessment_completed_flag (user_id : string) (now : Z) (w : world) :
  (forall (data : submission answers day_content) pid,
     sub_phase_id data = Some pid ->
     exists resp w',
       run (submit user_id data now) w = (inr resp, w')
       /\ (users w' = users w
           \/ exists a,
                assessment_at w' user_id pid (sub_week_index data)
                  (sub_task_index data) = Some a
                /\ a_score a = Some (score_of data)
                /\ completed_iff_passed a))
  /\ (forall (data : store_request) pid,
       st_phase_id data = Some pid ->
       exists resp w',
         run (store_assessment user_id data now) w = (inr resp, w')
         /\ (users w' = users w
             \/ exists a result_score,
                  assessment_at w' user_id pid (st_week_index data)
                    (st_task_index data) = Some a
                  /\ st_assessment_result data = Some result_score
                  /\ a_score a = Some (default 0 result_score)
                  /\ a_completed a = Some true)).
Proof.
  split.
  - intros data pid Hpid.
    destruct (submit_run user_id data now w) as (resp & w' & Hrun & Hcases).
    exists resp, w'. split; [done |].
    destruct Hcases as [(Hu & _) | (pid' & usr & target & rm' & Hpid' & Husr & _ & Hset & Hu & _)];
      [by left | right].
    rewrite Hpid in Hpid'. injection Hpid' as <-.
    exists (submit_record (score_of data) target).
    split; [by eapply assessment_at_written |]. split; [done |].
    apply submit_record_completed_iff_passed.
  - intros data pid Hpid.
    destruct (store_run user_id data now w) as (resp & w' & Hrun & Hcases).
    exists resp, w'. split; [done |].
    destruct Hcases as [Hu | (pid' & usr & target & sc & rm' & Hpid' & Husr & Hres & Hset & Hu)];
      [by left | right].
    rewrite Hpid in Hpid'. injection Hpid' as <-.
    exists (store_record sc target), sc.
    split; [by eapply assessment_at_written |]. done.
Qed.

End RouteProperties.

(** C1 (as stated) fails on the store route: a stored result of 40 is
    written with [completed == true]. *)
Lemma store_assessment_completed_counterexample :
  let w' := (run (store_assessment "u"
                    (mk_store_request (Some 0) (Some 0) (Some 0) 1 (Some (Some 40))) 0)
               sample_world).2 in
  exists a, assessment_at w' "u" 0 (Some 0) (Some 0) = Some a
    /\ ~ completed_iff_passed a.
Proof.
  eexists. split; [vm_compute; reflexivity |].
  intros [H _]. destruct H as (s & [= <-] & Hle); [reflexivity | lia].
Qed.

Lemma written_assessment_completed_flag_witness :
  exists a,
    assessment_at (run (sample_submit 85 1 0 0) sample_world).2 "u" 0 (Some 0) (Some 0)
      = Some a
    /\ completed_iff_passed a.
Proof.
  destruct (written_assessment_completed_flag (fun a => bool_decide (is_Some a))
              (fixed_score 85) (fixed_score 85) "u" 0 sample_world) as [Hsubmit _].
  destruct (Hsubmit (mk_submission (Some 0) 1 (Some 0) (Some 0)
                       (Some "theory"%string) (Some tt) None) 0 eq_refl)
    as (resp & w' & Hrun & [Hu | (a & Ha & _ & Hiff)]).
  - exfalso. change (run (sample_submit 85 1 0 0) sample_world = (inr resp, w')) in Hrun.
    apply (f_equal (fun x => users x.2 !! "u"%string)) in Hrun. cbn [snd] in Hrun.
    rewrite Hu in Hrun. vm_compute in Hrun. discriminate Hrun.
  - exists a. split; [|done].
    change (run (sample_submit 85 1 0 0) sample_world = (inr resp, w')) in Hrun.
    by rewrite Hrun.
Defined.

Lemma submit_assessment_passed_iff_witness :
  resp_passed (mk_submit_response true 1 70 (Some (UnlockSuccess 2 [2])) (Some 2)) = true
  <-> 70 <= 70.
Proof.
  apply (submit_assessment_passed_iff (fun a => bool_decide (is_Some a))
           (fixed_score 70) (fixed_score 70) "u"
           (mk_submission (Some 0) 1 (Some 0) (Some 0) (Some "theory"%string)
              (Some tt) None) 0 sample_world
           (run (sample_submit 70 1 0 0) sample_world).2).
  vm_compute. reflexivity.
Defined.

Lemma failed_submission_frame_witness :
  (run (sample_submit 40 1 0 2) day_one_passed_world).1
  = inr (Http200 (mk_submit_response false 2 40 None None))
  /\ learning_progress (run (sample_submit 40 1 0 2) day_one_passed_world).2
     = learning_progress day_one_passed_world
  /\ assessment_at (run (sample_submit 40 1 0 2) day_one_passed_world).2
       "u" 0 (Some 0) (Some 0)
     = Some (mk_assessment (Some false) (Some 40) (Some "failed"%string) (Some 2)).
Proof.
  destruct (failed_submission_frame (fun a => bool_decide (is_Some a))
              (fixed_score 40) (fixed_score 40) "u"
              (mk_submission (Some 0) 1 (Some 0) (Some 0) (Some "theory"%string)
                 (Some tt) None) 2 day_one_passed_world)
    as (resp & w' & Hrun & Hlp & _ & Hgood).
  - vm_compute. reflexivity.
  - change (run (sample_submit 40 1 0 2) day_one_passed_world = (inr resp, w')) in Hrun.
    destruct (Hgood 0 (mk_user (Some passed_roadmap))
                (mk_task (Some 1)
                   (Some (mk_assessment (Some true) (Some 85) (Some "passed"%string)
                            (Some 1)))))
      as [Hresp Hstored]; try (vm_compute; reflexivity).
    rewrite Hrun. cbn [fst snd]. split; [by rewrite Hresp |]. split; [done |].
    refine (eq_trans Hstored _). vm_compute. reflexivity.
Defined.

(** ** Properties of the adaptation rules *)

Import AdaptiveRoadmapManager.

(** C8 (as stated) fails: a fast learner whose risk level is high gets the
    timeline extension and the simplified content, and no harder challenge. *)
Lemma fast_learner_at_risk_counterexample :
  let pa := mk_progress_analysis "fast" in
  let da := mk_delay_analysis "high" 5 in
  learning_velocity pa = "fast"%string
  /\ ~ increases_challenge (_generate_adaptations pa da).
Proof.
  split; [reflexivity |].
  intros (c & Hc & _). vm_compute in Hc. by apply elem_of_nil in Hc.
Qed.

(** C8 (amended).  When [learning_velocity] is "fast" and the risk level is
    neither "high" nor "critical", the adaptations include an
    [increase_challenge] difficulty change. *)
Theorem fast_learner_increases_challenge (pa : progress_analysis) (da : delay_analysis) :
  learning_velocity pa = "fast"%string ->
  risk_level da <> "high"%string ->
  risk_level da <> "critical"%string ->
  increases_challenge (_generate_adaptations pa da).
Proof.
  intros Hfast Hhigh Hcritical. unfold increases_challenge, _generate_adaptations.
  cbn [difficulty_changes]. rewrite Hfast.
  rewrite (bool_decide_eq_false_2 (risk_level da ∈ ["high"; "critical"]%string)).
  - cbn. eexists. split; [by left | done].
  - intros Hin. apply elem_of_cons in Hin as [? | Hin]; [done |].
    apply elem_of_cons in Hin as [? | Hin]; [done |]. by apply elem_of_nil in Hin.
Qed.

Lemma fast_learner_increases_challenge_witness :
  increases_challenge
    (_generate_adaptations (mk_progress_analysis "fast") (mk_delay_analysis "low" 0)).
Proof.
  apply fast_learner_increases_challenge; [reflexivity | discriminate | discriminate].
Defined.

(** ** Concurrent submissions *)

Lemma occurrences_app x l1 l2 :
  occurrences x (l1 ++ l2) = (occurrences x l1 + occurrences x l2)%nat.
Proof. unfold occurrences. by rewrite filter_app, length_app. Qed.

Lemma occurrences_singleton x : occurrences x [x] = 1%nat.
Proof. unfold occurrences. rewrite filter_cons_True by done. done. Qed.

Lemma occurrences_not_in x l : x ∉ l -> occurrences x l = 0%nat.
Proof.
  unfold occurrences. induction l as [|y l IH]; [done |].
  intros [Hne Hl]%not_elem_of_cons. rewrite filter_cons_False by congruence. auto.
Qed.

Lemma occurrences_in x l : x ∈ l -> (1 <= occurrences x l)%nat.
Proof.
  unfold occurrences. induction l as [|y l IH]; [by intros ?%elem_of_nil |].
  intros [-> | Hl]%elem_of_cons.
  - rewrite filter_cons_True by done. cbn. lia.
  - destruct (decide (y = x)) as [-> | Hne].
    + rewrite filter_cons_True by done. cbn. lia.
    + rewrite filter_cons_False by done. auto.
Qed.

Lemma occurrences_one_in x l : occurrences x l = 1%nat -> x ∈ l.
Proof.
  intros H. destruct (decide (x ∈ l)) as [|Hn]; [done |].
  rewrite occurrences_not_in in H by done. lia.
Qed.

(** Writing an assessment keeps every task of the document in place. *)
Lemma py_index_setitem_other {A} (l : list A) i j x0 x y :
  py_index l i = Some x0 -> py_index l j = Some x ->
  (py_index (py_setitem l i y) j = Some y /\ x = x0)
  \/ py_index (py_setitem l i y) j = Some x.
Proof.
  unfold py_index, py_setitem. intros Hi Hj.
  set (ni := if decide (0 <= i) then Z.to_nat i
             else Z.to_nat (Z.of_nat (length l) + i)).
  set (nj := if decide (0 <= j) then Z.to_nat j
             else Z.to_nat (Z.of_nat (length l) + j)).
  assert (Hi' : l !! ni = Some x0).
  { clear Hj nj. subst ni. destruct (decide (0 <= i)); [done |].
    by destruct (decide (- Z.of_nat (length l) <= i)). }
  assert (Hj' : l !! nj = Some x).
  { clear Hi Hi' ni. subst nj. destruct (decide (0 <= j)); [done |].
    by destruct (decide (- Z.of_nat (length l) <= j)). }
  assert (Hset : (if decide (0 <= i) then <[Z.to_nat i := y]> l
                  else <[Z.to_nat (Z.of_nat (length l) + i) := y]> l)
                 = <[ni := y]> l).
  { subst ni. by destruct (decide (0 <= i)). }
  rewrite Hset, length_insert.
  assert (Hget : (if decide (0 <= j) then <[ni := y]> l !! Z.to_nat j
                  else if decide (- Z.of_nat (length l) <= j)
                       then <[ni := y]> l !! Z.to_nat (Z.of_nat (length l) + j)
                       else None)
                 = <[ni := y]> l !! nj).
  { clear Hi Hi' Hset. subst nj. destruct (decide (0 <= j)); [done |].
    destruct (decide (- Z.of_nat (length l) <= j)); [done |]. done. }
  rewrite Hget. destruct (decide (ni = nj)) as [Heq | Hne].
  - left. rewrite <- Heq. split.
    + apply list_lookup_insert_eq. by eapply lookup_lt_Some.
    + rewrite Heq in Hi'. congruence.
  - right. by rewrite list_lookup_insert_ne.
Qed.

Lemma set_assessment_keeps_tasks rm pid wi ti a rm' wi' ti' t :
  set_assessment rm pid wi ti a = inr rm' ->
  get_task rm pid wi' ti' = inr t ->
  exists t', get_task rm' pid wi' ti' = inr t'.
Proof.
  unfold set_assessment, get_task.
  destruct (phase_item rm pid) as [|ph] eqn:Hph; [done |]. cbn [ebind].
  destruct (phase_item_array _ _ _ Hph) as (phs & Hphs & Hidx). rewrite Hphs.
  destruct (phase_learning_plan ph) as [lp|]; [|done]. cbn [key_of ebind].
  destruct (weekly_schedule lp) as [weeks|]; [|done]. cbn [key_of ebind].
  destruct wi as [wi|]; [|done]. cbn [index_of ebind]. unfold item_of at 1.
  destruct (py_index weeks wi) as [wk|] eqn:Hwk; [|done]. cbn [ebind].
  destruct (daily_tasks wk) as [tasks|] eqn:Htasks; [|done]. cbn [key_of ebind].
  destruct ti as [ti|]; [|done]. cbn [index_of ebind]. unfold item_of at 1.
  destruct (py_index tasks ti) as [t0|] eqn:Ht0; [|done]. cbn [ebind].
  intros [= <-].
  destruct wi' as [wi'|]; [|done]. cbn [index_of ebind]. unfold item_of at 1.
  destruct (py_index weeks wi') as [wk'|] eqn:Hwk'; [|done]. cbn [ebind].
  destruct (daily_tasks wk') as [tasks'|] eqn:Htasks'; [|done]. cbn [key_of ebind].
  destruct ti' as [ti'|]; [|done]. cbn [index_of ebind]. unfold item_of at 1.
  destruct (py_index tasks' ti') as [t1|] eqn:Ht1; [|done]. cbn [ebind].
  intros _. rewrite (phase_item_setitem _ _ _ _ Hidx).
  cbn [key_of ebind phase_learning_plan weekly_schedule index_of]. unfold item_of.
  destruct (py_index_setitem_other weeks wi wi' wk wk'
              (mk_week (Some (py_setitem tasks ti (mk_task (task_day t0) (Some a)))))
              Hwk Hwk') as [[-> ->] | ->]; cbn [ebind daily_tasks key_of].
  - rewrite Htasks in Htasks'. injection Htasks' as <-.
    destruct (py_index_setitem_other tasks ti ti' t0 t1
                (mk_task (task_day t0) (Some a)) Ht0 Ht1) as [[-> _] | ->];
      by eexists.
  - rewrite Htasks'. cbn [key_of ebind]. rewrite Ht1. by eexists.
Qed.

Section Race.

Context {answers day_content : Type}.
Variable has_answers : option answers -> bool.
Variable theory coding : option answers -> option day_content -> evaluation.
Variables (u : string) (pid d : Z) (wi1 ti1 wi2 ti2 : option Z).

Local Abbreviation submit :=
  (submit_assessment answers day_content has_answers theory coding).
Local Abbreviation score_of := (final_score answers day_content theory coding).
Local Abbreviation inv := (race_inv u pid d wi1 ti1 wi2 ti2).
Local Abbreviation ok := (race_ok u pid d wi1 ti1 wi2 ti2).
Local Abbreviation completion w := (completion_recorded w u pid d).
Local Abbreviation unlock w := (unlock_recorded w u pid d).

(** The guarantees of [race_ok] carry over every interleaving. *)
Lemma interleave_race_ok {A} sched :
  forall (p q : proc A) w bp bq,
    inv w -> ok p bp -> ok q bq ->
    (bp = true -> completion w) -> (bq = true -> completion w) ->
    (finished p = true -> completion w /\ unlock w) ->
    (finished q = true -> completion w /\ unlock w) ->
    forall p' q' w', interleave sched p q w = (p', q', w') ->
      finished p' = true -> finished q' = true ->
      completion w' /\ unlock w'.
Proof.
  induction sched as [|[] sched IH];
    intros p q w bp bq Hinv Hp Hq Hbp Hbq Hfp Hfq p' q' w' Hrun Hp' Hq'.
  - cbn in Hrun. injection Hrun as <- <- <-. by apply Hfp.
  - cbn [interleave] in Hrun. destruct p as [a | e | B o k].
    + cbn [step] in Hrun. by eapply (IH (Ret a) q w bp bq).
    + cbn [step] in Hrun. by eapply (IH (Raise e) q w bp bq).
    + cbn [step] in Hrun. cbn [race_ok] in Hp. specialize (Hp w Hinv Hbp).
      destruct (exec o w) as [r w1].
      destruct Hp as (Hinv1 & HC & HU & bp' & Hbp' & Hok & Hfin).
      eapply (IH (k r) q w1 bp' bq); eauto.
      intros Hf. destruct (Hfq Hf). auto.
  - cbn [interleave] in Hrun. destruct q as [a | e | B o k].
    + cbn [step] in Hrun. by eapply (IH p (Ret a) w bp bq).
    + cbn [step] in Hrun. by eapply (IH p (Raise e) w bp bq).
    + cbn [step] in Hrun. cbn [race_ok] in Hq. specialize (Hq w Hinv Hbq).
      destruct (exec o w) as [r w1].
      destruct Hq as (Hinv1 & HC & HU & bq' & Hbq' & Hok & Hfin).
      eapply (IH p (k r) w1 bp bq'); eauto.
      intros Hf. destruct (Hfp Hf). auto.
Qed.

(** A handler is finished once the schedule has given it its calls. *)
Lemma interleave_finishes {A} sched :
  forall n m (p q : proc A) w,
    bounded n p -> bounded m q ->
    (n <= length (filter (fun b => b = true) sched))%nat ->
    (m <= length (filter (fun b => b = false) sched))%nat ->
    forall p' q' w', interleave sched p q w = (p', q', w') ->
      finished p' = true /\ finished q' = true.
Proof.
  induction sched as [|[] sched IH]; intros n m p q w Hp Hq Hn Hm p' q' w' Hrun.
  - cbn in Hrun. injection Hrun as <- <- <-. cbn in Hn, Hm.
    split.
    + destruct p; try done. destruct n; [done | lia].
    + destruct q; try done. destruct m; [done | lia].
  - cbn [interleave] in Hrun. rewrite filter_cons_True in Hn by done.
    rewrite filter_cons_False in Hm by done. cbn [length] in Hn.
    destruct p as [a | e | B o k]; cbn [step] in Hrun.
    + eapply (IH 0%nat m (Ret a) q w); [done | done | lia | lia | exact Hrun].
    + eapply (IH 0%nat m (Raise e) q w); [done | done | lia | lia | exact Hrun].
    + destruct (exec o w) as [r w1]. destruct n as [|n]; [done |].
      eapply (IH n m (k r) q w1); [apply Hp | done | lia | lia | exact Hrun].
  - cbn [interleave] in Hrun. rewrite filter_cons_False in Hn by done.
    rewrite filter_cons_True in Hm by done. cbn [length] in Hm.
    destruct q as [a | e | B o k]; cbn [step] in Hrun.
    + eapply (IH n 0%nat p (Ret a) w); [done | done | lia | lia | exact Hrun].
    + eapply (IH n 0%nat p (Raise e) w); [done | done | lia | lia | exact Hrun].
    + destruct (exec o w) as [r w1]. destruct m as [|m]; [done |].
      eapply (IH n m p (k r) w1); [done | apply Hq | lia | lia | exact Hrun].
Qed.

(** [submit_assessment] makes at most five database calls. *)
Lemma submit_bounded user_id (data : submission answers day_content) now :
  bounded 5 (submit user_id data now).
Proof.
  unfold submit_assessment, trigger_automatic_unlock.
  destruct (sub_phase_id data); [|done]. destruct (negb _); [done |].
  cbn [try_except bind call bounded]. intros [e | [usr|]]; [done | | done].
  cbn [try_except bind call bounded].
  destruct (get_task _ _ _ _) as [e | target]; [done |].
  cbn [try_except bind call bounded lift].
  destruct (set_assessment _ _ _ _ _) as [e | rm']; [done |].
  cbn [try_except bind call bounded lift]. intros [e | []]; [done |].
  cbn [try_except bind call bounded lift].
  destruct (bool_decide _); [|done].
  cbn [try_except bind call bounded lift]. intros [e | []]; [done |].
  cbn [try_except bind call bounded lift]. intros [e | [doc|]]; [done | | done].
  cbn [try_except bind call bounded lift].
  destruct (py_in _ _); [|done]. destruct (negb _); [|done].
  cbn [try_except bind call bounded lift]. intros [e | []]; done.
Qed.

Lemma add_completed_recorded w w' now :
  learning_progress w' =
    upsert_progress (u, pid) (mk_update None None None (Some now) (Some d))
      (learning_progress w) ->
  at_most_once w u pid d ->
  at_most_once w' u pid d /\ completion w' /\ (unlock w -> unlock w').
Proof.
  intros Hlp Hmost. unfold at_most_once, completion_recorded, unlock_recorded.
  rewrite Hlp. unfold upsert_progress. rewrite lookup_insert_eq.
  destruct (learning_progress w !! (u, pid)) as [doc|] eqn:Hdoc; cbn [from_option id].
  - destruct (Hmost doc Hdoc) as [Hu Hc].
    assert (Hnew : occurrences d
              (default [] (completed_assessments
                 (apply_update (mk_update None None None (Some now) (Some d)) doc)))
            = 1%nat).
    { cbn [apply_update completed_assessments add_completed_assessments
             set_completed_assessments set_field add_to_set].
      destruct (completed_assessments doc) as [l|]; cbn [from_option id] in *.
      - destruct (py_in d l) eqn:Hin; cbn [from_option id].
        + apply py_in_true, occurrences_in in Hin. lia.
        + apply py_in_false in Hin.
          rewrite occurrences_app, occurrences_singleton, occurrences_not_in by done.
          done.
      - apply occurrences_singleton. }
    split; [|split].
    + intros doc' [= <-]. split; [exact Hu | lia].
    + eexists. split; [reflexivity | exact Hnew].
    + intros (doc' & [= <-] & Hone). eexists. split; [reflexivity | exact Hone].
  - split; [|split].
    + intros doc' [= <-]. split; [unfold occurrences; cbn; lia |].
      change (occurrences d [d] <= 1)%nat. rewrite occurrences_singleton. lia.
    + eexists. split; [reflexivity |]. apply occurrences_singleton.
    + by intros (doc' & [=] & _).
Qed.

Lemma unlock_written w w' doc l trigger now :
  learning_progress w !! (u, pid) = Some doc ->
  learning_progress w' =
    <[(u, pid) := apply_update
                    (mk_update (Some (l ++ [d + 1])) None (Some trigger) (Some now) None)
                    doc]> (learning_progress w) ->
  d + 1 ∉ l ->
  at_most_once w u pid d ->
  at_most_once w' u pid d /\ unlock w' /\ (completion w -> completion w').
Proof.
  intros Hdoc Hlp Hnot Hmost. unfold at_most_once, completion_recorded, unlock_recorded.
  rewrite Hlp, lookup_insert_eq.
  assert (Hnew : occurrences (d + 1) (l ++ [d + 1]) = 1%nat).
  { by rewrite occurrences_app, occurrences_singleton, occurrences_not_in. }
  destruct (Hmost doc Hdoc) as [_ Hc].
  split; [|split].
  - intros doc' [= <-]. split; [|exact Hc].
    change (occurrences (d + 1)%Z (l ++ [(d + 1)%Z]) <= 1)%nat. lia.
  - eexists. split; [reflexivity |]. exact Hnew.
  - intros (doc' & Hdoc' & Hone). rewrite Hdoc in Hdoc'. injection Hdoc' as <-.
    eexists. split; [reflexivity |]. exact Hone.
Qed.

Lemma submit_not_finished user_id (data : submission answers day_content) now p :
  sub_phase_id data = Some p ->
  has_answers (sub_assessment_answers data) = true ->
  non_empty (sub_assessment_type data) = true ->
  finished (submit user_id data now) = false.
Proof.
  intros Hpid Hans Htype. unfold submit_assessment.
  by rewrite Hpid, Hans, Htype.
Qed.

Lemma race_inv_same_progress w w' :
  faults w' = [] -> learning_progress w' = learning_progress w ->
  navigable w' u pid wi1 ti1 -> navigable w' u pid wi2 ti2 ->
  inv w -> inv w'.
Proof.
  intros Hf Hlp H1 H2 (_ & _ & _ & Hmost).
  split; [done |]. split; [done |]. split; [done |].
  intros doc. rewrite Hlp. apply Hmost.
Qed.

(** A passing submission for day [d] at one of the two places keeps the
    guarantees of [race_ok]. *)
Lemma submit_race_ok (data : submission answers day_content) now :
  sub_phase_id data = Some pid ->
  sub_day data = d ->
  has_answers (sub_assessment_answers data) = true ->
  non_empty (sub_assessment_type data) = true ->
  70 <= score_of data ->
  (sub_week_index data = wi1 /\ sub_task_index data = ti1)
  \/ (sub_week_index data = wi2 /\ sub_task_index data = ti2) ->
  ok (submit u data now) false.
Proof.
  intros Hpid Hday Hans Htype Hpass Hloc.
  unfold submit_assessment, trigger_automatic_unlock.
  rewrite Hpid, Hans, Htype, Hday, (bool_decide_eq_true_2 _ Hpass).
  cbn [negb andb try_except bind call race_ok].
  (* get_user_by_id *)
  intros w Hinv _. rewrite exec_no_fault by apply Hinv. cbn [perform fst snd].
  split; [done |]. split; [done |]. split; [done |].
  exists false. split; [done |].
  assert (Hnav : navigable w u pid (sub_week_index data) (sub_task_index data)).
  { destruct Hloc as [[-> ->] | [-> ->]]; apply Hinv. }
  destruct Hnav as (usr & target & Husr & Hget).
  destruct Hinv as (Hf & (usr1 & t1 & Husr1 & Hget1) & (usr2 & t2 & Husr2 & Hget2) & Hmost).
  rewrite Husr in Husr1, Husr2. injection Husr1 as <-. injection Husr2 as <-.
  rewrite Husr. cbn [try_except bind call lift]. rewrite Hget.
  cbn [try_except bind call lift].
  edestruct (set_assessment_defined (default empty_roadmap (road_map usr)) pid
               (sub_week_index data) (sub_task_index data)) as [rm' Hset];
    [exact Hget |].
  rewrite Hset. cbn [try_except bind call lift race_ok finished].
  split; [|done].
  (* db.users.update_one *)
  intros w2 Hinv2 _. rewrite exec_no_fault by apply Hinv2. cbn [perform fst snd].
  destruct (Hinv2) as (Hf2 & (usr' & t' & Husr' & _) & _ & Hmost2).
  rewrite Husr'.
  set (w3 := mk_world _ _ _).
  assert (Hinv3 : inv w3).
  { apply (race_inv_same_progress w2); [done | done | | | done].
    - destruct (set_assessment_keeps_tasks _ _ _ _ _ _ _ _ _ Hset Hget1) as [t Ht].
      exists (mk_user (Some rm')), t. split; [apply lookup_insert_eq | done].
    - destruct (set_assessment_keeps_tasks _ _ _ _ _ _ _ _ _ Hset Hget2) as [t Ht].
      exists (mk_user (Some rm')), t. split; [apply lookup_insert_eq | done]. }
  split; [done |]. split; [done |]. split; [done |].
  clearbody w3. clear w2 Hinv2 Hf2 usr' t' Husr' Hmost2.
  exists false. split; [done |].
  cbn [try_except bind call lift race_ok finished]. split; [|done].
  (* $addToSet completed_assessments *)
  intros w4 Hinv4 _. rewrite exec_no_fault by apply Hinv4.
  rewrite perform_upsert. cbn [perform fst snd].
  set (w5 := mk_world _ _ _).
  destruct (add_completed_recorded w4 w5 now eq_refl) as (Hmost5 & Hcompl5 & Hunl5);
    [apply Hinv4 |].
  assert (Hinv5 : inv w5).
  { destruct Hinv4 as (Hf4 & Hn1 & Hn2 & _).
    split; [exact Hf4 |]. split; [exact Hn1 |]. split; [exact Hn2 | exact Hmost5]. }
  split; [done |]. split; [done |]. split; [done |].
  clearbody w5. clear w4 Hinv4 Hunl5.
  exists true. split; [done |].
  cbn [try_except bind call lift race_ok finished]. split; [|done].
  (* find_one *)
  intros w6 Hinv6 Hcompl6. specialize (Hcompl6 eq_refl).
  rewrite exec_no_fault by apply Hinv6. cbn [perform fst snd].
  split; [done |]. split; [done |]. split; [done |].
  exists true. split; [done |].
  destruct Hcompl6 as (doc6 & Hdoc6 & Hone6). rewrite Hdoc6.
  cbn [try_except bind call lift].
  rewrite (proj2 (py_in_true d _) (occurrences_one_in _ _ Hone6)).
  destruct (py_in (d + 1) (default [] (unlocked_days doc6))) eqn:Hin6;
    cbn [negb try_except bind call lift race_ok finished].
  { (* the next day is already unlocked *)
    split; [done |]. intros _. split; [by exists doc6 |].
    exists doc6. split; [done |].
    apply py_in_true, occurrences_in in Hin6.
    destruct Hinv6 as (_ & _ & _ & Hmost6). destruct (Hmost6 doc6 Hdoc6). lia. }
  split; [|done].
  (* update_one unlocked_days *)
  apply py_in_false in Hin6.
  intros w7 Hinv7 Hcompl7. specialize (Hcompl7 eq_refl).
  rewrite exec_no_fault by apply Hinv7. cbn [perform fst snd].
  destruct (Hcompl7) as (doc7 & Hdoc7 & Hone7). rewrite Hdoc7.
  set (w8 := mk_world _ _ _).
  destruct (unlock_written w7 w8 doc7 _ _ now Hdoc7 eq_refl Hin6)
    as (Hmost8 & Hunl8 & Hcompl8); [apply Hinv7 |].
  assert (Hinv8 : inv w8).
  { destruct Hinv7 as (Hf7 & Hn1 & Hn2 & _).
    split; [exact Hf7 |]. split; [exact Hn1 |]. split; [exact Hn2 | exact Hmost8]. }
  split; [done |]. split; [done |]. split; [done |].
  exists true. split; [by intros _; apply Hcompl8 |].
  cbn [try_except bind call lift race_ok finished].
  split; [done |]. intros _. split; [by apply Hcompl8 | done].
Qed.

End Race.

(** C9.  Two passing submissions for the same day [d] of the same learner's
    phase are served concurrently, their database calls interleaved in any
    order.  When no call fails and the progress record, if there is one,
    lists [d] and [d + 1] at most once, both submissions are answered, and
    afterwards [unlocked_days] holds day [d + 1] exactly once and
    [completed_assessments] holds day [d] exactly once. *)
Theorem concurrent_passing_submissions {answers day_content : Type}
    (has_answers : option answers -> bool)
    (theory coding : option answers -> option day_content -> evaluation)
    (u : string) (pid d : Z) (data1 data2 : submission answers day_content)
    (now1 now2 : Z) (w : world) (sched : list bool) :
  faults w = [] ->
  passing_submission has_answers theory coding pid d data1 ->
  passing_submission has_answers theory coding pid d data2 ->
  navigable w u pid (sub_week_index data1) (sub_task_index data1) ->
  navigable w u pid (sub_week_index data2) (sub_task_index data2) ->
  at_most_once w u pid d ->
  fair 5 sched ->
  exists p' q' w',
    interleave sched
      (submit_assessment answers day_content has_answers theory coding u data1 now1)
      (submit_assessment answers day_content has_answers theory coding u data2 now2) w
    = (p', q', w')
    /\ finished p' = true /\ finished q' = true
    /\ exists doc, learning_progress w' !! (u, pid) = Some doc
         /\ occurrences (d + 1) (default [] (unlocked_days doc)) = 1%nat
         /\ occurrences d (default [] (completed_assessments doc)) = 1%nat.
Proof.
  intros Hf (Hpid1 & Hday1 & Hans1 & Htype1 & Hpass1)
    (Hpid2 & Hday2 & Hans2 & Htype2 & Hpass2) Hnav1 Hnav2 Hmost [Hfair1 Hfair2].
  destruct (interleave sched
              (submit_assessment answers day_content has_answers theory coding u data1 now1)
              (submit_assessment answers day_content has_answers theory coding u data2 now2)
              w) as [[p' q'] w'] eqn:Hrun.
  exists p', q', w'. split; [done |].
  destruct (interleave_finishes sched 5 5 _ _ w
              (submit_bounded has_answers theory coding u data1 now1)
              (submit_bounded has_answers theory coding u data2 now2)
              Hfair1 Hfair2 p' q' w' Hrun) as [Hp' Hq'].
  split; [done |]. split; [done |].
  assert (Hinv : race_inv u pid d (sub_week_index data1) (sub_task_index data1)
                   (sub_week_index data2) (sub_task_index data2) w) by done.
  assert (Hboth : completion_recorded w' u pid d /\ unlock_recorded w' u pid d).
  { eapply (interleave_race_ok u pid d _ _ _ _ sched _ _ w false false Hinv
              (submit_race_ok has_answers theory coding u pid d _ _ _ _ data1 now1
                 Hpid1 Hday1 Hans1 Htype1 Hpass1 (or_introl (conj eq_refl eq_refl)))
              (submit_race_ok has_answers theory coding u pid d _ _ _ _ data2 now2
                 Hpid2 Hday2 Hans2 Htype2 Hpass2 (or_intror (conj eq_refl eq_refl))));
      [done | done | | | exact Hrun | done | done].
    - by rewrite (submit_not_finished has_answers theory coding u data1 now1 pid).
    - by rewrite (submit_not_finished has_answers theory coding u data2 now2 pid). }
  destruct Hboth as [(doc & Hdoc & Hc) (doc' & Hdoc' & Hu)].
  rewrite Hdoc in Hdoc'. injection Hdoc' as <-. by exists doc.
Qed.

Lemma concurrent_passing_submissions_witness :
  exists p' q' w',
    interleave [true; false; true; false; true; false; true; false; true; false]
      (sample_submit 85 1 0 1) (sample_submit 90 1 0 2) sample_world = (p', q', w')
    /\ exists doc, learning_progress w' !! ("u"%string, 0) = Some doc
         /\ unlocked_days doc = Some [2] /\ completed_assessments doc = Some [1].
Proof.
  destruct (concurrent_passing_submissions (fun a => bool_decide (is_Some a))
              (fixed_score 85) (fixed_score 85) "u" 0 1
              (mk_submission (Some 0) 1 (Some 0) (Some 0) (Some "theory"%string)
                 (Some tt) None)
              (mk_submission (Some 0) 1 (Some 0) (Some 0) (Some "theory"%string)
                 (Some tt) None)
              1 2 sample_world
              [true; false; true; false; true; false; true; false; true; false])
    as (p' & q' & w' & Hrun & _ & _ & doc & Hdoc & _).
  - reflexivity.
  - repeat split; try reflexivity. vm_compute. discriminate.
  - repeat split; try reflexivity. vm_compute. discriminate.
  - eexists _, _. split; vm_compute; reflexivity.
  - eexists _, _. split; vm_compute; reflexivity.
  - intros doc. vm_compute. discriminate.
  - split; vm_compute; lia.
  - eexists _, _, _. split; [vm_compute; reflexivity |].
    eexists. split; [vm_compute; reflexivity |]. split; reflexivity.
Defined.

(** * Further properties *)

(** ** Footprints of the handlers *)

Lemma every_call_bind P {A B} (m : proc A) (f : A -> proc B) :
  every_call P m -> (forall a, every_call P (f a)) -> every_call P (bind m f).
Proof.
  intros Hm Hf. induction m as [a | e | C o k IH]; cbn; [apply Hf | done |].
  destruct Hm as [Ho Hk]. split; [done |]. intros r. by apply IH.
Qed.

Lemma every_call_try P {A} (m : proc A) (h : exn -> proc A) :
  every_call P m -> (forall e, every_call P (h e)) -> every_call P (try_except m h).
Proof.
  intros Hm Hh. induction m as [a | e | C o k IH]; cbn; [done | apply Hh |].
  destruct Hm as [Ho Hk]. split; [done |]. intros r. by apply IH.
Qed.

Lemma every_call_call P {B} (o : db_op B) : P B o -> every_call P (call o).
Proof. intros Ho. cbn. split; [done |]. by intros [e | b]. Qed.

Lemma every_call_lift P {A} (m : exn + A) : every_call P (lift m).
Proof. by destruct m. Qed.

Lemma every_call_weaken (P Q : forall B, db_op B -> Prop) {A} (p : proc A) :
  (forall B o, P B o -> Q B o) -> every_call P p -> every_call Q p.
Proof.
  intros HPQ. induction p as [a | e | C o k IH]; cbn; [done | done |].
  intros [Ho Hk]. split; [by apply HPQ |]. intros r. by apply IH.
Qed.

(** A run stays within a reflexive and transitive relation that every call
    of the handler stays within. *)
Lemma run_every_call (P : forall B, db_op B -> Prop) (R : world -> world -> Prop)
    {A} (p : proc A) :
  (forall w, R w w) ->
  (forall w1 w2 w3, R w1 w2 -> R w2 w3 -> R w1 w3) ->
  (forall B (o : db_op B) w r w', P B o -> exec o w = (r, w') -> R w w') ->
  every_call P p ->
  forall w r w', run p w = (r, w') -> R w w'.
Proof.
  intros Hrefl Htrans Hexec. induction p as [a | e | C o k IH]; cbn.
  - intros _ w r w' [= _ <-]. apply Hrefl.
  - intros _ w r w' [= _ <-]. apply Hrefl.
  - intros [Ho Hk] w r w' Hrun. destruct (exec o w) as [r1 w1] eqn:Hex.
    eapply Htrans; [by eapply Hexec | by eapply IH].
Qed.

Lemma same_elsewhere_refl u key w : same_elsewhere u key w w.
Proof. by split. Qed.

Lemma same_elsewhere_trans u key w1 w2 w3 :
  same_elsewhere u key w1 w2 -> same_elsewhere u key w2 w3 -> same_elsewhere u key w1 w3.
Proof.
  intros [Hu1 Hp1] [Hu2 Hp2]. split.
  - intros u' Hne. by rewrite Hu2, Hu1.
  - intros k Hne. by rewrite Hp2, Hp1.
Qed.

Lemma exec_within u key {B} (o : db_op B) w r w' :
  op_within u key B o -> exec o w = (r, w') -> same_elsewhere u key w w'.
Proof.
  intros Ho Hex.
  destruct (exec_cases o w) as [(w1 & He & Hu & Hp & _) | (w0 & He & Hu & Hp & _)];
    rewrite He in Hex; injection Hex as <- <-.
  { split; intros; congruence. }
  destruct o; cbn in *.
  - split; intros; congruence.
  - subst user_id. destruct (users w0 !! u); split; cbn; intros; try congruence.
    rewrite lookup_insert_ne by done. congruence.
  - split; intros; congruence.
  - subst key0. split; cbn; intros; [congruence |].
    rewrite lookup_insert_ne by done. congruence.
  - subst key0. destruct (learning_progress w0 !! key); [|destruct upsert];
      split; cbn; intros; try congruence; rewrite lookup_insert_ne by done; congruence.
Qed.

Lemma exec_progress_only key {B} (o : db_op B) w r w' :
  op_progress_only key B o -> exec o w = (r, w') ->
  users w' = users w
  /\ forall k, k <> key -> learning_progress w' !! k = learning_progress w !! k.
Proof.
  intros Ho Hex.
  destruct (exec_cases o w) as [(w1 & He & Hu & Hp & _) | (w0 & He & Hu & Hp & _)];
    rewrite He in Hex; injection Hex as <- <-.
  { split; intros; congruence. }
  destruct o; cbn in *; try done.
  - split; intros; congruence.
  - split; intros; congruence.
  - subst key0. split; cbn; intros; [congruence |].
    rewrite lookup_insert_ne by done. congruence.
  - subst key0. destruct (learning_progress w0 !! key); [|destruct upsert];
      split; cbn; intros; try congruence; rewrite lookup_insert_ne by done; congruence.
Qed.

Lemma exec_reads {B} (o : db_op B) w r w' :
  op_reads B o -> exec o w = (r, w') -> same_stores w w'.
Proof.
  intros Ho Hex.
  destruct (exec_cases o w) as [(w1 & He & Hu & Hp & _) | (w0 & He & Hu & Hp & _)];
    rewrite He in Hex; injection Hex as <- <-.
  { by split. }
  destruct o; cbn in *; try done.
Qed.

Lemma update_progress_calls u p l t now :
  every_call (op_progress_only (u, p)) (_update_progress u p l t now).
Proof.
  unfold _update_progress. apply every_call_try; [|done]. by apply every_call_call.
Qed.

Lemma reset_calls u p now :
  every_call (op_progress_only (u, p)) (reset_unlock_status u p now).
Proof.
  unfold reset_unlock_status. apply every_call_try; [|done].
  apply every_call_bind; [by apply every_call_call |].
  intros [usr|]; [|done].
  apply every_call_bind; [apply every_call_lift |]. intros schedule.
  apply every_call_bind; [by apply every_call_call | done].
Qed.

Lemma evaluate_calls u p doc now :
  every_call (op_progress_only (u, p)) (_evaluate_unlock_conditions u p doc now).
Proof.
  unfold _evaluate_unlock_conditions. apply every_call_bind.
  { destruct (_ <? _)%nat; [|done].
    apply every_call_bind; [apply reset_calls |]. by intros []. }
  intros uc. apply every_call_bind.
  { destruct (_ || _); [|done].
    apply every_call_bind; [apply update_progress_calls | done]. }
  intros unlocked1. apply every_call_bind; [|done].
  destruct (negb _); [|done].
  apply every_call_bind; [apply update_progress_calls | done].
Qed.

Lemma check_calls u p now :
  every_call (op_progress_only (u, p)) (check_unlock_status u p now).
Proof.
  unfold check_unlock_status, check_unlock_status_body.
  apply every_call_try; [|done].
  apply every_call_bind; [by apply every_call_call |].
  intros found. apply every_call_bind; [|intros; apply evaluate_calls].
  destruct found; [done |].
  apply every_call_bind; [by apply every_call_call | done].
Qed.

Lemma trigger_calls u p d now :
  every_call (op_progress_only (u, p)) (trigger_automatic_unlock u p d now).
Proof.
  unfold trigger_automatic_unlock. apply every_call_try; [|done].
  apply every_call_bind; [by apply every_call_call |].
  intros [doc|]; [|done].
  destruct (py_in _ _); [|done]. destruct (negb _); [|done].
  apply every_call_bind; [by apply every_call_call | done].
Qed.

Lemma progress_only_within u key B (o : db_op B) :
  op_progress_only key B o -> op_within u key B o.
Proof. by destruct o. Qed.

(** X1.  [check_unlock_status], [reset_unlock_status] and
    [trigger_automatic_unlock] never write the users collection and never
    touch the progress record of another learner or of another phase,
    whichever database calls fail. *)
Theorem unlock_manager_footprint (user_id : string) (phase_id day now : Z) (w : world) :
  let untouched (w' : world) :=
    users w' = users w
    /\ forall k, k <> (user_id, phase_id) ->
         learning_progress w' !! k = learning_progress w !! k in
  untouched (run (check_unlock_status user_id phase_id now) w).2
  /\ untouched (run (reset_unlock_status user_id phase_id now) w).2
  /\ untouched (run (trigger_automatic_unlock user_id phase_id day now) w).2.
Proof.
  assert (Hrun : forall A (p : proc A),
    every_call (op_progress_only (user_id, phase_id)) p ->
    users (run p w).2 = users w
    /\ forall k, k <> (user_id, phase_id) ->
         learning_progress (run p w).2 !! k = learning_progress w !! k).
  { intros A p Hp. destruct (run p w) as [r w'] eqn:Hr.
    apply (run_every_call (op_progress_only (user_id, phase_id))
             (fun w1 w2 => users w2 = users w1
                /\ forall k, k <> (user_id, phase_id) ->
                     learning_progress w2 !! k = learning_progress w1 !! k)
             p) with (r := r); [| | | done | done].
    - by intros w0.
    - intros w1 w2 w3 [Hu1 Hp1] [Hu2 Hp2]. split; [congruence |].
      intros k Hk. by rewrite Hp2, Hp1.
    - intros B o w0 r0 w0' Ho Hex. by eapply exec_progress_only. }
  cbn zeta. split; [|split].
  - apply Hrun, check_calls.
  - apply Hrun, reset_calls.
  - apply Hrun, trigger_calls.
Qed.

Lemma run_every_result {A} (Q : exn + A -> Prop) (p : proc A) w :
  every_result Q p -> Q (run p w).1.
Proof.
  revert w. induction p as [a | e | C o k IH]; intros w Hp; cbn; [done | done |].
  destruct (exec o w) as [r w1]. by apply IH.
Qed.

(** ** Error behaviour and footprint of the routes *)

Section RouteErrors.

Context {answers day_content : Type}.
Variable has_answers : option answers -> bool.
Variable theory coding : option answers -> option day_content -> evaluation.

Local Abbreviation submit :=
  (submit_assessment answers day_content has_answers theory coding).
Local Abbreviation score_of := (final_score answers day_content theory coding).

Lemma submit_calls u (data : submission answers day_content) now pid :
  sub_phase_id data = Some pid ->
  every_call (op_within u (u, pid)) (submit u data now).
Proof.
  intros Hpid. unfold submit_assessment. rewrite Hpid.
  apply every_call_try; [|done]. destruct (negb _); [done |].
  apply every_call_bind; [by apply every_call_call |].
  intros [usr|]; [|done].
  apply every_call_bind; [|by intros [e | [attempts ur]]].
  apply every_call_try; [|done].
  apply every_call_bind; [apply every_call_lift |]. intros target.
  apply every_call_bind; [apply every_call_lift |]. intros rm'.
  apply every_call_bind; [by apply every_call_call |]. intros _.
  apply every_call_bind; [|done].
  destruct (bool_decide _); [|done].
  apply every_call_bind; [by apply every_call_call |]. intros _.
  apply every_call_bind; [|done].
  eapply every_call_weaken; [|apply trigger_calls].
  intros B o. apply progress_only_within.
Qed.

Lemma store_calls u (data : store_request) now pid :
  st_phase_id data = Some pid ->
  every_call (op_within u (u, pid)) (store_assessment u data now).
Proof.
  intros Hpid. unfold store_assessment. rewrite Hpid.
  apply every_call_try; [|done].
  apply every_call_bind; [by apply every_call_call |].
  intros [usr|]; [|done]. cbn [key_of lift bind].
  apply every_call_bind; [apply every_call_lift |]. intros target.
  destruct (st_assessment_result data); [|done].
  apply every_call_bind; [apply every_call_lift |]. intros rm'.
  apply every_call_bind; [by apply every_call_call |]. intros _.
  apply every_call_bind; [by apply every_call_call | done].
Qed.

(** X2.  [submit_assessment] and [store_assessment] change at most the
    document of the submitting user and the progress record of that user and
    phase, whichever database calls fail. *)
Theorem routes_footprint (user_id : string) (now : Z) (w : world) (pid : Z) :
  (forall data : submission answers day_content,
     sub_phase_id data = Some pid ->
     same_elsewhere user_id (user_id, pid) w (run (submit user_id data now) w).2)
  /\ (forall data : store_request,
        st_phase_id data = Some pid ->
        same_elsewhere user_id (user_id, pid) w
          (run (store_assessment user_id data now) w).2).
Proof.
  assert (Hrun : forall A (p : proc A),
    every_call (op_within user_id (user_id, pid)) p ->
    same_elsewhere user_id (user_id, pid) w (run p w).2).
  { intros A p Hp. destruct (run p w) as [r w'] eqn:Hr.
    apply (run_every_call (op_within user_id (user_id, pid))
             (same_elsewhere user_id (user_id, pid)) p) with (r := r);
      [apply same_elsewhere_refl | apply same_elsewhere_trans | | done | done].
    intros B o w0 r0 w0' Ho Hex. by eapply exec_within. }
  split; intros data Hpid; apply Hrun; [by apply submit_calls | by apply store_calls].
Qed.

Lemma submit_results u (data : submission answers day_content) now :
  every_result
    (fun r => match r with
              | inl _ => False
              | inr Http400 => ~ well_formed_submission has_answers data
              | inr _ => well_formed_submission has_answers data
              end)
    (submit u data now).
Proof.
  unfold submit_assessment, trigger_automatic_unlock, well_formed_submission.
  destruct (sub_phase_id data) as [pid|]; [|by intros ([? [=]] & _)].
  destruct (has_answers _); [|by intros (_ & [=] & _)].
  destruct (non_empty _); [|by intros (_ & _ & [=])].
  assert (Hwf : is_Some (Some pid) /\ true = true /\ true = true) by (by repeat split).
  cbn [negb andb try_except bind call every_result].
  intros [e | [usr|]]; [done | | done].
  cbn [try_except bind call every_result].
  destruct (get_task _ _ _ _) as [e | target]; [done |].
  cbn [try_except bind call every_result lift].
  destruct (set_assessment _ _ _ _ _) as [e | rm']; [done |].
  cbn [try_except bind call every_result lift]. intros [e | []]; [done |].
  cbn [try_except bind call every_result lift].
  destruct (bool_decide _); [|done].
  cbn [try_except bind call every_result lift]. intros [e | []]; [done |].
  cbn [try_except bind call every_result lift]. intros [e | [doc|]]; [done | | done].
  cbn [try_except bind call every_result lift].
  destruct (py_in _ _); [|done]. destruct (negb _); [|done].
  cbn [try_except bind call every_result lift]. by intros [e | []].
Qed.

(** X3.  [submit_assessment] never raises, whichever database calls fail; it
    answers 400 exactly when [phase_id], the answers or the assessment type
    is missing, and then it makes no database call: the world, fault plan
    included, is as before. *)
Theorem submit_assessment_validation (user_id : string)
    (data : submission answers day_content) (now : Z) (w : world) :
  exists resp w',
    run (submit user_id data now) w = (inr resp, w')
    /\ (resp = Http400 <-> ~ well_formed_submission has_answers data)
    /\ (resp = Http400 -> w' = w).
Proof.
  pose proof (run_every_result _ _ w (submit_results user_id data now)) as Hres.
  destruct (run (submit user_id data now) w) as [[e | resp] w'] eqn:Hrun; [done |].
  cbn [fst] in Hres. exists resp, w'. split; [done |]. split.
  - split.
    + by intros ->.
    + intros Hnot. by destruct resp.
  - intros ->. cbn in Hres.
    revert Hrun. unfold submit_assessment, well_formed_submission in *.
    destruct (sub_phase_id data) as [pid|]; [|by intros [= <-]].
    destruct (has_answers _); [|by intros [= <-]].
    destruct (non_empty _); [|by intros [= <-]].
    destruct Hres. by repeat split.
Qed.

(** X4.  A well-formed submission whose navigation in the curriculum
    document raises (an index out of range counted with Python's negative
    indices, a missing key or index, phases that are not an array) is
    answered with the storage error of the navigation, and nothing is
    written: when no database call fails the world is as before. *)
Theorem submit_assessment_storage_error (user_id : string)
    (data : submission answers day_content) (now : Z) (w : world)
    (pid : Z) (usr : user) (e : exn) :
  faults w = [] ->
  sub_phase_id data = Some pid ->
  has_answers (sub_assessment_answers data) = true ->
  non_empty (sub_assessment_type data) = true ->
  users w !! user_id = Some usr ->
  get_task (default empty_roadmap (road_map usr)) pid
    (sub_week_index data) (sub_task_index data) = inl e ->
  run (submit user_id data now) w = (inr (Http500Storage e), w).
Proof.
  intros Hf Hpid Hans Htype Husr Hget. unfold submit_assessment.
  rewrite Hpid, Hans, Htype. cbn [negb andb].
  rewrite run_try_except, run_bind, run_call, exec_no_fault by done.
  cbn [perform fst snd]. rewrite Husr.
  rewrite run_bind, run_try_except, Hget. done.
Qed.

End RouteErrors.

Lemma routes_footprint_witness :
  same_elsewhere "u" ("u"%string, 0) sample_world
    (run (sample_submit 85 1 0 0) sample_world).2.
Proof.
  destruct (routes_footprint (fun a => bool_decide (is_Some a))
              (fixed_score 85) (fixed_score 85) "u" 0 sample_world 0) as [Hsubmit _].
  apply (Hsubmit (mk_submission (Some 0) 1 (Some 0) (Some 0) (Some "theory"%string)
                    (Some tt) None)).
  reflexivity.
Defined.

Lemma submit_assessment_validation_witness :
  (run (submit_assessment unit unit (fun a => bool_decide (is_Some a))
          (fixed_score 85) (fixed_score 85) "u"
          (mk_submission None 1 (Some 0) (Some 0) (Some "theory"%string) (Some tt) None)
          0) sample_world).1 = inr Http400.
Proof.
  destruct (submit_assessment_validation (fun a => bool_decide (is_Some a))
              (fixed_score 85) (fixed_score 85) "u"
              (mk_submission None 1 (Some 0) (Some 0) (Some "theory"%string)
                 (Some tt) None) 0 sample_world)
    as (resp & w' & Hrun & [_ H400] & _).
  rewrite Hrun. cbn [fst]. f_equal. apply H400.
  by intros ([? [=]] & _).
Defined.

Lemma submit_assessment_storage_error_witness :
  (run (submit_assessment unit unit (fun a => bool_decide (is_Some a))
          (fixed_score 85) (fixed_score 85) "u"
          (mk_submission (Some 0) 1 (Some 0) (Some 7) (Some "theory"%string) (Some tt) None)
          0) sample_world).1 = inr (Http500Storage IndexError).
Proof.
  rewrite (submit_assessment_storage_error (fun a => bool_decide (is_Some a))
             (fixed_score 85) (fixed_score 85) "u"
             (mk_submission (Some 0) 1 (Some 0) (Some 7) (Some "theory"%string)
                (Some tt) None) 0 sample_world 0 (mk_user (Some sample_roadmap))
             IndexError); try reflexivity.
Defined.

(** ** Runs without a failing database call *)

Lemma length_sorted l : length (sorted l) = length l.
Proof. unfold sorted. by rewrite merge_sort_Permutation. Qed.

Lemma length_evaluate_unlock acc l :
  (length (foldl evaluate_unlock_step acc l) <= length acc + length l)%nat.
Proof.
  revert acc. induction l as [|d l IH]; intros acc; cbn [foldl length]; [lia |].
  specialize (IH (evaluate_unlock_step acc d)).
  assert (length (evaluate_unlock_step acc d) <= S (length acc))%nat; [|lia].
  unfold evaluate_unlock_step. destruct (_ && _); [|lia].
  rewrite length_app. cbn. lia.
Qed.

Lemma length_reset_unlock acc l :
  (length (foldl reset_unlock_step acc l) <= length acc + length l)%nat.
Proof.
  revert acc. induction l as [|d l IH]; intros acc; cbn [foldl length]; [lia |].
  specialize (IH (reset_unlock_step acc d)).
  assert (length (reset_unlock_step acc d) <= S (length acc))%nat; [|lia].
  unfold reset_unlock_step. destruct (negb _); [|lia].
  rewrite length_app. cbn. lia.
Qed.

Lemma NoDup_reset_unlock acc l : NoDup acc -> NoDup (foldl reset_unlock_step acc l).
Proof.
  revert acc. induction l as [|d l IH]; intros acc Hacc; cbn [foldl]; [done |].
  apply IH. unfold reset_unlock_step.
  destruct (py_in (d + 1) acc) eqn:Hin; cbn [negb]; [done |].
  apply py_in_false in Hin. apply NoDup_app. split; [done |]. split.
  - intros x Hx ->%list_elem_of_singleton. done.
  - apply NoDup_singleton.
Qed.

Lemma update_progress_run_no_fault u p l t now w :
  faults w = [] ->
  run (_update_progress u p l t now) w =
  (inr tt, mk_world (users w)
             (upsert_progress (u, p) (mk_update (Some l) None (Some t) (Some now) None)
                (learning_progress w)) []).
Proof.
  intros Hf. unfold _update_progress.
  rewrite run_try_except, run_call, exec_no_fault by done.
  by rewrite perform_upsert, Hf.
Qed.

Lemma trigger_run_no_fault u p d now w :
  faults w = [] ->
  run (trigger_automatic_unlock u p d now) w =
  match learning_progress w !! (u, p) with
  | None => (inr NoProgressDocument, w)
  | Some doc =>
      if py_in d (default [] (completed_assessments doc)) then
        if negb (py_in (d + 1) (default [] (unlocked_days doc))) then
          (inr (UnlockSuccess (d + 1) (default [] (unlocked_days doc) ++ [d + 1])),
           mk_world (users w)
             (<[(u, p) := apply_update
                            (mk_update (Some (default [] (unlocked_days doc) ++ [d + 1]))
                               None (Some "auto_sequential"%string) (Some now) None)
                            doc]> (learning_progress w)) [])
        else (inr (AlreadyUnlocked (d + 1)), w)
      else (inr DayNotCompleted, w)
  end.
Proof.
  intros Hf. unfold trigger_automatic_unlock.
  rewrite run_try_except, run_bind, run_call, exec_no_fault by done.
  cbn [perform fst snd].
  destruct (learning_progress w !! (u, p)) as [doc|] eqn:Hdoc; [|done].
  destruct (py_in d _); [|done]. destruct (negb _); [|done].
  rewrite run_bind, run_call, exec_no_fault by done.
  cbn [perform fst snd]. by rewrite Hdoc, Hf.
Qed.

Lemma canonical_nonempty c ul : canonical c ul -> ul <> [].
Proof.
  intros Hcan ->. pose proof (canonical_day_one _ _ Hcan) as H1.
  by apply elem_of_nil in H1.
Qed.

(** Without a failing call, [_evaluate_unlock_conditions] leaves a settled
    record that holds the lists it returns. *)
Lemma evaluate_settles u p doc now w :
  faults w = [] -> learning_progress w !! (u, p) = Some doc ->
  exists r w' doc',
    run (_evaluate_unlock_conditions u p doc now) w = (inr r, w')
    /\ faults w' = [] /\ users w' = users w
    /\ learning_progress w' !! (u, p) = Some doc'
    /\ unlocked_days doc' = Some (us_unlocked_days r)
    /\ us_completed_assessments r = Some (default [] (completed_assessments doc'))
    /\ canonical (default [] (completed_assessments doc')) (us_unlocked_days r)
    /\ ((length (us_unlocked_days r)
         <= length (default [] (completed_assessments doc')) + 1)%nat
        \/ reset_fails w u p)
    /\ us_current_day r =
       current_day_of (us_unlocked_days r) (default [] (completed_assessments doc'))
    /\ (default [] (completed_assessments doc') = default [] (completed_assessments doc)
        \/ (length (default [] (completed_assessments doc)) + 1
            < length (default [] (unlocked_days doc)))%nat
           /\ exists usr, users w !! u = Some usr
                /\ completed_in usr p = inr (default [] (completed_assessments doc'))).
Proof.
  intros Hf Hdoc. unfold _evaluate_unlock_conditions.
  set (unlocked0 := default [] (unlocked_days doc)).
  set (completed0 := default [] (completed_assessments doc)).
  (* the reconciliation *)
  assert (H1 : exists uc w1,
    run (if (length completed0 + 1 <? length unlocked0)%nat
         then reset_result <- reset_unlock_status u p now ;;
              match reset_result with
              | ResetSuccess before_completed corrected_unlocked =>
                  Ret (corrected_unlocked, before_completed)
              | ResetError _ => Ret (unlocked0, completed0)
              end
         else Ret (unlocked0, completed0)) w = (inr uc, w1)
    /\ faults w1 = [] /\ users w1 = users w
    /\ persisted w1 (u, p) uc.1 uc.2
    /\ ((length uc.1 <= length uc.2 + 1)%nat \/ reset_fails w u p)
    /\ (uc.2 = completed0
        \/ (length completed0 + 1 < length unlocked0)%nat
           /\ exists usr, users w !! u = Some usr /\ completed_in usr p = inr uc.2)).
  { destruct (length completed0 + 1 <? length unlocked0)%nat eqn:Hlen.
    - rewrite run_bind, reset_run_no_fault by done. unfold reset_fails.
      destruct (users w !! u) as [usr|] eqn:Husr;
        [destruct (completed_in usr p) as [e | c] eqn:Hc |].
      + eexists _, _. split; [reflexivity |]. cbn [fst snd].
        split; [done |]. split; [done |]. split; [|split].
        * split; [done |]. by exists doc.
        * right. by exists e.
        * by left.
      + eexists _, _. split; [reflexivity |]. cbn [fst snd users faults].
        split; [done |]. split; [done |]. split; [|split].
        * split; [done |]. cbn [learning_progress]. unfold upsert_progress.
          rewrite Hdoc. eexists. rewrite lookup_insert_eq. by split.
        * left. pose proof (length_reset_unlock [1] (sorted c)) as Hl.
          rewrite length_sorted in Hl. cbn [length] in Hl. lia.
        * right. split; [by apply Nat.ltb_lt |]. by exists usr.
      + eexists _, _. split; [reflexivity |]. cbn [fst snd].
        split; [done |]. split; [done |]. split; [|split].
        * split; [done |]. by exists doc.
        * by right.
        * by left.
    - eexists _, _. split; [reflexivity |]. cbn [fst snd].
      split; [done |]. split; [done |]. split; [|split].
      + split; [done |]. by exists doc.
      + left. apply Nat.ltb_ge in Hlen. lia.
      + by left. }
  destruct H1 as ([ul1 c] & w1 & Hrun1 & Hf1 & Hu1 & Hp1 & Hlen1 & Hc1).
  cbn [fst snd] in Hp1, Hlen1, Hc1.
  rewrite run_bind, Hrun1. cbv beta zeta. cbn [fst snd].
  (* day 1 *)
  assert (H2 : exists unlocked1 w2,
    run (if is_empty ul1 || negb (py_in 1 ul1)
         then _update_progress u p [1] "first_unlock" now ;;; Ret [1]
         else Ret ul1) w1 = (inr unlocked1, w2)
    /\ faults w2 = [] /\ users w2 = users w
    /\ persisted w2 (u, p) unlocked1 c
    /\ ((length unlocked1 <= length c + 1)%nat \/ reset_fails w u p)).
  { destruct (is_empty ul1 || negb (py_in 1 ul1)).
    - rewrite run_bind, update_progress_run_no_fault by done. cbn [run].
      eexists _, _. split; [reflexivity |]. cbn [faults users].
      split; [done |]. split; [done |]. split.
      + eapply persisted_update_progress; [exact Hp1 | done | done].
      + left. cbn. lia.
    - eexists _, _. split; [reflexivity |]. done. }
  destruct H2 as (unlocked1 & w2 & Hrun2 & Hf2 & Hu2 & Hp2 & Hlen2).
  rewrite run_bind, Hrun2.
  (* the sequential unlock set *)
  set (correct := foldl evaluate_unlock_step [1] (sorted c)).
  assert (H3 : exists unlocked2 w3,
    run (if negb (set_eqb unlocked1 correct)
         then _update_progress u p (sorted correct) "corrected" now ;;;
              Ret (sorted correct)
         else Ret unlocked1) w2 = (inr unlocked2, w3)
    /\ faults w3 = [] /\ users w3 = users w
    /\ persisted w3 (u, p) unlocked2 c
    /\ canonical c unlocked2
    /\ ((length unlocked2 <= length c + 1)%nat \/ reset_fails w u p)).
  { destruct (set_eqb unlocked1 correct) eqn:Heq; cbn [negb].
    - eexists _, _. split; [reflexivity |].
      split; [done |]. split; [done |]. split; [done |]. split; [|done].
      intros x. rewrite set_eqb_true in Heq. rewrite Heq.
      apply canonical_correct_unlocked.
    - rewrite run_bind, update_progress_run_no_fault by done. cbn [run].
      eexists _, _. split; [reflexivity |]. cbn [faults users].
      split; [done |]. split; [done |]. split; [|split].
      + eapply persisted_update_progress; [exact Hp2 | done | done].
      + intros x. rewrite elem_of_sorted. apply canonical_correct_unlocked.
      + left. rewrite length_sorted.
        pose proof (length_evaluate_unlock [1] (sorted c)) as Hl.
        rewrite length_sorted in Hl. cbn [length] in Hl. unfold correct. lia. }
  destruct H3 as (unlocked2 & w3 & Hrun3 & Hf3 & Hu3 & Hp3 & Hcan & Hlen3).
  rewrite run_bind, Hrun3. cbn [run].
  destruct (persisted_nonempty _ _ _ _ Hp3 (canonical_nonempty _ _ Hcan))
    as (doc' & Hdoc' & Hul' & Hc').
  eexists _, w3, doc'. split; [reflexivity |]. cbn [us_unlocked_days
    us_completed_assessments us_current_day].
  rewrite Hc'. repeat (split; [done |]). done.
Qed.

(** A status check of a settled record returns what the record holds and
    writes nothing. *)
Lemma check_settled u p now w doc ul :
  faults w = [] ->
  learning_progress w !! (u, p) = Some doc ->
  unlocked_days doc = Some ul ->
  canonical (default [] (completed_assessments doc)) ul ->
  ((length ul <= length (default [] (completed_assessments doc)) + 1)%nat
   \/ reset_fails w u p) ->
  run (check_unlock_status u p now) w =
  (inr (mk_status ul (Some (default [] (completed_assessments doc)))
          (current_day_of ul (default [] (completed_assessments doc)))
          (default "sequential"%string (unlock_trigger doc))), w).
Proof.
  intros Hf Hdoc Hul Hcan Hlen.
  unfold check_unlock_status, check_unlock_status_body.
  rewrite run_try_except, !run_bind, run_call, exec_no_fault by done.
  cbn [perform fst snd]. rewrite Hdoc. cbn [bind].
  unfold _evaluate_unlock_conditions. rewrite Hul. cbn [from_option id].
  set (c := default [] (completed_assessments doc)) in *.
  assert (H1 : run (if (length c + 1 <? length ul)%nat
                    then reset_result <- reset_unlock_status u p now ;;
                         match reset_result with
                         | ResetSuccess before_completed corrected_unlocked =>
                             Ret (corrected_unlocked, before_completed)
                         | ResetError _ => Ret (ul, c)
                         end
                    else Ret (ul, c)) w = (inr (ul, c), w)).
  { destruct (length c + 1 <? length ul)%nat eqn:Hlt; [|done].
    apply Nat.ltb_lt in Hlt. destruct Hlen as [Hlen | Hfails]; [lia |].
    rewrite run_bind, reset_run_no_fault by done. unfold reset_fails in Hfails.
    destruct (users w !! u) as [usr|]; [|done].
    by destruct Hfails as [e ->]. }
  rewrite run_bind, H1. cbv beta zeta. cbn [fst snd].
  assert (Hone : is_empty ul || negb (py_in 1 ul) = false).
  { pose proof (canonical_day_one _ _ Hcan) as H. apply py_in_true in H.
    rewrite H. by destruct ul. }
  rewrite Hone, run_bind. cbn [run].
  rewrite (proj2 (set_eqb_true ul (foldl evaluate_unlock_step [1] (sorted c)))).
  2:{ intros x. rewrite (Hcan x). symmetry. apply canonical_correct_unlocked. }
  cbn [negb]. rewrite run_bind. cbn [run]. done.
Qed.

(** Without a failing call, [check_unlock_status] leaves a settled record
    that holds the lists it returns; the completed days are those on record
    before, unless a reset replaced them by the days it read. *)
Lemma check_run_settles u p now w :
  faults w = [] ->
  exists r w' doc',
    run (check_unlock_status u p now) w = (inr r, w')
    /\ faults w' = [] /\ users w' = users w
    /\ learning_progress w' !! (u, p) = Some doc'
    /\ unlocked_days doc' = Some (us_unlocked_days r)
    /\ us_completed_assessments r = Some (default [] (completed_assessments doc'))
    /\ canonical (default [] (completed_assessments doc')) (us_unlocked_days r)
    /\ ((length (us_unlocked_days r)
         <= length (default [] (completed_assessments doc')) + 1)%nat
        \/ reset_fails w u p)
    /\ us_current_day r =
       current_day_of (us_unlocked_days r) (default [] (completed_assessments doc'))
    /\ (default [] (completed_assessments doc')
        = default [] (completed_assessments
                        (default empty_progress (learning_progress w !! (u, p))))
        \/ (length (default [] (completed_assessments
                                  (default empty_progress
                                     (learning_progress w !! (u, p))))) + 1
            < length (default [] (unlocked_days
                                    (default empty_progress
                                       (learning_progress w !! (u, p))))))%nat
           /\ exists usr, users w !! u = Some usr
                /\ completed_in usr p = inr (default [] (completed_assessments doc'))).
Proof.
  intros Hf. unfold check_unlock_status, check_unlock_status_body.
  rewrite run_try_except, !run_bind, run_call, exec_no_fault by done.
  cbn [perform fst snd].
  destruct (learning_progress w !! (u, p)) as [doc|] eqn:Hdoc.
  - cbn [bind].
    destruct (evaluate_settles u p doc now w Hf Hdoc)
      as (r & w' & doc' & -> & Hrest).
    by exists r, w', doc'.
  - rewrite !run_bind, run_call, exec_no_fault by done.
    cbn [perform fst snd run bind].
    match goal with |- context [run (_evaluate_unlock_conditions u p ?d now) ?w0] =>
      destruct (evaluate_settles u p d now w0) as (r & w' & doc' & -> & Hrest);
        [done | cbn; apply lookup_insert_eq |]
    end.
    exists r, w', doc'. split; [done |]. exact Hrest.
Qed.

(** X5.  Reconciliation reaches a fixed point: when no database call fails,
    a second [check_unlock_status] returns the unlocked days, the completed
    days and the current day of the first one and leaves the world exactly
    as the first one left it. *)
Theorem check_unlock_status_fixed_point (user_id : string) (phase_id now1 now2 : Z)
    (w : world) :
  faults w = [] ->
  exists r1 r2 w1,
    run (check_unlock_status user_id phase_id now1) w = (inr r1, w1)
    /\ run (check_unlock_status user_id phase_id now2) w1 = (inr r2, w1)
    /\ us_unlocked_days r2 = us_unlocked_days r1
    /\ us_completed_assessments r2 = us_completed_assessments r1
    /\ us_current_day r2 = us_current_day r1.
Proof.
  intros Hf.
  destruct (check_run_settles user_id phase_id now1 w Hf)
    as (r1 & w1 & doc1 & Hrun1 & Hf1 & Hu1 & Hdoc1 & Hul1 & Hc1 & Hcan1 & Hlen1
        & Hcur1 & _).
  eexists r1, _, w1. split; [done |]. split.
  - apply (check_settled _ _ _ _ doc1 (us_unlocked_days r1)); try done.
    destruct Hlen1 as [? | Hfails]; [by left | right].
    unfold reset_fails in *. by rewrite Hu1.
  - cbn. by rewrite Hc1, Hcur1.
Qed.

Lemma check_unlock_status_fixed_point_witness :
  exists r, (run (check_unlock_status "u" 0 5) day_two_first_world).1 = inr r
    /\ us_unlocked_days r = [1; 3].
Proof.
  destruct (check_unlock_status_fixed_point "u" 0 4 5 day_two_first_world)
    as (r1 & r2 & w1 & H1 & H2 & Hul & _); [reflexivity |].
  exists r1. split.
  - vm_compute in H1. injection H1 as <- _. vm_compute. reflexivity.
  - vm_compute in H1. by injection H1 as <- _.
Defined.

(** X6.  [reset_unlock_status] never gets at the tasks of the learner's
    document.  When no database call fails and the phases of the document
    are an array, it answers the error of the failed [get] and writes
    nothing.  When they are an object, or absent, its [get] with the integer
    phase identifier reads the empty phase: it answers success with no
    completed day and day 1 unlocked, and sets the record to that, whatever
    the document and the record held; the other records and the users are as
    before. *)
Theorem reset_unlock_status_outcomes (user_id : string) (phase_id now : Z)
    (w : world) (usr : user) :
  faults w = [] -> users w !! user_id = Some usr ->
  match phases (default empty_roadmap (road_map usr)) with
  | Some (PhasesArray _) =>
      run (reset_unlock_status user_id phase_id now) w
      = (inr (ResetError AttributeError), w)
  | _ =>
      exists w1 doc,
        run (reset_unlock_status user_id phase_id now) w
        = (inr (ResetSuccess [] [1]), w1)
        /\ users w1 = users w
        /\ learning_progress w1 !! (user_id, phase_id) = Some doc
        /\ completed_assessments doc = Some []
        /\ unlocked_days doc = Some [1]
        /\ forall k, k <> (user_id, phase_id) ->
             learning_progress w1 !! k = learning_progress w !! k
  end.
Proof.
  intros Hf Husr. rewrite reset_run_no_fault, Husr by done.
  assert (Hwrite : completed_in usr phase_id = inr [] ->
    exists w1 doc,
      (inr (ResetSuccess [] (foldl reset_unlock_step [1] (sorted []))),
       mk_world (users w)
         (upsert_progress (user_id, phase_id) (reset_update [] now)
            (learning_progress w)) [])
      = (inr (ResetSuccess [] [1]) : exn + reset_result, w1)
      /\ users w1 = users w
      /\ learning_progress w1 !! (user_id, phase_id) = Some doc
      /\ completed_assessments doc = Some []
      /\ unlocked_days doc = Some [1]
      /\ forall k, k <> (user_id, phase_id) ->
           learning_progress w1 !! k = learning_progress w !! k).
  { intros _. eexists _, _. split; [reflexivity |]. cbn [users learning_progress].
    unfold upsert_progress. split; [done |]. split; [apply lookup_insert_eq |].
    split; [done |]. split; [done |]. intros k Hk. by rewrite lookup_insert_ne. }
  unfold completed_in, phase_schedule, get_phase in *.
  destruct (phases (default empty_roadmap (road_map usr))) as [[l | m]|];
    cbn [ebind] in *; [done | |]; by apply Hwrite.
Qed.

Lemma reset_unlock_status_outcomes_witness :
  exists w1 doc,
    run (reset_unlock_status "u" 0 2) keyed_world = (inr (ResetSuccess [] [1]), w1)
    /\ learning_progress w1 !! ("u"%string, 0) = Some doc
    /\ completed_assessments doc = Some [].
Proof.
  destruct (reset_unlock_status_outcomes "u" 0 2 keyed_world (mk_user (Some keyed_roadmap))
              eq_refl eq_refl) as (w1 & doc & Hrun & _ & Hdoc & Hc & _).
  by exists w1, doc.
Defined.

(** ** Automatic unlock *)

(** X7.  When no database call fails, [trigger_automatic_unlock] unlocks only
    the successor of a day the record lists as completed: it appends it to
    [unlocked_days], with no day cap, and leaves [completed_assessments] as
    it is.  In every other case it leaves the world as it is.  A repeated
    call answers that the day is already unlocked and changes nothing. *)
Theorem trigger_automatic_unlock_behaviour (user_id : string)
    (phase_id day now1 now2 : Z) (w : world) :
  faults w = [] ->
  exists res w1,
    run (trigger_automatic_unlock user_id phase_id day now1) w = (inr res, w1)
    /\ match res with
       | UnlockSuccess unlocked_day new_unlocked_days =>
           unlocked_day = day + 1
           /\ exists doc doc1,
                learning_progress w !! (user_id, phase_id) = Some doc
                /\ day ∈ default [] (completed_assessments doc)
                /\ ((day + 1) ∉ default [] (unlocked_days doc))
                /\ new_unlocked_days = default [] (unlocked_days doc) ++ [day + 1]
                /\ learning_progress w1 !! (user_id, phase_id) = Some doc1
                /\ unlocked_days doc1 = Some new_unlocked_days
                /\ completed_assessments doc1 = completed_assessments doc
                /\ run (trigger_automatic_unlock user_id phase_id day now2) w1
                   = (inr (AlreadyUnlocked (day + 1)), w1)
       | AlreadyUnlocked next_day =>
           next_day = day + 1 /\ w1 = w
           /\ exists doc, learning_progress w !! (user_id, phase_id) = Some doc
                /\ day ∈ default [] (completed_assessments doc)
                /\ day + 1 ∈ default [] (unlocked_days doc)
       | NoProgressDocument =>
           w1 = w /\ learning_progress w !! (user_id, phase_id) = None
       | DayNotCompleted =>
           w1 = w
           /\ exists doc, learning_progress w !! (user_id, phase_id) = Some doc
                /\ day ∉ default [] (completed_assessments doc)
       | UnlockError _ => False
       end.
Proof.
  intros Hf. rewrite trigger_run_no_fault by done.
  destruct (learning_progress w !! (user_id, phase_id)) as [doc|] eqn:Hdoc.
  2:{ eexists _, _. split; [reflexivity |]. done. }
  destruct (py_in day (default [] (completed_assessments doc))) eqn:Hday.
  2:{ eexists _, _. split; [reflexivity |]. split; [done |].
      exists doc. split; [done |]. by apply py_in_false. }
  apply py_in_true in Hday.
  destruct (py_in (day + 1) (default [] (unlocked_days doc))) eqn:Hnext; cbn [negb].
  { eexists _, _. split; [reflexivity |]. split; [done |]. split; [done |].
    exists doc. split; [done |]. split; [done |]. by apply py_in_true. }
  apply py_in_false in Hnext.
  eexists _, _. split; [reflexivity |]. split; [done |].
  eexists doc, _. split; [done |]. split; [done |]. split; [done |].
  split; [done |]. cbn [learning_progress]. rewrite lookup_insert_eq.
  split; [reflexivity |]. split; [done |]. split; [done |].
  rewrite trigger_run_no_fault by done. cbn [learning_progress].
  rewrite lookup_insert_eq.
  cbn [apply_update completed_assessments unlocked_days set_unlocked_days
       set_completed_assessments add_completed_assessments set_field add_to_set
       from_option id].
  rewrite (proj2 (py_in_true day _)).
  2:{ by destruct (completed_assessments doc). }
  rewrite (proj2 (py_in_true (day + 1) _)); [done |].
  apply elem_of_app. right. by left.
Qed.

Lemma trigger_automatic_unlock_behaviour_witness :
  (run (trigger_automatic_unlock "u" 0 2 9) day_two_first_world).1
  = inr (AlreadyUnlocked 3).
Proof.
  destruct (trigger_automatic_unlock_behaviour "u" 0 2 9 10 day_two_first_world)
    as (res & w1 & Hrun & Hres); [reflexivity |].
  rewrite Hrun. vm_compute in Hrun. by injection Hrun as <- _.
Defined.

(** ** The current day *)

Lemma py_max_spec l m :
  py_max l = Some m -> m ∈ l /\ forall x, x ∈ l -> x <= m.
Proof.
  destruct l as [|y l]; [done |]. cbn. intros [= <-].
  revert y. induction l as [|z l IH]; intros y; cbn [foldl].
  - split; [by left |]. intros x ->%list_elem_of_singleton. lia.
  - destruct (IH (Z.max y z)) as [Hin Hle]. split.
    + apply elem_of_cons in Hin as [Heq | Hin].
      * destruct (Z.max_spec y z) as [[_ Hm] | [_ Hm]]; rewrite Heq, Hm.
        -- right. by left.
        -- by left.
      * right. by right.
    + assert (Hm : Z.max y z <= foldl Z.max (Z.max y z) l) by (apply Hle; by left).
      intros x Hx. apply elem_of_cons in Hx as [Hx | Hx]; [lia |].
      apply elem_of_cons in Hx as [Hx | Hx]; [lia |].
      apply Hle. by right.
Qed.

Lemma find_sorted_spec (f : Z -> bool) l :
  match List.find f (sorted l) with
  | Some d => d ∈ l /\ f d = true /\ forall x, x ∈ l -> f x = true -> d <= x
  | None => forall x, x ∈ l -> f x = false
  end.
Proof.
  assert (Hs : StronglySorted Z.le (sorted l)).
  { unfold sorted. apply StronglySorted_merge_sort; apply _. }
  assert (Hgen : forall s, StronglySorted Z.le s ->
    match List.find f s with
    | Some d => d ∈ s /\ f d = true /\ forall x, x ∈ s -> f x = true -> d <= x
    | None => forall x, x ∈ s -> f x = false
    end).
  { intros s. induction 1 as [|y s Hss IH Hall]; cbn [List.find].
    - by intros x ?%elem_of_nil.
    - destruct (f y) eqn:Hfy.
      + split; [by left |]. split; [done |].
        intros x [-> | Hx]%elem_of_cons _; [lia |].
        rewrite Forall_forall in Hall. by apply Hall.
      + destruct (List.find f s) as [d|].
        * destruct IH as (Hd & Hfd & Hmin). split; [by right |]. split; [done |].
          intros x [-> | Hx]%elem_of_cons Hfx; [congruence | by apply Hmin].
        * intros x [-> | Hx]%elem_of_cons; [done | by apply IH]. }
  specialize (Hgen _ Hs). destruct (List.find f (sorted l)) as [d|].
  - destruct Hgen as (Hd & Hfd & Hmin). split; [by apply elem_of_sorted |].
    split; [done |]. intros x Hx. apply Hmin. by apply elem_of_sorted.
  - intros x Hx. apply Hgen. by apply elem_of_sorted.
Qed.

Lemma current_day_of_spec ul c :
  ul <> [] ->
  current_day_of ul c ∈ ul
  /\ ((forall x, x ∈ ul -> x ∈ c) -> forall x, x ∈ ul -> x <= current_day_of ul c)
  /\ (forall y, y ∈ ul -> y ∉ c ->
      (forall x, x ∈ ul -> x ∉ c -> x <> 0) ->
      (current_day_of ul c ∉ c) /\ current_day_of ul c <= y).
Proof.
  intros Hne. unfold current_day_of.
  destruct (py_max ul) as [m|] eqn:Hmax; [|by destruct ul].
  destruct (py_max_spec _ _ Hmax) as [Hm Hle]. cbn [from_option id].
  pose proof (find_sorted_spec (fun day => negb (py_in day c)) ul) as Hfind.
  destruct (List.find _ (sorted ul)) as [d|].
  - destruct Hfind as (Hd & Hfd & Hmin).
    apply negb_true_iff, py_in_false in Hfd.
    destruct (d =? 0) eqn:Hz.
    + apply Z.eqb_eq in Hz. split; [done |]. split.
      * intros _. exact Hle.
      * intros y Hy Hyc Hnz. by destruct (Hnz d Hd Hfd).
    + split; [done |]. split.
      * intros Hall. by destruct (Hfd (Hall d Hd)).
      * intros y Hy Hyc _. split; [done |]. apply Hmin; [done |].
        by apply negb_true_iff, py_in_false.
  - split; [done |]. split.
    + intros _. exact Hle.
    + intros y Hy Hyc _. specialize (Hfind y Hy).
      apply negb_false_iff, py_in_true in Hfind. done.
Qed.

(** X8.  When no database call fails, the current day [check_unlock_status]
    returns is one of the unlocked days; it is the greatest of them when
    they are all completed, and the smallest one not completed otherwise,
    unless that one is day 0. *)
Theorem check_unlock_status_current_day (user_id : string) (phase_id now : Z)
    (w : world) :
  faults w = [] ->
  exists r w' completed,
    run (check_unlock_status user_id phase_id now) w = (inr r, w')
    /\ us_completed_assessments r = Some completed
    /\ us_current_day r ∈ us_unlocked_days r
    /\ ((forall x, x ∈ us_unlocked_days r -> x ∈ completed) ->
        forall x, x ∈ us_unlocked_days r -> x <= us_current_day r)
    /\ (forall y, y ∈ us_unlocked_days r -> y ∉ completed ->
        (forall x, x ∈ us_unlocked_days r -> x ∉ completed -> x <> 0) ->
        (us_current_day r ∉ completed) /\ us_current_day r <= y).
Proof.
  intros Hf.
  destruct (check_run_settles user_id phase_id now w Hf)
    as (r & w' & doc' & Hrun & _ & _ & _ & _ & Hc & Hcan & _ & Hcur & _).
  exists r, w', (default [] (completed_assessments doc')).
  split; [done |]. split; [done |]. rewrite Hcur.
  apply current_day_of_spec. by eapply canonical_nonempty.
Qed.

Lemma check_unlock_status_current_day_witness :
  exists r, (run (check_unlock_status "u" 0 5) day_one_passed_world).1 = inr r
    /\ us_current_day r = 2.
Proof.
  destruct (check_unlock_status_current_day "u" 0 5 day_one_passed_world)
    as (r & w' & c & Hrun & _); [reflexivity |].
  exists r. split; [by rewrite Hrun |].
  vm_compute in Hrun. by injection Hrun as <- _.
Defined.

(** ** A submission and the status check that follows *)

(** A document that was written into has an array of phases, and its reset
    fails. *)
Lemma set_assessment_array rm pid wi ti a rm' :
  set_assessment rm pid wi ti a = inr rm' ->
  exists l, phases rm' = Some (PhasesArray l).
Proof.
  unfold set_assessment.
  destruct (phase_item rm pid) as [|ph] eqn:Hph; [done |]. cbn [ebind].
  destruct (phase_item_array _ _ _ Hph) as (phs & Hphs & Hidx). rewrite Hphs.
  destruct (phase_learning_plan ph) as [lp|]; [|done]. cbn [key_of ebind].
  destruct (weekly_schedule lp) as [weeks|]; [|done]. cbn [key_of ebind].
  destruct wi as [wi|]; [|done]. cbn [index_of ebind].
  destruct (item_of weeks wi) as [|wk]; [done |]. cbn [ebind].
  destruct (daily_tasks wk) as [tasks|]; [|done]. cbn [key_of ebind].
  destruct ti as [ti|]; [|done]. cbn [index_of ebind].
  destruct (item_of tasks ti) as [|t']; [done |]. cbn [ebind].
  intros [= <-]. by eexists.
Qed.

Lemma completed_in_array rm l p :
  phases rm = Some (PhasesArray l) ->
  completed_in (mk_user (Some rm)) p = inl AttributeError.
Proof.
  intros Hl. unfold completed_in, phase_schedule, get_phase.
  cbn [road_map from_option id]. by rewrite Hl.
Qed.

Lemma add_to_set_elem d old : d ∈ default [] (add_to_set (Some d) old).
Proof.
  cbn. destruct old as [l|]; cbn; [|by left].
  destruct (py_in d l) eqn:Hin; cbn; [by apply py_in_true |].
  apply elem_of_app. right. by left.
Qed.

Section SubmitThenCheck.

Context {answers day_content : Type}.
Variable has_answers : option answers -> bool.
Variable theory coding : option answers -> option day_content -> evaluation.

Local Abbreviation submit :=
  (submit_assessment answers day_content has_answers theory coding).
Local Abbreviation score_of := (final_score answers day_content theory coding).

(** The run of a passing submission when no database call fails. *)
Lemma submit_passing_run u (data : submission answers day_content) now w pid usr target :
  faults w = [] ->
  passing_submission has_answers theory coding pid (sub_day data) data ->
  users w !! u = Some usr ->
  get_task (default empty_roadmap (road_map usr)) pid
    (sub_week_index data) (sub_task_index data) = inr target ->
  exists body w1 rm' doc1,
    run (submit u data now) w = (inr (Http200 body), w1)
    /\ faults w1 = []
    /\ set_assessment (default empty_roadmap (road_map usr)) pid
         (sub_week_index data) (sub_task_index data)
         (submit_record (score_of data) target) = inr rm'
    /\ users w1 = <[u := mk_user (Some rm')]> (users w)
    /\ learning_progress w1 !! (u, pid) = Some doc1
    /\ sub_day data ∈ default [] (completed_assessments doc1)
    /\ sub_day data + 1 ∈ default [] (unlocked_days doc1)
    /\ resp_passed body = true
    /\ resp_attempts body = next_attempt target
    /\ ((resp_next_day_unlocked body = Some (sub_day data + 1)
         /\ resp_unlock_result body
            = Some (UnlockSuccess (sub_day data + 1) (default [] (unlocked_days doc1))))
        \/ (resp_next_day_unlocked body = None
            /\ resp_unlock_result body = Some (AlreadyUnlocked (sub_day data + 1)))).
Proof.
  intros Hf (Hpid & _ & Hans & Htype & Hpass) Husr Hget.
  destruct (set_assessment_defined _ _ _ _ (submit_record (score_of data) target) _ Hget)
    as [rm' Hset].
  unfold submit_assessment.
  rewrite Hpid, Hans, Htype, (bool_decide_eq_true_2 _ Hpass). cbn [negb andb].
  rewrite run_try_except, run_bind, run_call, exec_no_fault by done.
  cbn [perform fst snd]. rewrite Husr.
  rewrite run_bind, run_try_except, Hget. cbn [lift bind].
  assert (Hset' : set_assessment (default empty_roadmap (road_map usr)) pid
            (sub_week_index data) (sub_task_index data)
            (mk_assessment (Some true) (Some (score_of data)) (Some "passed"%string)
               (Some (next_attempt target))) = inr rm').
  { rewrite <- Hset. unfold submit_record. by rewrite (bool_decide_eq_true_2 _ Hpass). }
  unfold next_attempt in Hset'. rewrite Hset'. cbn [lift bind].
  rewrite !run_bind, run_call, exec_no_fault by done.
  cbn [perform fst snd]. rewrite Husr.
  set (w2 := mk_world _ _ _).
  rewrite !run_bind, run_call, exec_no_fault by done.
  rewrite perform_upsert. cbn [fst snd].
  set (w3 := mk_world _ _ _).
  rewrite run_bind, trigger_run_no_fault by done.
  assert (Hdoc3 : learning_progress w3 !! (u, pid)
                  = Some (apply_update
                            (mk_update None None None (Some now) (Some (sub_day data)))
                            (default empty_progress (learning_progress w !! (u, pid))))).
  { cbn. unfold upsert_progress. by rewrite lookup_insert_eq. }
  rewrite Hdoc3.
  set (doc3 := apply_update _ _) in *.
  assert (Hday : sub_day data ∈ default [] (completed_assessments doc3)).
  { apply add_to_set_elem. }
  rewrite (proj2 (py_in_true _ _) Hday).
  destruct (py_in (sub_day data + 1) (default [] (unlocked_days doc3))) eqn:Hnext;
    cbn [negb run].
  - apply py_in_true in Hnext.
    eexists _, w3, rm', doc3. split; [reflexivity |]. split; [done |].
    split; [done |]. split; [done |]. split; [done |]. split; [done |].
    split; [done |]. split; [done |]. split; [done |]. right. done.
  - eexists _, _, rm', _. split; [reflexivity |]. split; [done |].
    split; [done |]. split; [done |]. cbn [learning_progress].
    split; [apply lookup_insert_eq |].
    cbn [apply_update completed_assessments unlocked_days set_unlocked_days
         set_completed_assessments add_completed_assessments set_field add_to_set
         from_option id].
    split; [by destruct (completed_assessments doc3) |].
    split; [apply elem_of_app; right; by left |].
    split; [done |]. split; [done |]. left. done.
Qed.

(** X9.  When no database call fails, a passing submission for day [d], sent
    for the task of that day, is answered 200 with [passed = true], reports
    either the unlock of day [d + 1] or that it was unlocked already, and the
    status check that follows lists [d] as completed and, if [d + 1 <= 30],
    day [d + 1] as unlocked. *)
Theorem passing_submission_unlocks_next_day (user_id : string)
    (data : submission answers day_content) (now1 now2 : Z) (w : world)
    (pid : Z) (usr : user) (target : task) :
  faults w = [] ->
  passing_submission has_answers theory coding pid (sub_day data) data ->
  users w !! user_id = Some usr ->
  get_task (default empty_roadmap (road_map usr)) pid
    (sub_week_index data) (sub_task_index data) = inr target ->
  task_day target = Some (sub_day data) ->
  exists body w1 r w2 completed,
    run (submit user_id data now1) w = (inr (Http200 body), w1)
    /\ resp_passed body = true
    /\ (resp_next_day_unlocked body = Some (sub_day data + 1)
        \/ resp_unlock_result body = Some (AlreadyUnlocked (sub_day data + 1)))
    /\ run (check_unlock_status user_id pid now2) w1 = (inr r, w2)
    /\ us_completed_assessments r = Some completed
    /\ sub_day data ∈ completed
    /\ (sub_day data + 1 <= 30 -> sub_day data + 1 ∈ us_unlocked_days r).
Proof.
  intros Hf Hpassing Husr Hget Hday.
  destruct (submit_passing_run user_id data now1 w pid usr target Hf Hpassing Husr Hget)
    as (body & w1 & rm' & doc1 & Hrun & Hf1 & Hset & Hu1 & Hdoc1 & Hc1 & _ & Hp & _ & Hres).
  destruct (check_run_settles user_id pid now2 w1 Hf1)
    as (r & w2 & doc2 & Hrun2 & _ & _ & _ & _ & Hc2 & Hcan2 & _ & _ & Hsame).
  assert (Hin : sub_day data ∈ default [] (completed_assessments doc2)).
  { destruct Hsame as [-> | (_ & usr1 & Husr1 & Hreset)].
    - by rewrite Hdoc1.
    - rewrite Hu1, lookup_insert_eq in Husr1. injection Husr1 as <-.
      destruct (set_assessment_array _ _ _ _ _ _ Hset) as [l Hl].
      by rewrite (completed_in_array _ _ _ Hl) in Hreset. }
  exists body, w1, r, w2, (default [] (completed_assessments doc2)).
  split; [done |]. split; [done |]. split.
  { destruct Hres as [[? _] | [_ ?]]; [by left | by right]. }
  split; [done |]. split; [done |]. split; [done |].
  intros Hcap. apply Hcan2. right. by exists (sub_day data).
Qed.

(** The run of [store_assessment] when no database call fails. *)
Lemma store_run_no_fault u (data : store_request) now w pid usr target result_score :
  faults w = [] ->
  st_phase_id data = Some pid ->
  users w !! u = Some usr ->
  get_task (default empty_roadmap (road_map usr)) pid
    (st_week_index data) (st_task_index data) = inr target ->
  st_assessment_result data = Some result_score ->
  exists rm',
    set_assessment (default empty_roadmap (road_map usr)) pid
      (st_week_index data) (st_task_index data)
      (store_record result_score target) = inr rm'
    /\ run (store_assessment u data now) w =
       (inr (Http200 tt),
        mk_world (<[u := mk_user (Some rm')]> (users w))
          (upsert_progress (u, pid)
             (mk_update None None None (Some now) (Some (st_day data)))
             (learning_progress w)) []).
Proof.
  intros Hf Hpid Husr Hget Hres.
  destruct (set_assessment_defined _ _ _ _ (store_record result_score target) _ Hget)
    as [rm' Hset].
  exists rm'. split; [done |].
  unfold store_assessment.
  rewrite run_try_except, run_bind, run_call, exec_no_fault by done.
  cbn [perform fst snd]. rewrite Husr, Hpid. cbn [key_of lift bind].
  rewrite Hget. cbn [lift bind]. rewrite Hres.
  change (mk_assessment _ _ _ _) with (store_record result_score target).
  rewrite Hset. cbn [lift bind].
  rewrite run_bind, run_call, exec_no_fault by done.
  cbn [perform fst snd]. rewrite Husr.
  rewrite run_bind, run_call, exec_no_fault by done.
  rewrite perform_upsert. cbn [fst snd run users learning_progress faults].
  by rewrite Hf.
Qed.

End SubmitThenCheck.

(** X10.  When no database call fails, [store_assessment] adds the day of the
    request to [completed_assessments] whatever the stored score, and unlocks
    nothing itself; unless the record then calls for a reconciliation, the
    status check that follows unlocks the next day (up to day 30). *)
Theorem store_assessment_marks_completed (user_id : string) (data : store_request)
    (now1 now2 : Z) (w : world) (pid : Z) (usr : user) (target : task)
    (result_score : option Z) :
  faults w = [] ->
  st_phase_id data = Some pid ->
  users w !! user_id = Some usr ->
  get_task (default empty_roadmap (road_map usr)) pid
    (st_week_index data) (st_task_index data) = inr target ->
  st_assessment_result data = Some result_score ->
  let before := default empty_progress (learning_progress w !! (user_id, pid)) in
  exists w1 doc1,
    run (store_assessment user_id data now1) w = (inr (Http200 tt), w1)
    /\ learning_progress w1 !! (user_id, pid) = Some doc1
    /\ st_day data ∈ default [] (completed_assessments doc1)
    /\ unlocked_days doc1 = unlocked_days before
    /\ ((length (default [] (unlocked_days before))
         <= length (default [] (completed_assessments before)) + 1)%nat ->
        st_day data + 1 <= 30 ->
        exists r w2,
          run (check_unlock_status user_id pid now2) w1 = (inr r, w2)
          /\ st_day data + 1 ∈ us_unlocked_days r).
Proof.
  intros Hf Hpid Husr Hget Hres before.
  destruct (store_run_no_fault user_id data now1 w pid usr target result_score
              Hf Hpid Husr Hget Hres) as (rm' & Hset & Hrun).
  eexists _, _. split; [exact Hrun |]. cbn [learning_progress].
  unfold upsert_progress. split; [apply lookup_insert_eq |].
  fold before. split; [apply add_to_set_elem |]. split; [done |].
  intros Hlen Hcap.
  set (w1 := mk_world _ _ _).
  destruct (check_run_settles user_id pid now2 w1 eq_refl)
    as (r & w2 & doc2 & Hrun2 & _ & _ & _ & _ & Hc2 & Hcan2 & _ & _ & Hsame).
  exists r, w2. split; [done |].
  assert (Hdoc1 : learning_progress w1 !! (user_id, pid)
            = Some (apply_update
                      (mk_update None None None (Some now1) (Some (st_day data)))
                      before)).
  { cbn. apply lookup_insert_eq. }
  rewrite Hdoc1 in Hsame. cbn [from_option id] in Hsame.
  assert (Hlen1 : (length (default [] (completed_assessments before))
                   <= length (default [] (completed_assessments
                        (apply_update
                           (mk_update None None None (Some now1) (Some (st_day data)))
                           before))))%nat).
  { cbn. destruct (completed_assessments before) as [l|]; cbn; [|lia].
    destruct (py_in _ l); cbn; [lia |]. rewrite length_app. lia. }
  destruct Hsame as [Hsame | (Hlt & _)].
  - apply Hcan2. right. exists (st_day data). rewrite Hsame.
    split; [apply add_to_set_elem | done].
  - exfalso. cbn [apply_update unlocked_days set_unlocked_days set_field] in Hlt.
    lia.
Qed.

Lemma passing_submission_unlocks_next_day_witness :
  exists body, (run (sample_submit 85 1 0 1) sample_world).1 = inr (Http200 body)
    /\ resp_passed body = true.
Proof.
  destruct (passing_submission_unlocks_next_day (fun a => bool_decide (is_Some a))
              (fixed_score 85) (fixed_score 85) "u"
              (mk_submission (Some 0) 1 (Some 0) (Some 0) (Some "theory"%string)
                 (Some tt) None) 1 2 sample_world 0 (mk_user (Some sample_roadmap))
              (mk_task (Some 1) None))
    as (body & w1 & r & w2 & c & Hrun & Hp & _).
  - reflexivity.
  - repeat split; try reflexivity. vm_compute. discriminate.
  - reflexivity.
  - reflexivity.
  - reflexivity.
  - exists body. split; [|done].
    change (run (sample_submit 85 1 0 1) sample_world = (inr (Http200 body), w1)) in Hrun.
    by rewrite Hrun.
Defined.

Lemma store_assessment_marks_completed_witness :
  exists doc1,
    learning_progress
      (run (store_assessment "u"
              (mk_store_request (Some 0) (Some 0) (Some 0) 1 (Some (Some 0))) 1)
         sample_world).2 !! ("u"%string, 0) = Some doc1
    /\ 1 ∈ default [] (completed_assessments doc1).
Proof.
  destruct (store_assessment_marks_completed "u"
              (mk_store_request (Some 0) (Some 0) (Some 0) 1 (Some (Some 0))) 1 2
              sample_world 0 (mk_user (Some sample_roadmap)) (mk_task (Some 1) None)
              (Some 0))
    as (w1 & doc1 & Hrun & Hdoc1 & Hin & _); try reflexivity.
  exists doc1. by rewrite Hrun.
Defined.

(** ** The readers of the curriculum document *)

Lemma run_reads {A} (p : proc A) w r w' :
  every_call op_reads p -> run p w = (r, w') -> same_stores w w'.
Proof.
  intros Hp Hrun.
  apply (run_every_call op_reads same_stores p) with (r := r); [| | | done | done].
  - by intros w0.
  - intros w1 w2 w3 [Hu1 Hp1] [Hu2 Hp2]. split; congruence.
  - intros B o w0 r0 w0' Ho Hex. by eapply exec_reads.
Qed.

Lemma check_passed_calls u p d : every_call op_reads (_check_assessment_passed u p d).
Proof.
  unfold _check_assessment_passed. apply every_call_try; [|done].
  apply every_call_bind; [by apply every_call_call |]. intros [usr|]; [|done].
  apply every_call_bind; [apply every_call_lift | done].
Qed.

Lemma check_existing_calls u data : every_call op_reads (check_existing_assessment u data).
Proof.
  unfold check_existing_assessment. apply every_call_try; [|done].
  apply every_call_bind; [by apply every_call_call |]. intros [usr|]; [|done].
  destruct (match ex_phase_id data with Some _ => _ | None => _ end) as [[] | t];
    try done.
  destruct (task_assessment t) as [a|]; [|done].
  by repeat case_bool_decide.
Qed.

(** X11.  [_check_assessment_passed] and [check_existing_assessment] only
    read: whichever database calls fail they return, and both collections
    are as before.  [_check_assessment_passed] answers [False] whatever the
    document holds: its [get] with the integer phase identifier raises on an
    array of phases and reads the empty phase otherwise. *)
Theorem readers_only_read (user_id : string) (phase_id day : Z)
    (data : existing_request) (w : world) :
  (exists w', run (_check_assessment_passed user_id phase_id day) w = (inr false, w')
     /\ same_stores w w')
  /\ (exists resp w', run (check_existing_assessment user_id data) w = (inr resp, w')
        /\ same_stores w w').
Proof.
  split.
  - destruct (run (_check_assessment_passed user_id phase_id day) w) as [r w'] eqn:Hrun.
    pose proof (run_reads _ _ _ _ (check_passed_calls user_id phase_id day) Hrun) as Hsame.
    exists w'. split; [|done]. revert Hrun. unfold _check_assessment_passed.
    rewrite run_try_except, run_bind, run_call.
    destruct (exec_cases (GetUserById user_id) w)
      as [(w1 & -> & _) | (w1 & -> & Hu1 & _)].
    { cbn. by intros [= <- <-]. }
    cbn [perform fst snd].
    destruct (users w1 !! user_id) as [usr|]; [|cbn; by intros [= <- <-]].
    rewrite run_bind.
    destruct (phase_schedule (default empty_roadmap (road_map usr)) phase_id)
      as [e | schedule] eqn:Hs; cbn [lift run]; [by intros [= <- <-] |].
    rewrite (phase_schedule_empty _ _ _ Hs). cbn. by intros [= <- <-].
  - destruct (run (check_existing_assessment user_id data) w) as [r w'] eqn:Hrun.
    pose proof (run_reads _ _ _ _ (check_existing_calls user_id data) Hrun) as Hsame.
    assert (Hres : match (run (check_existing_assessment user_id data) w).1 with
                   | inr _ => True | inl _ => False end).
    { apply run_every_result. unfold check_existing_assessment.
      cbn. intros [e | [usr|]]; cbn; try done.
      destruct (match ex_phase_id data with Some _ => _ | None => _ end) as [[] | t];
        try done.
      destruct (task_assessment t) as [a|]; [|done].
      by repeat case_bool_decide. }
    rewrite Hrun in Hres. destruct r as [e | resp]; [done |].
    by exists resp, w'.
Qed.

(** *** What [check_existing_assessment] reports after an assessment was written *)

Lemma check_existing_run_found u data w pid rm t :
  faults w = [] ->
  users w !! u = Some (mk_user (Some rm)) ->
  ex_phase_id data = Some pid ->
  get_task rm pid (ex_week_index data) (ex_task_index data) = inr t ->
  run (check_existing_assessment u data) w =
  (inr (Http200
          match task_assessment t with
          | Some assessment_record =>
              if bool_decide (a_completed assessment_record = Some true) then
                if bool_decide (70 <= default 0 (a_score assessment_record))
                then ExistingCompleted assessment_record
                else ExistingFailed assessment_record
              else ExistingNotTaken
          | None => ExistingNotTaken
          end), w).
Proof.
  intros Hf Hu Hpid Hget. unfold check_existing_assessment.
  rewrite run_try_except, run_bind, run_call, exec_no_fault by done.
  cbn [perform fst snd]. rewrite Hu. cbn [road_map from_option id].
  rewrite Hpid. cbn [key_of ebind]. rewrite Hget.
  destruct (task_assessment t) as [a|]; [|done].
  by repeat case_bool_decide.
Qed.

Section ExistingAfterSubmit.

Context {answers day_content : Type}.
Variable has_answers : option answers -> bool.
Variable theory coding : option answers -> option day_content -> evaluation.

Local Abbreviation submit :=
  (submit_assessment answers day_content has_answers theory coding).
Local Abbreviation score_of := (final_score answers day_content theory coding).

(** X12.  After a submission answered 200, [check_existing_assessment] for
    the same place reports the record as [completed] when the submission
    passed, with the score and the attempt count of the answer, and as
    [not_taken] when it failed: a failed submission is never reported as
    [failed]. *)
Theorem check_existing_after_submit (user_id : string)
    (data : submission answers day_content) (now : Z) (w w1 : world)
    (body : submit_response) :
  run (submit user_id data now) w = (inr (Http200 body), w1) ->
  faults w1 = [] ->
  exists st,
    run (check_existing_assessment user_id
           (mk_existing_request (sub_phase_id data) (sub_week_index data)
              (sub_task_index data))) w1 = (inr (Http200 st), w1)
    /\ (if resp_passed body
        then exists a, st = ExistingCompleted a
               /\ a_score a = Some (resp_score body)
               /\ a_attempts a = Some (resp_attempts body)
        else st = ExistingNotTaken).
Proof.
  intros Hrun Hf1.
  destruct (submit_run has_answers theory coding user_id data now w)
    as (resp & w' & Hrun' & Hcases).
  rewrite Hrun in Hrun'. injection Hrun' as <- <-.
  destruct Hcases as [(_ & _ & Hno) | (pid & usr & target & rm' & Hpid & Husr & Hget
                                        & Hset & Hu1 & _ & Hbody)].
  { by destruct (Hno body). }
  destruct (Hbody body eq_refl) as (Hp & Hs & Ha).
  apply get_task_set_assessment in Hset as (t & Hget' & Hnew).
  assert (Hu : users w1 !! user_id = Some (mk_user (Some rm'))).
  { rewrite Hu1. apply lookup_insert_eq. }
  rewrite (check_existing_run_found user_id
             (mk_existing_request (sub_phase_id data) (sub_week_index data)
                (sub_task_index data)) w1 pid rm' _ Hf1 Hu Hpid Hnew).
  eexists. split; [reflexivity |].
  cbn [task_assessment submit_record a_completed a_score from_option id].
  rewrite Hp. destruct (bool_decide (70 <= score_of data)) eqn:Hpass.
  - rewrite bool_decide_eq_true_2 by done.
    eexists. split; [reflexivity |]. cbn. rewrite Hs, Ha.
    rewrite Hget in Hget'. by injection Hget' as <-.
  - by rewrite bool_decide_eq_false_2.
Qed.

End ExistingAfterSubmit.

(** X13.  After [store_assessment], when no database call fails,
    [check_existing_assessment] for the same place reports the stored record
    as [completed] when its score is at least 70 and as [failed] otherwise. *)
Theorem check_existing_after_store (user_id : string) (data : store_request)
    (now : Z) (w : world) (pid : Z) (usr : user) (target : task)
    (result_score : option Z) :
  faults w = [] ->
  st_phase_id data = Some pid ->
  users w !! user_id = Some usr ->
  get_task (default empty_roadmap (road_map usr)) pid
    (st_week_index data) (st_task_index data) = inr target ->
  st_assessment_result data = Some result_score ->
  exists w1,
    run (store_assessment user_id data now) w = (inr (Http200 tt), w1)
    /\ run (check_existing_assessment user_id
              (mk_existing_request (st_phase_id data) (st_week_index data)
                 (st_task_index data))) w1
       = (inr (Http200
                 (if bool_decide (70 <= default 0 result_score)
                  then ExistingCompleted (store_record result_score target)
                  else ExistingFailed (store_record result_score target))), w1).
Proof.
  intros Hf Hpid Husr Hget Hres.
  destruct (store_run_no_fault user_id data now w pid usr target result_score
              Hf Hpid Husr Hget Hres) as (rm' & Hset & Hrun).
  eexists. split; [exact Hrun |].
  apply get_task_set_assessment in Hset as (t & Hget' & Hnew).
  set (w1 := mk_world _ _ _).
  assert (Hu : users w1 !! user_id = Some (mk_user (Some rm'))).
  { cbn. apply lookup_insert_eq. }
  rewrite (check_existing_run_found user_id
             (mk_existing_request (st_phase_id data) (st_week_index data)
                (st_task_index data)) w1 pid rm' _ eq_refl Hu Hpid Hnew).
  cbn [task_assessment store_record a_completed a_score from_option id].
  by rewrite bool_decide_eq_true_2 by done.
Qed.

Lemma check_existing_after_submit_witness :
  exists st,
    run (check_existing_assessment "u"
           (mk_existing_request (Some 0) (Some 0) (Some 0)))
      (run (sample_submit 40 1 0 1) sample_world).2
    = (inr (Http200 st), (run (sample_submit 40 1 0 1) sample_world).2)
    /\ st = ExistingNotTaken.
Proof.
  destruct (check_existing_after_submit (fun a => bool_decide (is_Some a))
              (fixed_score 40) (fixed_score 40) "u"
              (mk_submission (Some 0) 1 (Some 0) (Some 0) (Some "theory"%string)
                 (Some tt) None) 1 sample_world
              (run (sample_submit 40 1 0 1) sample_world).2
              (mk_submit_response false 1 40 None None))
    as (st & Hrun & Hst).
  - vm_compute. reflexivity.
  - vm_compute. reflexivity.
  - exists st. split; [exact Hrun | exact Hst].
Defined.

Lemma check_existing_after_store_witness :
  exists w1 a,
    run (check_existing_assessment "u"
           (mk_existing_request (Some 0) (Some 0) (Some 0))) w1
    = (inr (Http200 (ExistingFailed a)), w1)
    /\ a_score a = Some 40.
Proof.
  destruct (check_existing_after_store "u"
              (mk_store_request (Some 0) (Some 0) (Some 0) 1 (Some (Some 40))) 1
              sample_world 0 (mk_user (Some sample_roadmap)) (mk_task (Some 1) None)
              (Some 40))
    as (w1 & _ & Hrun); try reflexivity.
  exists w1, (store_record (Some 40) (mk_task (Some 1) None)).
  split; [exact Hrun | reflexivity].
Defined.

(** ** The page of an assessment *)

Lemma py_index_of_nat {A} (l : list A) (i : nat) : py_index l (Z.of_nat i) = l !! i.
Proof. unfold py_index. rewrite decide_True by lia. by rewrite Nat2Z.id. Qed.

Lemma get_task_of_nat rm pid (wi ti : nat) t :
  get_task rm pid (Some (Z.of_nat wi)) (Some (Z.of_nat ti)) = inr t <->
  exists wk tasks,
    document_schedule rm pid !! wi = Some wk /\ daily_tasks wk = Some tasks
    /\ tasks !! ti = Some t.
Proof.
  unfold get_task, document_schedule.
  destruct (phase_item rm pid) as [e | ph]; cbn [ebind].
  { split; [done | by intros (? & ? & ? & _)]. }
  destruct (phase_learning_plan ph) as [lp|];
    cbn [key_of ebind from_option id weekly_schedule].
  2:{ split; [done | by intros (? & ? & ? & _)]. }
  destruct (weekly_schedule lp) as [weeks|]; cbn [key_of ebind from_option id].
  2:{ split; [done | by intros (? & ? & ? & _)]. }
  cbn [index_of ebind]. unfold item_of. rewrite py_index_of_nat.
  destruct (weeks !! wi) as [wk|]; cbn [ebind].
  2:{ split; [done | by intros (? & ? & ? & _)]. }
  destruct (daily_tasks wk) as [tasks|] eqn:Htasks; cbn [key_of ebind].
  2:{ split; [done |]. intros (wk' & tasks & [= <-] & Ht & _). congruence. }
  rewrite py_index_of_nat. split.
  - destruct (tasks !! ti) as [t0|] eqn:Ht; [|done]. intros [= <-]. by exists wk, tasks.
  - intros (wk' & tasks' & [= <-] & Ht' & Ht). rewrite Htasks in Ht'.
    injection Ht' as <-. by rewrite Ht.
Qed.

Lemma find_task_of_day_Some day tasks k i :
  find_task_of_day day tasks k = Some i ->
  exists j t,
    i = (k + j)%nat /\ tasks !! j = Some t
    /\ default (Z.of_nat i + 1) (task_day t) = day
    /\ forall j' t', (j' < j)%nat -> tasks !! j' = Some t' ->
         default (Z.of_nat (k + j') + 1) (task_day t') <> day.
Proof.
  revert k. induction tasks as [|t0 tasks IH]; intros k; cbn [find_task_of_day]; [done |].
  case_bool_decide as Hday.
  - intros [= <-]. exists 0%nat, t0. rewrite Nat.add_0_r.
    split; [done |]. split; [done |]. split; [done |]. intros j' t' Hlt. lia.
  - intros Hfind. destruct (IH _ Hfind) as (j & t & -> & Ht & Hd & Hfirst).
    exists (S j), t. split; [lia |]. split; [done |]. split; [done |].
    intros [|j'] t' Hlt Ht'.
    + injection Ht' as <-. by rewrite Nat.add_0_r.
    + replace (k + S j')%nat with (S k + j')%nat by lia.
      apply Hfirst; [lia | done].
Qed.

Lemma find_task_of_day_None day tasks k :
  find_task_of_day day tasks k = None ->
  forall j t, tasks !! j = Some t ->
    default (Z.of_nat (k + j) + 1) (task_day t) <> day.
Proof.
  revert k. induction tasks as [|t0 tasks IH]; intros k; cbn [find_task_of_day]; [done |].
  case_bool_decide as Hday; [done |].
  intros Hfind [|j] t Ht.
  - injection Ht as <-. by rewrite Nat.add_0_r.
  - replace (k + S j)%nat with (S k + j)%nat by lia. by apply IH.
Qed.

Lemma find_week_of_day_Some day weeks k wi ti :
  find_week_of_day day weeks k = Some (wi, ti) ->
  exists j wk t,
    wi = (k + j)%nat /\ weeks !! j = Some wk
    /\ default [] (daily_tasks wk) !! ti = Some t
    /\ default (Z.of_nat ti + 1) (task_day t) = day
    /\ forall j' wk' ti' t',
         weeks !! j' = Some wk' -> default [] (daily_tasks wk') !! ti' = Some t' ->
         default (Z.of_nat ti' + 1) (task_day t') = day ->
         (j < j' \/ (j = j' /\ ti <= ti'))%nat.
Proof.
  revert k. induction weeks as [|wk0 weeks IH]; intros k; cbn [find_week_of_day]; [done |].
  destruct (find_task_of_day day (default [] (daily_tasks wk0)) 0) as [t_idx|] eqn:Hfind.
  - intros [= <- <-].
    apply find_task_of_day_Some in Hfind as (j & t & -> & Ht & Hd & Hfirst).
    exists 0%nat, wk0, t. split; [lia |]. split; [done |]. split; [done |].
    split; [done |]. intros [|j'] wk' ti' t' Hwk' Ht' Hd'; [|left; lia].
    right. split; [done |]. injection Hwk' as <-.
    destruct (decide (ti' < 0 + j)%nat) as [Hlt|]; [|lia].
    by destruct (Hfirst ti' t' Hlt Ht').
  - intros Hrest. destruct (IH _ Hrest) as (j & wk & t & -> & Hwk & Ht & Hd & Hfirst).
    exists (S j), wk, t. split; [lia |]. split; [done |]. split; [done |].
    split; [done |]. intros [|j'] wk' ti' t' Hwk' Ht' Hd'.
    + injection Hwk' as <-.
      by destruct (find_task_of_day_None _ _ _ Hfind ti' t' Ht').
    + destruct (Hfirst j' wk' ti' t' Hwk' Ht' Hd') as [? | [? ?]]; [left | right]; lia.
Qed.

(** The status check always answers, with a canonical unlock set, and leaves
    the users collection alone. *)
Lemma check_run_canonical u p now w :
  exists r w',
    run (check_unlock_status u p now) w = (inr r, w')
    /\ users w' = users w
    /\ exists completed, canonical completed (us_unlocked_days r).
Proof.
  unfold check_unlock_status. rewrite run_try_except.
  destruct (check_body_cases u p now w)
    as [(w' & -> & _ & Hu) | (r & w' & -> & Hu & c & _ & Hcan & _)].
  - exists default_status, w'. split; [done |]. split; [done |]. exists [].
    intros x. cbn. rewrite list_elem_of_singleton. split; [by left |].
    intros [-> | (d & Hd & _)]; [done | by apply elem_of_nil in Hd].
  - exists r, w'. split; [done |]. split; [done |]. by exists c.
Qed.

(** A rendered page: the status check listed the day, and the search of
    the learner's phase found the place. *)
Lemma take_assessment_run u p day now w w' wi ti :
  run (take_assessment u p day now) w = (inr (TakeRender wi ti), w') ->
  exists r w1 usr,
    run (check_unlock_status u p now) w = (inr r, w1)
    /\ day ∈ us_unlocked_days r /\ day <= 30
    /\ users w !! u = Some usr
    /\ find_week_of_day day
         (document_schedule (default empty_roadmap (road_map usr)) p) 0 = Some (wi, ti).
Proof.
  unfold take_assessment. rewrite run_bind.
  destruct (check_run_canonical u p now w) as (r & w1 & Hcheck & Hu1 & c & Hcan).
  rewrite Hcheck.
  destruct (py_in day (us_unlocked_days r)) eqn:Hin; cbn [negb]; [|done].
  apply py_in_true in Hin.
  rewrite run_bind, run_call.
  destruct (exec_cases (GetUserById u) w1)
    as [(w2 & -> & _) | (w2 & -> & Hu2 & _)]; [done |].
  cbn [perform fst snd]. rewrite Hu2, Hu1.
  destruct (users w !! u) as [usr|] eqn:Husr; [|done].
  destruct (phase_item (default empty_roadmap (road_map usr)) p) as [e | ph] eqn:Hph;
    [done |].
  destruct (find_week_of_day day _ 0) as [[w_idx t_idx]|] eqn:Hfind; [|done].
  cbn [run]. intros [= <- <- <-].
  exists r, w1, usr. split; [done |]. split; [done |]. split.
  { apply Hcan in Hin as [-> | (d & _ & _ & Hle)]; [lia | done]. }
  split; [done |]. unfold document_schedule. by rewrite Hph.
Qed.

(** X14.  [take_assessment] shows the page only for a day that the status
    check it runs first reports as unlocked, hence for no day beyond 30; the
    place it hands to the page is a task of the learner's phase whose day
    ([t_idx + 1] without a [day] key) is the day asked for, and the first
    such task in document order. *)
Theorem take_assessment_renders_unlocked_task (user_id : string)
    (phase_id day now : Z) (w w' : world) (week_index task_index : nat) :
  run (take_assessment user_id phase_id day now) w
    = (inr (TakeRender week_index task_index), w') ->
  exists r w1 usr t,
    run (check_unlock_status user_id phase_id now) w = (inr r, w1)
    /\ day ∈ us_unlocked_days r /\ day <= 30
    /\ users w !! user_id = Some usr
    /\ get_task (default empty_roadmap (road_map usr)) phase_id
         (Some (Z.of_nat week_index)) (Some (Z.of_nat task_index)) = inr t
    /\ default (Z.of_nat task_index + 1) (task_day t) = day
    /\ forall (wi ti : nat) t',
         get_task (default empty_roadmap (road_map usr)) phase_id
           (Some (Z.of_nat wi)) (Some (Z.of_nat ti)) = inr t' ->
         default (Z.of_nat ti + 1) (task_day t') = day ->
         (week_index < wi \/ (week_index = wi /\ task_index <= ti))%nat.
Proof.
  intros Hrun.
  apply take_assessment_run in Hrun as (r & w1 & usr & Hcheck & Hin & Hle & Husr & Hfind).
  apply find_week_of_day_Some in Hfind as (j & wk & t & -> & Hwk & Ht & Hd & Hfirst).
  exists r, w1, usr, t. split; [done |]. split; [done |]. split; [done |].
  split; [done |]. split.
  { apply get_task_of_nat. cbn [Nat.add].
    destruct (daily_tasks wk) as [tasks|] eqn:Htasks; [|done].
    by exists wk, tasks. }
  split; [done |].
  intros wi ti t' Hget Hd'.
  apply get_task_of_nat in Hget as (wk' & tasks' & Hwk' & Htasks' & Ht').
  cbn [Nat.add]. apply (Hfirst wi wk' ti t'); [done | by rewrite Htasks' | done].
Qed.

Lemma take_assessment_renders_unlocked_task_witness :
  exists usr t,
    users day_one_passed_world !! "u"%string = Some usr
    /\ get_task (default empty_roadmap (road_map usr)) 0 (Some 0) (Some 1) = inr t
    /\ default 2 (task_day t) = 2.
Proof.
  destruct (take_assessment_renders_unlocked_task "u" 0 2 5 day_one_passed_world
              (run (take_assessment "u" 0 2 5) day_one_passed_world).2 0 1)
    as (r & w1 & usr & t & _ & _ & _ & Husr & Hget & Hd & _).
  - vm_compute. reflexivity.
  - exists usr, t. split; [exact Husr |]. split; [exact Hget | exact Hd].
Defined.

(** ** Renumbering the days of a phase *)

(** X15.  [fix_day_numbering] renumbers nothing.  For an integer phase
    identifier its [get] raises on an array of phases and reads the empty
    phase otherwise, so that it finds no task: whichever database calls
    fail, it answers, never with [success], and both collections are as
    before.  When no call fails the answer is the error of the failed [get]
    for an array of phases and [no_changes] otherwise, whatever the day
    numbers of the document. *)
Theorem fix_day_numbering_changes_nothing (user_id : string) (phase_id : Z)
    (w : world) :
  exists resp w',
    run (fix_day_numbering user_id phase_id) w = (inr resp, w')
    /\ same_stores w w'
    /\ (forall changes, resp <> Http200 (FixSuccess changes))
    /\ (faults w = [] -> forall usr, users w !! user_id = Some usr ->
        resp = match phases (default empty_roadmap (road_map usr)) with
               | Some (PhasesArray _) => Http500 AttributeError
               | _ => Http200 FixNoChanges
               end).
Proof.
  unfold fix_day_numbering. rewrite run_try_except, run_bind, run_call.
  destruct (exec_cases (GetUserById user_id) w)
    as [(w1 & -> & Hu1 & Hlp1 & Hne1) | (w1 & -> & Hu1 & Hlp1 & Hnf1)].
  { eexists _, _. split; [reflexivity |]. split; [done |]. split; [done |]. done. }
  cbn [perform fst snd]. rewrite Hu1.
  destruct (users w !! user_id) as [usr|] eqn:Husr.
  2:{ eexists _, _. split; [reflexivity |]. split; [done |]. split; [done |].
      by intros _ usr [=]. }
  rewrite run_bind. unfold phase_schedule, get_phase.
  destruct (phases (default empty_roadmap (road_map usr))) as [[l | m]|] eqn:Hph;
    cbn [ebind lift run from_option id phase_learning_plan weekly_schedule];
    try rewrite (bool_decide_eq_false_2 (schedule_changes [] <> 0%nat)) by (by intros []);
    cbn [run];
    eexists _, _; (split; [reflexivity |]); (split; [done |]); (split; [done |]);
    intros _ usr' [= <-]; by rewrite Hph.
Qed.

Lemma fix_day_numbering_changes_nothing_witness :
  (run (fix_day_numbering "u" 0) sample_world).1 = inr (Http500 AttributeError).
Proof.
  destruct (fix_day_numbering_changes_nothing "u" 0 sample_world)
    as (resp & w' & Hrun & _ & _ & Hresp).
  rewrite Hrun. cbn [fst]. f_equal.
  exact (Hresp eq_refl (mk_user (Some sample_roadmap)) eq_refl).
Defined.

(** ** The scores of the evaluators *)

Lemma answered_count_bounds strip items :
  0 <= answered_count strip items <= Z.of_nat (length items).
Proof.
  induction items as [|item items IH]; cbn [answered_count length]; [lia |].
  destruct (answered strip item); lia.
Qed.

(** The loop of [strict_theory_evaluation] counts the answered items and
    gives each of them between 5 and 25 points. *)
Lemma foldl_theory_step strip lower items a s :
  exists pts,
    foldl (theory_step strip lower) (a, s) items
    = (a + answered_count strip items, s + pts)
    /\ 5 * answered_count strip items <= pts <= 25 * answered_count strip items
    /\ (Forall (long_answer strip lower) items -> pts = 25 * Z.of_nat (length items)
        /\ answered_count strip items = Z.of_nat (length items)).
Proof.
  revert a s. induction items as [|item items IH]; intros a s; cbn [foldl].
  - exists 0. cbn. rewrite !Z.add_0_r. split; [done |]. split; [lia |]. intros _. lia.
  - unfold theory_step at 2. cbn [answered_count length]. fold (answered strip item).
    destruct (answered strip item) eqn:Hans.
    + match goal with |- context [foldl _ (a + 1, ?s') items] =>
        destruct (IH (a + 1) s') as (pts & -> & Hb & Hall);
        exists (s' - s + pts) end.
      split; [f_equal; lia |]. split.
      * repeat case_bool_decide; lia.
      * intros HF. inversion HF as [|? ? [_ Hlong] HF']; subst.
        destruct (Hall HF') as [-> Hc]. rewrite bool_decide_eq_true_2 by done. lia.
    + destruct (IH a s) as (pts & -> & Hb & Hall). exists pts.
      split; [f_equal; lia |]. split; [lia |].
      intros HF. inversion HF as [|? ? [Hyes _] HF']; subst. congruence.
Qed.

(** X18.  The score of [strict_theory_evaluation] lies between 0 and 100.  It
    reaches the pass mark 70 only for a dict of answers in which 25 points
    for each answered question outweigh 70 plus 20 for each unanswered one,
    so never with fewer than three answered questions; three or more
    questions all answered with more than ten characters pass. *)
Theorem strict_theory_evaluation_score {day_content : Type}
    (strip lower : string -> string) (answers : option user_answers)
    (content : option day_content) :
  let score := default 0 (ev_score (strict_theory_evaluation strip lower answers content)) in
  0 <= score <= 100
  /\ (70 <= score ->
      exists items, answers = Some (AnswersDict items)
        /\ 3 <= answered_count strip items
        /\ 70 + 20 * (Z.of_nat (length items) - answered_count strip items)
           <= 25 * answered_count strip items)
  /\ (forall items, answers = Some (AnswersDict items) ->
        (3 <= length items)%nat -> Forall (long_answer strip lower) items ->
        70 <= score).
Proof.
  unfold strict_theory_evaluation.
  destruct answers as [[items|]|]; cbn zeta.
  2,3: cbn; split; [lia |]; split; [lia | by intros items [=]].
  destruct (foldl_theory_step strip lower items 0 0) as (pts & -> & Hb & Hall).
  pose proof (answered_count_bounds strip items) as Hc.
  cbn [ev_score from_option id]. split; [lia |]. split.
  - intros Hpass. exists items. split; [done |]. lia.
  - intros items' [= <-] Hlen HF. destruct (Hall HF) as [-> ->]. lia.
Qed.

(** X19.  The score of [strict_coding_evaluation] lies between 0 and 100.  It
    reaches the pass mark only with a description of more than 20 characters
    (stripped); when the address does not name github.com it passes only
    with a description of more than 50 characters that names both a
    documentation and a testing keyword, and then at score 70. *)
Theorem strict_coding_evaluation_score {day_content : Type}
    (strip lower : string -> string) (contains : string -> string -> bool)
    (answers : option user_answers) (content : option day_content) :
  let score :=
    default 0 (ev_score (strict_coding_evaluation strip lower contains answers content)) in
  0 <= score <= 100
  /\ (70 <= score ->
      exists items, answers = Some (AnswersDict items)
        /\ py_get items "description" <> ""%string
        /\ 20 < py_len (strip (py_get items "description"))
        /\ (contains "github.com" (py_get items "github_url") = false ->
            score = 70
            /\ 50 < py_len (strip (py_get items "description"))
            /\ existsb (fun keyword =>
                          contains keyword (lower (py_get items "description")))
                 ["readme"; "documentation"; "comments"]%string = true
            /\ existsb (fun keyword =>
                          contains keyword (lower (py_get items "description")))
                 ["test"; "error"; "validation"]%string = true)).
Proof.
  unfold strict_coding_evaluation.
  destruct answers as [[items|]|]; cbn zeta.
  2,3: cbn; split; [lia |]; intros; lia.
  set (github_url := py_get items "github_url").
  set (description := py_get items "description").
  destruct (py_bool description) eqn:Hd; cbn [andb].
  2:{ destruct (py_bool github_url && contains "github.com" github_url);
        cbn [ev_score from_option id]; (split; [lia |]); intros; lia. }
  assert (Hne : description <> ""%string).
  { unfold py_bool in Hd. by apply negb_true_iff, bool_decide_eq_false in Hd. }
  destruct (py_bool github_url) eqn:Hu;
    destruct (contains "github.com" github_url) eqn:Hgh; cbn [andb];
    destruct (bool_decide (50 < py_len (strip description))) eqn:H50;
    destruct (bool_decide (20 < py_len (strip description))) eqn:H20;
    destruct (existsb _ ["readme"; "documentation"; "comments"]%string) eqn:Hdoc;
    destruct (existsb _ ["test"; "error"; "validation"]%string) eqn:Htest;
    cbn [ev_score from_option id];
    first [apply bool_decide_eq_true in H50 | apply bool_decide_eq_false in H50];
    first [apply bool_decide_eq_true in H20 | apply bool_decide_eq_false in H20];
    (split; [lia |]); intros Hpass; try lia;
    exists items; fold github_url description;
    (split; [done |]); (split; [exact Hne |]); (split; [lia |]);
    intros Hno; try congruence;
    (split; [lia |]); (split; [lia |]); split; assumption.
Qed.

(** X20.  A submission that is not of type [coding] and has fewer than three
    answered questions never passes: whatever the stored state and whichever
    database calls fail, [submit_assessment] with the evaluators above
    answers, reports no pass, and leaves every progress record as it is. *)
Theorem theory_submission_needs_three_answers {day_content : Type}
    (has_answers : option user_answers -> bool)
    (strip lower : string -> string) (contains : string -> string -> bool)
    (user_id : string) (data : submission user_answers day_content) (now : Z)
    (w : world) (items : list (string * string)) :
  sub_assessment_type data <> Some "coding"%string ->
  sub_assessment_answers data = Some (AnswersDict items) ->
  answered_count strip items < 3 ->
  exists resp w',
    run (submit_assessment user_answers day_content has_answers
           (strict_theory_evaluation strip lower)
           (strict_coding_evaluation strip lower contains) user_id data now) w
    = (inr resp, w')
    /\ learning_progress w' = learning_progress w
    /\ forall body, resp = Http200 body -> resp_passed body = false.
Proof.
  intros Htype Hans Hfew.
  assert (Hscore : final_score user_answers day_content
                     (strict_theory_evaluation strip lower)
                     (strict_coding_evaluation strip lower contains) data < 70).
  { unfold final_score, evaluate.
    rewrite (bool_decide_eq_false_2 (_ = Some "coding"%string)) by done.
    assert (H : default 0 (ev_score (strict_theory_evaluation strip lower
                  (sub_assessment_answers data) (sub_day_content data))) < 70).
    { unfold strict_theory_evaluation. rewrite Hans.
      destruct (foldl_theory_step strip lower items 0 0) as (pts & -> & Hb & _).
      pose proof (answered_count_bounds strip items).
      cbn [ev_score from_option id]. lia. }
    by case_bool_decide. }
  destruct (submit_run has_answers (strict_theory_evaluation strip lower)
              (strict_coding_evaluation strip lower contains) user_id data now w)
    as (resp & w' & Hrun & Hcases).
  exists resp, w'. split; [done |].
  destruct Hcases as [(_ & Hlp & Hno) | (pid & usr & target & rm' & _ & _ & _ & _ & _
                                         & Hlp & Hbody)].
  - split; [done |]. intros body ->. by destruct (Hno body).
  - split; [by apply Hlp |]. intros body Hresp.
    destruct (Hbody body Hresp) as (-> & _). apply bool_decide_eq_false_2. lia.
Qed.

Lemma theory_submission_needs_three_answers_witness :
  exists resp w',
    run (submit_assessment user_answers unit (fun a => bool_decide (is_Some a))
           (strict_theory_evaluation id id)
           (strict_coding_evaluation id id (fun _ _ => false)) "u"
           (mk_submission (Some 0) 1 (Some 0) (Some 0) (Some "theory"%string)
              (Some (AnswersDict [("q1", "a long enough answer");
                                  ("q2", "another long answer")]%string))
              None) 1) sample_world
    = (inr resp, w')
    /\ learning_progress w' = learning_progress sample_world.
Proof.
  destruct (theory_submission_needs_three_answers (fun a => bool_decide (is_Some a))
              id id (fun _ _ => false) "u"
              (mk_submission (Some 0) 1 (Some 0) (Some 0) (Some "theory"%string)
                 (Some (AnswersDict [("q1", "a long enough answer");
                                     ("q2", "another long answer")]%string))
                 (None : option unit)) 1 sample_world
              [("q1", "a long enough answer"); ("q2", "another long answer")]%string)
    as (resp & w' & Hrun & Hlp & _).
  - discriminate.
  - reflexivity.
  - vm_compute. reflexivity.
  - by exists resp, w'.
Defined.

(** ** Delay detection and the adaptations it leads to *)

Section Delays.

Import AdaptiveRoadmapManager AdaptiveRoadmapDelays.

Lemma count_of_length l : count_of true l + count_of false l = Z.of_nat (length l).
Proof. induction l as [|[] l IH]; cbn [count_of length Bool.eqb]; lia. Qed.

Lemma count_of_nonneg b l : 0 <= count_of b l.
Proof. induction l as [|x l IH]; cbn [count_of]; [lia |]. destruct (Bool.eqb x b); lia. Qed.

Lemma foldl_weeks {A B} (f : A -> B -> A) (weeks : list (list B)) a :
  foldl (fun c week => foldl f c week) a weeks = foldl f a (concat weeks).
Proof.
  revert a. induction weeks as [|week weeks IH]; intros a; cbn [foldl concat]; [done |].
  by rewrite foldl_app, IH.
Qed.

(** The counters after the loop, in terms of the tasks that are due. *)
Lemma count_task_fold d l c :
  0 <= current_streak c ->
  let c' := foldl (count_task d) c l in
  let window := take (Z.to_nat (d - day_count c)) l in
  total_expected_by_now c' = total_expected_by_now c + Z.of_nat (length window)
  /\ total_completed c' = total_completed c + count_of true window
  /\ missed_days_streak c <= missed_days_streak c'
  /\ missed_days_streak c'
     <= Z.max (missed_days_streak c) (current_streak c + count_of false window)
  /\ (0 < count_of false window -> 1 <= missed_days_streak c').
Proof.
  revert c. induction l as [|x l IH]; intros c Hcur; cbn zeta.
  - rewrite take_nil. cbn. lia.
  - cbn [foldl]. unfold count_task at 2 4 6 8 10.
    case_bool_decide as Hdue.
    + replace (Z.to_nat (d - day_count c))
        with (S (Z.to_nat (d - (day_count c + 1)))) by lia.
      cbn [firstn length count_of].
      destruct x; cbn [Bool.eqb].
      * match goal with |- context [foldl _ ?c1 l] =>
          destruct (IH c1) as (He & Hc & Hm1 & Hm2 & Hm3); [cbn; lia |] end.
        cbn [day_count total_expected_by_now total_completed missed_days_streak
             current_streak] in *.
        rewrite He, Hc. repeat split; try lia.
      * match goal with |- context [foldl _ ?c1 l] =>
          destruct (IH c1) as (He & Hc & Hm1 & Hm2 & Hm3); [cbn; lia |] end.
        cbn [day_count total_expected_by_now total_completed missed_days_streak
             current_streak] in *.
        rewrite He, Hc. pose proof (count_of_nonneg false
          (take (Z.to_nat (d - (day_count c + 1))) l)). repeat split; try lia.
    + replace (Z.to_nat (d - day_count c)) with 0%nat by lia.
      match goal with |- context [foldl _ ?c1 l] =>
        destruct (IH c1) as (He & Hc & Hm1 & Hm2 & Hm3); [cbn; lia |] end.
      cbn [day_count total_expected_by_now total_completed missed_days_streak
           current_streak] in *.
      replace (Z.to_nat (d - (day_count c + 1))) with 0%nat in * by lia.
      rewrite take_0 in He, Hc, Hm2, Hm3.
      cbn [firstn length count_of] in *. rewrite He, Hc. repeat split; lia.
Qed.

(** X21.  [_analyze_phase_delays] looks at the tasks that are due by now, the
    first [days_since_start] tasks of the phase in document order, and at
    nothing else: [expected_by_now] is their number, [actually_completed] the
    number of finished ones and [days_behind] the number of unfinished ones,
    so tasks finished ahead of schedule make up for no missed day; the
    longest missed streak is at most [days_behind] and is 0 only when no due
    task is unfinished. *)
Theorem analyze_phase_delays_counts_due_tasks (phase : phase_view) :
  let r := _analyze_phase_delays phase in
  expected_by_now r = Z.of_nat (length (due_tasks phase))
  /\ actually_completed r = count_of true (due_tasks phase)
  /\ days_behind r = count_of false (due_tasks phase)
  /\ 0 <= longest_missed_streak r <= days_behind r
  /\ (longest_missed_streak r = 0 <-> days_behind r = 0).
Proof.
  unfold _analyze_phase_delays, due_tasks. rewrite foldl_weeks.
  destruct (count_task_fold (days_since_start phase) (concat (weekly_completed phase))
              (mk_counters 0 0 0 0 0)) as (He & Hc & Hm1 & Hm2 & Hm3); [cbn; lia |].
  cbn [day_count total_expected_by_now total_completed missed_days_streak
       current_streak] in *.
  rewrite Z.sub_0_r in *.
  set (due := take _ _) in *.
  pose proof (count_of_length due). pose proof (count_of_nonneg false due).
  pose proof (count_of_nonneg true due).
  cbn [expected_by_now actually_completed days_behind longest_missed_streak].
  rewrite He, Hc. repeat split; lia.
Qed.

Lemma days_behind_nonneg phase : 0 <= days_behind (_analyze_phase_delays phase).
Proof. unfold _analyze_phase_delays. cbn [days_behind]. lia. Qed.

Lemma days_behind_no_schedule phase :
  weekly_completed phase = [] -> days_behind (_analyze_phase_delays phase) = 0.
Proof. unfold _analyze_phase_delays. intros ->. done. Qed.

Lemma foldl_detect_phase phases behind total :
  (foldl detect_phase (behind, total) phases).2 = total + sum_days_behind phases.
Proof.
  revert behind total. induction phases as [|phase phases IH]; intros behind total;
    cbn [foldl sum_days_behind]; [cbn; lia |].
  unfold detect_phase at 2. case_bool_decide as Hempty.
  - rewrite IH, (days_behind_no_schedule phase Hempty). lia.
  - pose proof (days_behind_nonneg phase). case_bool_decide; rewrite IH; cbn [snd]; lia.
Qed.

Lemma sum_days_behind_nonneg phases : 0 <= sum_days_behind phases.
Proof.
  induction phases as [|phase phases IH]; cbn [sum_days_behind]; [lia |].
  pose proof (days_behind_nonneg phase). lia.
Qed.

(** X22.  [_detect_delays] adds up the days behind of all phases, grades the
    total as low (0), medium (1 to 3), high (4 to 7) or critical (8 and
    more), and always gives exactly one recommendation. *)
Theorem detect_delays_grades_total (phases : list phase_view) :
  let found := _detect_delays phases in
  let total := total_days_behind (analysis found) in
  let risk := risk_level (analysis found) in
  total = sum_days_behind phases
  /\ (risk = "low"%string <-> total = 0)
  /\ (risk = "medium"%string <-> 1 <= total <= 3)
  /\ (risk = "high"%string <-> 4 <= total <= 7)
  /\ (risk = "critical"%string <-> 8 <= total)
  /\ length (recommendations found) = 1%nat.
Proof.
  unfold _detect_delays.
  pose proof (foldl_detect_phase phases [] 0) as Hsum.
  pose proof (sum_days_behind_nonneg phases) as Hpos.
  destruct (foldl detect_phase ([], 0) phases) as [behind total]. cbn [snd] in Hsum.
  cbn [analysis total_days_behind risk_level recommendations].
  split; [lia |].
  repeat case_bool_decide; cbn; (repeat split; try done; try lia; intros; lia).
Qed.

(** X23.  The adaptations generated from the delays detected: a catch-up plan
    is made exactly when the learner is behind, for the total of days
    behind and twice as many hours; a learner four or more days behind gets
    the timeline extended and the content simplified, and no increase in
    difficulty, whatever the learning velocity. *)
Theorem adaptations_follow_detected_delays (phases : list phase_view)
    (progress : progress_analysis) :
  let found := _detect_delays phases in
  let total := sum_days_behind phases in
  let adapted := _generate_adaptations progress (analysis found) in
  (total = 0 -> catch_up_plans adapted = [])
  /\ (0 < total ->
      catch_up_plans adapted = [mk_catch_up_plan "weekend_intensive" total (total * 2)])
  /\ (4 <= total ->
      schedule_adjustments adapted = [mk_adaptation "extend_timeline" "timeline_extension"]
      /\ content_modifications adapted
         = [mk_adaptation "simplify_content" "content_simplification"]
      /\ difficulty_changes adapted = []).
Proof.
  unfold _detect_delays.
  pose proof (foldl_detect_phase phases [] 0) as Hsum.
  destruct (foldl detect_phase ([], 0) phases) as [behind total]. cbn [snd] in Hsum.
  rewrite Z.add_0_l in Hsum. subst total.
  cbn [analysis]. unfold _generate_adaptations.
  cbn [risk_level total_days_behind catch_up_plans schedule_adjustments
       content_modifications difficulty_changes].
  split; [|split].
  - intros ->. by rewrite bool_decide_eq_false_2 by lia.
  - intros Hpos. by rewrite bool_decide_eq_true_2 by lia.
  - intros Hfour.
    rewrite (bool_decide_eq_false_2 (sum_days_behind phases = 0)) by lia.
    rewrite (bool_decide_eq_false_2 (sum_days_behind phases <= 3)) by lia.
    assert (Hrisk : bool_decide
              ((if bool_decide (sum_days_behind phases <= 7) then "high" else "critical")%string
               ∈ ["high"; "critical"]%string) = true).
    { apply bool_decide_eq_true. case_bool_decide; set_solver. }
    rewrite Hrisk, orb_true_r. done.
Qed.

End Delays.
